(** * ardupilot_sitl_gazebo_plugin: the Gazebo side of the plugin

    A shallow embedding of [src/apm_plugin_gazebo_side.cpp] and the
    properties of its initialisation, stepping, callbacks and rover
    parameter resolution.

    The plugin talks to Gazebo (worlds, models, joints, collisions), to
    Gazebo's transport layer, to sdformat and to the ROS console only through
    their public methods.  Those libraries are modelled here by the state
    each method reads or writes; the plugin's methods are then written over
    that state, statement by statement, in a small state-and-exception
    monad. *)

From Stdlib Require Import ZArith NArith String Ascii List PrimFloat Uint63.
From stdpp Require Import base option list gmap strings.

Set Warnings "-inexact-float".

Open Scope Z_scope.

(** ** C++ scalar types *)

(** [double] is IEEE 754 binary64, which is what the kernel's primitive
    floats are; decimal literals round to the nearest value on both sides. *)
Abbreviation double := float (only parsing).

(** Conversion of an [int32_t] to [double]; exact on the whole range. *)
Definition double_of_int32 (z : Z) : double :=
  if z <? 0 then PrimFloat.opp (PrimFloat.of_uint63 (Uint63.of_Z (- z)))
  else PrimFloat.of_uint63 (Uint63.of_Z z).

(** [std::string::compare]: negative, zero or positive. *)
Definition std_string_compare (a b : string) : Z :=
  match String.compare a b with
  | Eq => 0
  | Lt => -1
  | Gt => 1
  end.

(** [!n] on an [int]. *)
Definition lnot (n : Z) : bool := n =? 0.

(** The newline of a C string literal ([\n]). *)
Definition nl : string := String (ascii_of_nat 10) EmptyString.

(** ** Gazebo: common and physics *)

(** [gazebo::common::Time]: two [int32_t] fields. *)
Record Time := mkTime { sec : Z; nsec : Z }.

(** The part of [physics::Base::EntityType] that classifies shapes. *)
Inductive EntityType :=
| BASE | ENTITY | SHAPE
| BOX_SHAPE | CYLINDER_SHAPE | HEIGHTMAP_SHAPE | MAP_SHAPE | MULTIRAY_SHAPE
| RAY_SHAPE | PLANE_SHAPE | SPHERE_SHAPE | MESH_SHAPE | POLYLINE_SHAPE.

#[global] Instance EntityType_eq_dec : EqDecision EntityType.
Proof. solve_decision. Defined.

(** [physics::Shape] and its subclasses: the dynamic type of the object is
    the constructor, with the dimensions the subclass stores. *)
Inductive Shape :=
| BoxShape (sx sy sz : double)
| CylinderShape (radius length : double)
| SphereShape (radius : double)
| PlaneShape
| MeshShape
| HeightmapShape
| MapShape
| MultiRayShape
| RayShape
| PolylineShape.

(** The types a shape's constructors register with [Base::AddType]. *)
Definition shape_types (s : Shape) : list EntityType :=
  [BASE; SHAPE] ++
  match s with
  | BoxShape _ _ _ => [BOX_SHAPE]
  | CylinderShape _ _ => [CYLINDER_SHAPE]
  | SphereShape _ => [SPHERE_SHAPE]
  | PlaneShape => [PLANE_SHAPE]
  | MeshShape => [MESH_SHAPE]
  | HeightmapShape => [HEIGHTMAP_SHAPE]
  | MapShape => [MAP_SHAPE]
  | MultiRayShape => [MULTIRAY_SHAPE]
  | RayShape => [RAY_SHAPE]
  | PolylineShape => [POLYLINE_SHAPE]
  end.

(** [Base::HasType]. *)
Definition HasType (s : Shape) (t : EntityType) : bool :=
  bool_decide (t ∈ shape_types s).

(** [static_cast<physics::CylinderShape*>(p)->GetRadius()]: defined when
    the object is a cylinder, undefined behaviour (no value) otherwise. *)
Definition CylinderShape_GetRadius (s : Shape) : option double :=
  match s with
  | CylinderShape r _ => Some r
  | _ => None
  end.

(** [static_cast<physics::SphereShape*>(p)->GetRadius()], likewise. *)
Definition SphereShape_GetRadius (s : Shape) : option double :=
  match s with
  | SphereShape r => Some r
  | _ => None
  end.

Abbreviation ShapePtr := (option Shape) (only parsing).

(** [physics::Collision]. *)
Record Collision := mkCollision { GetShape : ShapePtr }.
Abbreviation CollisionPtr := (option Collision) (only parsing).

(** [physics::Link]: its collisions, in child order.  [Link::GetCollision]
    by index returns a null pointer past the end. *)
Record Link := mkLink { collisions : list Collision }.
Abbreviation LinkPtr := (option Link) (only parsing).

Definition GetCollision (l : Link) (id : nat) : CollisionPtr :=
  collisions l !! id.

(** [physics::Joint]: stops per axis index, the parameters written with
    [SetParam] per key and axis index, and the child link. *)
Record Joint := mkJoint {
  highStop : gmap nat double;
  lowStop : gmap nat double;
  param : gmap (string * nat) double;
  GetChild : LinkPtr
}.

Definition SetHighStop (index : nat) (angle : double) (j : Joint) : Joint :=
  {| highStop := <[index := angle]> (highStop j); lowStop := lowStop j;
     param := param j; GetChild := GetChild j |}.

Definition SetLowStop (index : nat) (angle : double) (j : Joint) : Joint :=
  {| highStop := highStop j; lowStop := <[index := angle]> (lowStop j);
     param := param j; GetChild := GetChild j |}.

Definition SetParam (key : string) (index : nat) (value : double) (j : Joint) : Joint :=
  {| highStop := highStop j; lowStop := lowStop j;
     param := <[(key, index) := value]> (param j); GetChild := GetChild j |}.

(** [physics::Model]: its joints by name. *)
Record Model := mkModel { joints : gmap string Joint }.

(** A [ModelPtr] is null or names a model of the world; a [JointPtr] is null
    or names a joint of a model.  The joint itself stays in the world, so a
    write through one pointer is seen through every other. *)
Abbreviation ModelPtr := (option string) (only parsing).
Abbreviation JointPtr := (option (string * string)) (only parsing).

(** [physics::PhysicsEngine]. *)
Record PhysicsEngine := mkPhysicsEngine { GetMaxStepSize : double }.

(** [physics::World].  [clock] is the physics engine's simulated clock: the
    simulated time once a given number of iterations has been run. *)
Record World := mkWorld {
  GetName : string;
  IsPaused : bool;
  GetIterations : N;
  clock : N -> Time;
  GetPhysicsEngine : PhysicsEngine;
  models : gmap string Model
}.
Abbreviation WorldPtr := (option World) (only parsing).

Definition GetSimTime (w : World) : Time := clock w (GetIterations w).

Definition GetModel (w : World) (name : string) : ModelPtr :=
  match models w !! name with
  | Some _ => Some name
  | None => None
  end.

Definition SetPaused (p : bool) (w : World) : World :=
  {| GetName := GetName w; IsPaused := p; GetIterations := GetIterations w;
     clock := clock w; GetPhysicsEngine := GetPhysicsEngine w; models := models w |}.

(** [World::Step(steps)]: pauses the world if it is not, then blocks until
    the update loop has run [steps] iterations. *)
Definition Step (steps : N) (w : World) : World :=
  {| GetName := GetName w; IsPaused := true;
     GetIterations := (GetIterations w + steps)%N;
     clock := clock w; GetPhysicsEngine := GetPhysicsEngine w; models := models w |}.

Definition set_models (ms : gmap string Model) (w : World) : World :=
  {| GetName := GetName w; IsPaused := IsPaused w; GetIterations := GetIterations w;
     clock := clock w; GetPhysicsEngine := GetPhysicsEngine w; models := ms |}.

(** ** sdformat *)

(** The value of a child element as [sdf::Element::Get<T>] returns it for
    each [T] the plugin asks for; the conversion from the element's text is
    sdformat's. *)
Record Param := mkParam {
  as_string : string;
  as_int : Z;
  as_double : double
}.

(** [sdf::Element]: the child elements by name. *)
Record Element := mkElement { elements : gmap string Param }.
Abbreviation ElementPtr := (option Element) (only parsing).

Definition HasElement (e : Element) (key : string) : bool :=
  bool_decide (is_Some (elements e !! key)).

(** [Get<T>] of a missing key returns [T()]. *)
Definition Get_string (e : Element) (key : string) : string :=
  from_option as_string EmptyString (elements e !! key).
Definition Get_int (e : Element) (key : string) : Z :=
  from_option as_int 0 (elements e !! key).
Definition Get_double (e : Element) (key : string) : double :=
  from_option as_double 0%float (elements e !! key).

(** ** Gazebo: messages and transport *)

(** [msgs::WorldControl]: the optional [pause] field. *)
Record WorldControl := mkWorldControl { pause : option bool }.
Definition has_pause (m : WorldControl) : bool := bool_decide (is_Some (pause m)).

(** [msgs::Model]: the [name] field. *)
Record ModelMsg := mkModelMsg { name : string }.

(** [msgs::Physics]: the two optional fields the plugin sets. *)
Inductive PhysicsType := ODE | BULLET | SIMBODY | DART.
Record Physics := mkPhysics {
  type : option PhysicsType;
  max_step_size : option double
}.
Definition Physics_default : Physics := {| type := None; max_step_size := None |}.
Definition set_type (t : PhysicsType) (m : Physics) : Physics :=
  {| type := Some t; max_step_size := max_step_size m |}.
Definition set_max_step_size (d : double) (m : Physics) : Physics :=
  {| type := type m; max_step_size := Some d |}.

(** The plugin's member functions registered as callbacks. *)
Inductive Callback := cb_on_gazebo_control | cb_on_gazebo_modelInfo | cb_on_gazebo_update.

(** [transport::Node] after [Init], and what it hands out. *)
Record Node := mkNode { topic_namespace : string }.
Abbreviation NodePtr := (option Node) (only parsing).
Record Publisher := mkPublisher { pub_topic : string }.
Record Subscriber := mkSubscriber { sub_topic : string; sub_callback : Callback }.
Record Connection := mkConnection { conn_callback : Callback }.

(** ** What the plugin does to the outside *)

(** A [printf] format: a literal, or a literal behind the header's
    [PLUGIN_LOG_PREPEND] prefix (adjacent literals concatenate). *)
Inductive Format :=
| Fmt (s : string)
| PrependFmt (s : string).

Inductive Arg :=
| ArgS (s : string)
| ArgD (d : Z)
| ArgF (f : double).

Inductive Event :=
| ev_ROS_INFO (fmt : Format) (args : list Arg)
| ev_Publish (topic : string) (msg : Physics)
| ev_Subscribe (topic : string) (cb : Callback)
| ev_ConnectWorldUpdateEnd (cb : Callback).

(** ** The plugin object *)

Record Plugin := mkPlugin {
  _parent_world : WorldPtr;
  _sdf : ElementPtr;
  _modelName : string;
  _nbMotorSpeed : Z;
  _isSimPaused : bool;
  _timeMsgAlreadyDisplayed : bool;
  _fdm_timestamp : double;
  _controlSub : option Subscriber;
  _modelInfoSub : option Subscriber;
  _updateConnection : option Connection;
  _rover_model : ModelPtr;
  node : NodePtr;
  wheelRadius : double;
  flWheelRadius : double;
  frWheelRadius : double;
  blWheelRadius : double;
  brWheelRadius : double;
  steeredWheelForce : double;
  frontTorque : double;
  backTorque : double;
  tireAngleRange : double;
  maxSpeed : double;
  maxSteer : double;
  aeroLoad : double;
  flWheelJoint : JointPtr;
  frWheelJoint : JointPtr;
  blWheelJoint : JointPtr;
  brWheelJoint : JointPtr;
  frWheelSteeringJoint : JointPtr;
  flWheelSteeringJoint : JointPtr
}.

Definition set__parent_world (v : WorldPtr) (this : Plugin) : Plugin :=
  {| _parent_world := v; _sdf := _sdf this; _modelName := _modelName this; _nbMotorSpeed :=
     _nbMotorSpeed this; _isSimPaused := _isSimPaused this; _timeMsgAlreadyDisplayed :=
     _timeMsgAlreadyDisplayed this; _fdm_timestamp := _fdm_timestamp this; _controlSub :=
     _controlSub this; _modelInfoSub := _modelInfoSub this; _updateConnection := _updateConnection
     this; _rover_model := _rover_model this; node := node this; wheelRadius := wheelRadius this;
     flWheelRadius := flWheelRadius this; frWheelRadius := frWheelRadius this; blWheelRadius :=
     blWheelRadius this; brWheelRadius := brWheelRadius this; steeredWheelForce :=
     steeredWheelForce this; frontTorque := frontTorque this; backTorque := backTorque this;
     tireAngleRange := tireAngleRange this; maxSpeed := maxSpeed this; maxSteer := maxSteer this;
     aeroLoad := aeroLoad this; flWheelJoint := flWheelJoint this; frWheelJoint := frWheelJoint
     this; blWheelJoint := blWheelJoint this; brWheelJoint := brWheelJoint this;
     frWheelSteeringJoint := frWheelSteeringJoint this; flWheelSteeringJoint :=
     flWheelSteeringJoint this |}.

Definition set__sdf (v : ElementPtr) (this : Plugin) : Plugin :=
  {| _parent_world := _parent_world this; _sdf := v; _modelName := _modelName this; _nbMotorSpeed
     := _nbMotorSpeed this; _isSimPaused := _isSimPaused this; _timeMsgAlreadyDisplayed :=
     _timeMsgAlreadyDisplayed this; _fdm_timestamp := _fdm_timestamp this; _controlSub :=
     _controlSub this; _modelInfoSub := _modelInfoSub this; _updateConnection := _updateConnection
     this; _rover_model := _rover_model this; node := node this; wheelRadius := wheelRadius this;
     flWheelRadius := flWheelRadius this; frWheelRadius := frWheelRadius this; blWheelRadius :=
     blWheelRadius this; brWheelRadius := brWheelRadius this; steeredWheelForce :=
     steeredWheelForce this; frontTorque := frontTorque this; backTorque := backTorque this;
     tireAngleRange := tireAngleRange this; maxSpeed := maxSpeed this; maxSteer := maxSteer this;
     aeroLoad := aeroLoad this; flWheelJoint := flWheelJoint this; frWheelJoint := frWheelJoint
     this; blWheelJoint := blWheelJoint this; brWheelJoint := brWheelJoint this;
     frWheelSteeringJoint := frWheelSteeringJoint this; flWheelSteeringJoint :=
     flWheelSteeringJoint this |}.

Definition set__modelName (v : string) (this : Plugin) : Plugin :=
  {| _parent_world := _parent_world this; _sdf := _sdf this; _modelName := v; _nbMotorSpeed :=
     _nbMotorSpeed this; _isSimPaused := _isSimPaused this; _timeMsgAlreadyDisplayed :=
     _timeMsgAlreadyDisplayed this; _fdm_timestamp := _fdm_timestamp this; _controlSub :=
     _controlSub this; _modelInfoSub := _modelInfoSub this; _updateConnection := _updateConnection
     this; _rover_model := _rover_model this; node := node this; wheelRadius := wheelRadius this;
     flWheelRadius := flWheelRadius this; frWheelRadius := frWheelRadius this; blWheelRadius :=
     blWheelRadius this; brWheelRadius := brWheelRadius this; steeredWheelForce :=
     steeredWheelForce this; frontTorque := frontTorque this; backTorque := backTorque this;
     tireAngleRange := tireAngleRange this; maxSpeed := maxSpeed this; maxSteer := maxSteer this;
     aeroLoad := aeroLoad this; flWheelJoint := flWheelJoint this; frWheelJoint := frWheelJoint
     this; blWheelJoint := blWheelJoint this; brWheelJoint := brWheelJoint this;
     frWheelSteeringJoint := frWheelSteeringJoint this; flWheelSteeringJoint :=
     flWheelSteeringJoint this |}.

Definition set__nbMotorSpeed (v : Z) (this : Plugin) : Plugin :=
  {| _parent_world := _parent_world this; _sdf := _sdf this; _modelName := _modelName this;
     _nbMotorSpeed := v; _isSimPaused := _isSimPaused this; _timeMsgAlreadyDisplayed :=
     _timeMsgAlreadyDisplayed this; _fdm_timestamp := _fdm_timestamp this; _controlSub :=
     _controlSub this; _modelInfoSub := _modelInfoSub this; _updateConnection := _updateConnection
     this; _rover_model := _rover_model this; node := node this; wheelRadius := wheelRadius this;
     flWheelRadius := flWheelRadius this; frWheelRadius := frWheelRadius this; blWheelRadius :=
     blWheelRadius this; brWheelRadius := brWheelRadius this; steeredWheelForce :=
     steeredWheelForce this; frontTorque := frontTorque this; backTorque := backTorque this;
     tireAngleRange := tireAngleRange this; maxSpeed := maxSpeed this; maxSteer := maxSteer this;
     aeroLoad := aeroLoad this; flWheelJoint := flWheelJoint this; frWheelJoint := frWheelJoint
     this; blWheelJoint := blWheelJoint this; brWheelJoint := brWheelJoint this;
     frWheelSteeringJoint := frWheelSteeringJoint this; flWheelSteeringJoint :=
     flWheelSteeringJoint this |}.

Definition set__isSimPaused (v : bool) (this : Plugin) : Plugin :=
  {| _parent_world := _parent_world this; _sdf := _sdf this; _modelName := _modelName this;
     _nbMotorSpeed := _nbMotorSpeed this; _isSimPaused := v; _timeMsgAlreadyDisplayed :=
     _timeMsgAlreadyDisplayed this; _fdm_timestamp := _fdm_timestamp this; _controlSub :=
     _controlSub this; _modelInfoSub := _modelInfoSub this; _updateConnection := _updateConnection
     this; _rover_model := _rover_model this; node := node this; wheelRadius := wheelRadius this;
     flWheelRadius := flWheelRadius this; frWheelRadius := frWheelRadius this; blWheelRadius :=
     blWheelRadius this; brWheelRadius := brWheelRadius this; steeredWheelForce :=
     steeredWheelForce this; frontTorque := frontTorque this; backTorque := backTorque this;
     tireAngleRange := tireAngleRange this; maxSpeed := maxSpeed this; maxSteer := maxSteer this;
     aeroLoad := aeroLoad this; flWheelJoint := flWheelJoint this; frWheelJoint := frWheelJoint
     this; blWheelJoint := blWheelJoint this; brWheelJoint := brWheelJoint this;
     frWheelSteeringJoint := frWheelSteeringJoint this; flWheelSteeringJoint :=
     flWheelSteeringJoint this |}.

Definition set__timeMsgAlreadyDisplayed (v : bool) (this : Plugin) : Plugin :=
  {| _parent_world := _parent_world this; _sdf := _sdf this; _modelName := _modelName this;
     _nbMotorSpeed := _nbMotorSpeed this; _isSimPaused := _isSimPaused this;
     _timeMsgAlreadyDisplayed := v; _fdm_timestamp := _fdm_timestamp this; _controlSub :=
     _controlSub this; _modelInfoSub := _modelInfoSub this; _updateConnection := _updateConnection
     this; _rover_model := _rover_model this; node := node this; wheelRadius := wheelRadius this;
     flWheelRadius := flWheelRadius this; frWheelRadius := frWheelRadius this; blWheelRadius :=
     blWheelRadius this; brWheelRadius := brWheelRadius this; steeredWheelForce :=
     steeredWheelForce this; frontTorque := frontTorque this; backTorque := backTorque this;
     tireAngleRange := tireAngleRange this; maxSpeed := maxSpeed this; maxSteer := maxSteer this;
     aeroLoad := aeroLoad this; flWheelJoint := flWheelJoint this; frWheelJoint := frWheelJoint
     this; blWheelJoint := blWheelJoint this; brWheelJoint := brWheelJoint this;
     frWheelSteeringJoint := frWheelSteeringJoint this; flWheelSteeringJoint :=
     flWheelSteeringJoint this |}.

Definition set__fdm_timestamp (v : double) (this : Plugin) : Plugin :=
  {| _parent_world := _parent_world this; _sdf := _sdf this; _modelName := _modelName this;
     _nbMotorSpeed := _nbMotorSpeed this; _isSimPaused := _isSimPaused this;
     _timeMsgAlreadyDisplayed := _timeMsgAlreadyDisplayed this; _fdm_timestamp := v; _controlSub
     := _controlSub this; _modelInfoSub := _modelInfoSub this; _updateConnection :=
     _updateConnection this; _rover_model := _rover_model this; node := node this; wheelRadius :=
     wheelRadius this; flWheelRadius := flWheelRadius this; frWheelRadius := frWheelRadius this;
     blWheelRadius := blWheelRadius this; brWheelRadius := brWheelRadius this; steeredWheelForce
     := steeredWheelForce this; frontTorque := frontTorque this; backTorque := backTorque this;
     tireAngleRange := tireAngleRange this; maxSpeed := maxSpeed this; maxSteer := maxSteer this;
     aeroLoad := aeroLoad this; flWheelJoint := flWheelJoint this; frWheelJoint := frWheelJoint
     this; blWheelJoint := blWheelJoint this; brWheelJoint := brWheelJoint this;
     frWheelSteeringJoint := frWheelSteeringJoint this; flWheelSteeringJoint :=
     flWheelSteeringJoint this |}.

Definition set__controlSub (v : option Subscriber) (this : Plugin) : Plugin :=
  {| _parent_world := _parent_world this; _sdf := _sdf this; _modelName := _modelName this;
     _nbMotorSpeed := _nbMotorSpeed this; _isSimPaused := _isSimPaused this;
     _timeMsgAlreadyDisplayed := _timeMsgAlreadyDisplayed this; _fdm_timestamp := _fdm_timestamp
     this; _controlSub := v; _modelInfoSub := _modelInfoSub this; _updateConnection :=
     _updateConnection this; _rover_model := _rover_model this; node := node this; wheelRadius :=
     wheelRadius this; flWheelRadius := flWheelRadius this; frWheelRadius := frWheelRadius this;
     blWheelRadius := blWheelRadius this; brWheelRadius := brWheelRadius this; steeredWheelForce
     := steeredWheelForce this; frontTorque := frontTorque this; backTorque := backTorque this;
     tireAngleRange := tireAngleRange this; maxSpeed := maxSpeed this; maxSteer := maxSteer this;
     aeroLoad := aeroLoad this; flWheelJoint := flWheelJoint this; frWheelJoint := frWheelJoint
     this; blWheelJoint := blWheelJoint this; brWheelJoint := brWheelJoint this;
     frWheelSteeringJoint := frWheelSteeringJoint this; flWheelSteeringJoint :=
     flWheelSteeringJoint this |}.

Definition set__modelInfoSub (v : option Subscriber) (this : Plugin) : Plugin :=
  {| _parent_world := _parent_world this; _sdf := _sdf this; _modelName := _modelName this;
     _nbMotorSpeed := _nbMotorSpeed this; _isSimPaused := _isSimPaused this;
     _timeMsgAlreadyDisplayed := _timeMsgAlreadyDisplayed this; _fdm_timestamp := _fdm_timestamp
     this; _controlSub := _controlSub this; _modelInfoSub := v; _updateConnection :=
     _updateConnection this; _rover_model := _rover_model this; node := node this; wheelRadius :=
     wheelRadius this; flWheelRadius := flWheelRadius this; frWheelRadius := frWheelRadius this;
     blWheelRadius := blWheelRadius this; brWheelRadius := brWheelRadius this; steeredWheelForce
     := steeredWheelForce this; frontTorque := frontTorque this; backTorque := backTorque this;
     tireAngleRange := tireAngleRange this; maxSpeed := maxSpeed this; maxSteer := maxSteer this;
     aeroLoad := aeroLoad this; flWheelJoint := flWheelJoint this; frWheelJoint := frWheelJoint
     this; blWheelJoint := blWheelJoint this; brWheelJoint := brWheelJoint this;
     frWheelSteeringJoint := frWheelSteeringJoint this; flWheelSteeringJoint :=
     flWheelSteeringJoint this |}.

Definition set__updateConnection (v : option Connection) (this : Plugin) : Plugin :=
  {| _parent_world := _parent_world this; _sdf := _sdf this; _modelName := _modelName this;
     _nbMotorSpeed := _nbMotorSpeed this; _isSimPaused := _isSimPaused this;
     _timeMsgAlreadyDisplayed := _timeMsgAlreadyDisplayed this; _fdm_timestamp := _fdm_timestamp
     this; _controlSub := _controlSub this; _modelInfoSub := _modelInfoSub this; _updateConnection
     := v; _rover_model := _rover_model this; node := node this; wheelRadius := wheelRadius this;
     flWheelRadius := flWheelRadius this; frWheelRadius := frWheelRadius this; blWheelRadius :=
     blWheelRadius this; brWheelRadius := brWheelRadius this; steeredWheelForce :=
     steeredWheelForce this; frontTorque := frontTorque this; backTorque := backTorque this;
     tireAngleRange := tireAngleRange this; maxSpeed := maxSpeed this; maxSteer := maxSteer this;
     aeroLoad := aeroLoad this; flWheelJoint := flWheelJoint this; frWheelJoint := frWheelJoint
     this; blWheelJoint := blWheelJoint this; brWheelJoint := brWheelJoint this;
     frWheelSteeringJoint := frWheelSteeringJoint this; flWheelSteeringJoint :=
     flWheelSteeringJoint this |}.

Definition set__rover_model (v : ModelPtr) (this : Plugin) : Plugin :=
  {| _parent_world := _parent_world this; _sdf := _sdf this; _modelName := _modelName this;
     _nbMotorSpeed := _nbMotorSpeed this; _isSimPaused := _isSimPaused this;
     _timeMsgAlreadyDisplayed := _timeMsgAlreadyDisplayed this; _fdm_timestamp := _fdm_timestamp
     this; _controlSub := _controlSub this; _modelInfoSub := _modelInfoSub this; _updateConnection
     := _updateConnection this; _rover_model := v; node := node this; wheelRadius := wheelRadius
     this; flWheelRadius := flWheelRadius this; frWheelRadius := frWheelRadius this; blWheelRadius
     := blWheelRadius this; brWheelRadius := brWheelRadius this; steeredWheelForce :=
     steeredWheelForce this; frontTorque := frontTorque this; backTorque := backTorque this;
     tireAngleRange := tireAngleRange this; maxSpeed := maxSpeed this; maxSteer := maxSteer this;
     aeroLoad := aeroLoad this; flWheelJoint := flWheelJoint this; frWheelJoint := frWheelJoint
     this; blWheelJoint := blWheelJoint this; brWheelJoint := brWheelJoint this;
     frWheelSteeringJoint := frWheelSteeringJoint this; flWheelSteeringJoint :=
     flWheelSteeringJoint this |}.

Definition set_node (v : NodePtr) (this : Plugin) : Plugin :=
  {| _parent_world := _parent_world this; _sdf := _sdf this; _modelName := _modelName this;
     _nbMotorSpeed := _nbMotorSpeed this; _isSimPaused := _isSimPaused this;
     _timeMsgAlreadyDisplayed := _timeMsgAlreadyDisplayed this; _fdm_timestamp := _fdm_timestamp
     this; _controlSub := _controlSub this; _modelInfoSub := _modelInfoSub this; _updateConnection
     := _updateConnection this; _rover_model := _rover_model this; node := v; wheelRadius :=
     wheelRadius this; flWheelRadius := flWheelRadius this; frWheelRadius := frWheelRadius this;
     blWheelRadius := blWheelRadius this; brWheelRadius := brWheelRadius this; steeredWheelForce
     := steeredWheelForce this; frontTorque := frontTorque this; backTorque := backTorque this;
     tireAngleRange := tireAngleRange this; maxSpeed := maxSpeed this; maxSteer := maxSteer this;
     aeroLoad := aeroLoad this; flWheelJoint := flWheelJoint this; frWheelJoint := frWheelJoint
     this; blWheelJoint := blWheelJoint this; brWheelJoint := brWheelJoint this;
     frWheelSteeringJoint := frWheelSteeringJoint this; flWheelSteeringJoint :=
     flWheelSteeringJoint this |}.

Definition set_wheelRadius (v : double) (this : Plugin) : Plugin :=
  {| _parent_world := _parent_world this; _sdf := _sdf this; _modelName := _modelName this;
     _nbMotorSpeed := _nbMotorSpeed this; _isSimPaused := _isSimPaused this;
     _timeMsgAlreadyDisplayed := _timeMsgAlreadyDisplayed this; _fdm_timestamp := _fdm_timestamp
     this; _controlSub := _controlSub this; _modelInfoSub := _modelInfoSub this; _updateConnection
     := _updateConnection this; _rover_model := _rover_model this; node := node this; wheelRadius
     := v; flWheelRadius := flWheelRadius this; frWheelRadius := frWheelRadius this; blWheelRadius
     := blWheelRadius this; brWheelRadius := brWheelRadius this; steeredWheelForce :=
     steeredWheelForce this; frontTorque := frontTorque this; backTorque := backTorque this;
     tireAngleRange := tireAngleRange this; maxSpeed := maxSpeed this; maxSteer := maxSteer this;
     aeroLoad := aeroLoad this; flWheelJoint := flWheelJoint this; frWheelJoint := frWheelJoint
     this; blWheelJoint := blWheelJoint this; brWheelJoint := brWheelJoint this;
     frWheelSteeringJoint := frWheelSteeringJoint this; flWheelSteeringJoint :=
     flWheelSteeringJoint this |}.

Definition set_flWheelRadius (v : double) (this : Plugin) : Plugin :=
  {| _parent_world := _parent_world this; _sdf := _sdf this; _modelName := _modelName this;
     _nbMotorSpeed := _nbMotorSpeed this; _isSimPaused := _isSimPaused this;
     _timeMsgAlreadyDisplayed := _timeMsgAlreadyDisplayed this; _fdm_timestamp := _fdm_timestamp
     this; _controlSub := _controlSub this; _modelInfoSub := _modelInfoSub this; _updateConnection
     := _updateConnection this; _rover_model := _rover_model this; node := node this; wheelRadius
     := wheelRadius this; flWheelRadius := v; frWheelRadius := frWheelRadius this; blWheelRadius
     := blWheelRadius this; brWheelRadius := brWheelRadius this; steeredWheelForce :=
     steeredWheelForce this; frontTorque := frontTorque this; backTorque := backTorque this;
     tireAngleRange := tireAngleRange this; maxSpeed := maxSpeed this; maxSteer := maxSteer this;
     aeroLoad := aeroLoad this; flWheelJoint := flWheelJoint this; frWheelJoint := frWheelJoint
     this; blWheelJoint := blWheelJoint this; brWheelJoint := brWheelJoint this;
     frWheelSteeringJoint := frWheelSteeringJoint this; flWheelSteeringJoint :=
     flWheelSteeringJoint this |}.

Definition set_frWheelRadius (v : double) (this : Plugin) : Plugin :=
  {| _parent_world := _parent_world this; _sdf := _sdf this; _modelName := _modelName this;
     _nbMotorSpeed := _nbMotorSpeed this; _isSimPaused := _isSimPaused this;
     _timeMsgAlreadyDisplayed := _timeMsgAlreadyDisplayed this; _fdm_timestamp := _fdm_timestamp
     this; _controlSub := _controlSub this; _modelInfoSub := _modelInfoSub this; _updateConnection
     := _updateConnection this; _rover_model := _rover_model this; node := node this; wheelRadius
     := wheelRadius this; flWheelRadius := flWheelRadius this; frWheelRadius := v; blWheelRadius
     := blWheelRadius this; brWheelRadius := brWheelRadius this; steeredWheelForce :=
     steeredWheelForce this; frontTorque := frontTorque this; backTorque := backTorque this;
     tireAngleRange := tireAngleRange this; maxSpeed := maxSpeed this; maxSteer := maxSteer this;
     aeroLoad := aeroLoad this; flWheelJoint := flWheelJoint this; frWheelJoint := frWheelJoint
     this; blWheelJoint := blWheelJoint this; brWheelJoint := brWheelJoint this;
     frWheelSteeringJoint := frWheelSteeringJoint this; flWheelSteeringJoint :=
     flWheelSteeringJoint this |}.

Definition set_blWheelRadius (v : double) (this : Plugin) : Plugin :=
  {| _parent_world := _parent_world this; _sdf := _sdf this; _modelName := _modelName this;
     _nbMotorSpeed := _nbMotorSpeed this; _isSimPaused := _isSimPaused this;
     _timeMsgAlreadyDisplayed := _timeMsgAlreadyDisplayed this; _fdm_timestamp := _fdm_timestamp
     this; _controlSub := _controlSub this; _modelInfoSub := _modelInfoSub this; _updateConnection
     := _updateConnection this; _rover_model := _rover_model this; node := node this; wheelRadius
     := wheelRadius this; flWheelRadius := flWheelRadius this; frWheelRadius := frWheelRadius
     this; blWheelRadius := v; brWheelRadius := brWheelRadius this; steeredWheelForce :=
     steeredWheelForce this; frontTorque := frontTorque this; backTorque := backTorque this;
     tireAngleRange := tireAngleRange this; maxSpeed := maxSpeed this; maxSteer := maxSteer this;
     aeroLoad := aeroLoad this; flWheelJoint := flWheelJoint this; frWheelJoint := frWheelJoint
     this; blWheelJoint := blWheelJoint this; brWheelJoint := brWheelJoint this;
     frWheelSteeringJoint := frWheelSteeringJoint this; flWheelSteeringJoint :=
     flWheelSteeringJoint this |}.

Definition set_brWheelRadius (v : double) (this : Plugin) : Plugin :=
  {| _parent_world := _parent_world this; _sdf := _sdf this; _modelName := _modelName this;
     _nbMotorSpeed := _nbMotorSpeed this; _isSimPaused := _isSimPaused this;
     _timeMsgAlreadyDisplayed := _timeMsgAlreadyDisplayed this; _fdm_timestamp := _fdm_timestamp
     this; _controlSub := _controlSub this; _modelInfoSub := _modelInfoSub this; _updateConnection
     := _updateConnection this; _rover_model := _rover_model this; node := node this; wheelRadius
     := wheelRadius this; flWheelRadius := flWheelRadius this; frWheelRadius := frWheelRadius
     this; blWheelRadius := blWheelRadius this; brWheelRadius := v; steeredWheelForce :=
     steeredWheelForce this; frontTorque := frontTorque this; backTorque := backTorque this;
     tireAngleRange := tireAngleRange this; maxSpeed := maxSpeed this; maxSteer := maxSteer this;
     aeroLoad := aeroLoad this; flWheelJoint := flWheelJoint this; frWheelJoint := frWheelJoint
     this; blWheelJoint := blWheelJoint this; brWheelJoint := brWheelJoint this;
     frWheelSteeringJoint := frWheelSteeringJoint this; flWheelSteeringJoint :=
     flWheelSteeringJoint this |}.

Definition set_steeredWheelForce (v : double) (this : Plugin) : Plugin :=
  {| _parent_world := _parent_world this; _sdf := _sdf this; _modelName := _modelName this;
     _nbMotorSpeed := _nbMotorSpeed this; _isSimPaused := _isSimPaused this;
     _timeMsgAlreadyDisplayed := _timeMsgAlreadyDisplayed this; _fdm_timestamp := _fdm_timestamp
     this; _controlSub := _controlSub this; _modelInfoSub := _modelInfoSub this; _updateConnection
     := _updateConnection this; _rover_model := _rover_model this; node := node this; wheelRadius
     := wheelRadius this; flWheelRadius := flWheelRadius this; frWheelRadius := frWheelRadius
     this; blWheelRadius := blWheelRadius this; brWheelRadius := brWheelRadius this;
     steeredWheelForce := v; frontTorque := frontTorque this; backTorque := backTorque this;
     tireAngleRange := tireAngleRange this; maxSpeed := maxSpeed this; maxSteer := maxSteer this;
     aeroLoad := aeroLoad this; flWheelJoint := flWheelJoint this; frWheelJoint := frWheelJoint
     this; blWheelJoint := blWheelJoint this; brWheelJoint := brWheelJoint this;
     frWheelSteeringJoint := frWheelSteeringJoint this; flWheelSteeringJoint :=
     flWheelSteeringJoint this |}.

Definition set_frontTorque (v : double) (this : Plugin) : Plugin :=
  {| _parent_world := _parent_world this; _sdf := _sdf this; _modelName := _modelName this;
     _nbMotorSpeed := _nbMotorSpeed this; _isSimPaused := _isSimPaused this;
     _timeMsgAlreadyDisplayed := _timeMsgAlreadyDisplayed this; _fdm_timestamp := _fdm_timestamp
     this; _controlSub := _controlSub this; _modelInfoSub := _modelInfoSub this; _updateConnection
     := _updateConnection this; _rover_model := _rover_model this; node := node this; wheelRadius
     := wheelRadius this; flWheelRadius := flWheelRadius this; frWheelRadius := frWheelRadius
     this; blWheelRadius := blWheelRadius this; brWheelRadius := brWheelRadius this;
     steeredWheelForce := steeredWheelForce this; frontTorque := v; backTorque := backTorque this;
     tireAngleRange := tireAngleRange this; maxSpeed := maxSpeed this; maxSteer := maxSteer this;
     aeroLoad := aeroLoad this; flWheelJoint := flWheelJoint this; frWheelJoint := frWheelJoint
     this; blWheelJoint := blWheelJoint this; brWheelJoint := brWheelJoint this;
     frWheelSteeringJoint := frWheelSteeringJoint this; flWheelSteeringJoint :=
     flWheelSteeringJoint this |}.

Definition set_backTorque (v : double) (this : Plugin) : Plugin :=
  {| _parent_world := _parent_world this; _sdf := _sdf this; _modelName := _modelName this;
     _nbMotorSpeed := _nbMotorSpeed this; _isSimPaused := _isSimPaused this;
     _timeMsgAlreadyDisplayed := _timeMsgAlreadyDisplayed this; _fdm_timestamp := _fdm_timestamp
     this; _controlSub := _controlSub this; _modelInfoSub := _modelInfoSub this; _updateConnection
     := _updateConnection this; _rover_model := _rover_model this; node := node this; wheelRadius
     := wheelRadius this; flWheelRadius := flWheelRadius this; frWheelRadius := frWheelRadius
     this; blWheelRadius := blWheelRadius this; brWheelRadius := brWheelRadius this;
     steeredWheelForce := steeredWheelForce this; frontTorque := frontTorque this; backTorque :=
     v; tireAngleRange := tireAngleRange this; maxSpeed := maxSpeed this; maxSteer := maxSteer
     this; aeroLoad := aeroLoad this; flWheelJoint := flWheelJoint this; frWheelJoint :=
     frWheelJoint this; blWheelJoint := blWheelJoint this; brWheelJoint := brWheelJoint this;
     frWheelSteeringJoint := frWheelSteeringJoint this; flWheelSteeringJoint :=
     flWheelSteeringJoint this |}.

Definition set_tireAngleRange (v : double) (this : Plugin) : Plugin :=
  {| _parent_world := _parent_world this; _sdf := _sdf this; _modelName := _modelName this;
     _nbMotorSpeed := _nbMotorSpeed this; _isSimPaused := _isSimPaused this;
     _timeMsgAlreadyDisplayed := _timeMsgAlreadyDisplayed this; _fdm_timestamp := _fdm_timestamp
     this; _controlSub := _controlSub this; _modelInfoSub := _modelInfoSub this; _updateConnection
     := _updateConnection this; _rover_model := _rover_model this; node := node this; wheelRadius
     := wheelRadius this; flWheelRadius := flWheelRadius this; frWheelRadius := frWheelRadius
     this; blWheelRadius := blWheelRadius this; brWheelRadius := brWheelRadius this;
     steeredWheelForce := steeredWheelForce this; frontTorque := frontTorque this; backTorque :=
     backTorque this; tireAngleRange := v; maxSpeed := maxSpeed this; maxSteer := maxSteer this;
     aeroLoad := aeroLoad this; flWheelJoint := flWheelJoint this; frWheelJoint := frWheelJoint
     this; blWheelJoint := blWheelJoint this; brWheelJoint := brWheelJoint this;
     frWheelSteeringJoint := frWheelSteeringJoint this; flWheelSteeringJoint :=
     flWheelSteeringJoint this |}.

Definition set_maxSpeed (v : double) (this : Plugin) : Plugin :=
  {| _parent_world := _parent_world this; _sdf := _sdf this; _modelName := _modelName this;
     _nbMotorSpeed := _nbMotorSpeed this; _isSimPaused := _isSimPaused this;
     _timeMsgAlreadyDisplayed := _timeMsgAlreadyDisplayed this; _fdm_timestamp := _fdm_timestamp
     this; _controlSub := _controlSub this; _modelInfoSub := _modelInfoSub this; _updateConnection
     := _updateConnection this; _rover_model := _rover_model this; node := node this; wheelRadius
     := wheelRadius this; flWheelRadius := flWheelRadius this; frWheelRadius := frWheelRadius
     this; blWheelRadius := blWheelRadius this; brWheelRadius := brWheelRadius this;
     steeredWheelForce := steeredWheelForce this; frontTorque := frontTorque this; backTorque :=
     backTorque this; tireAngleRange := tireAngleRange this; maxSpeed := v; maxSteer := maxSteer
     this; aeroLoad := aeroLoad this; flWheelJoint := flWheelJoint this; frWheelJoint :=
     frWheelJoint this; blWheelJoint := blWheelJoint this; brWheelJoint := brWheelJoint this;
     frWheelSteeringJoint := frWheelSteeringJoint this; flWheelSteeringJoint :=
     flWheelSteeringJoint this |}.

Definition set_maxSteer (v : double) (this : Plugin) : Plugin :=
  {| _parent_world := _parent_world this; _sdf := _sdf this; _modelName := _modelName this;
     _nbMotorSpeed := _nbMotorSpeed this; _isSimPaused := _isSimPaused this;
     _timeMsgAlreadyDisplayed := _timeMsgAlreadyDisplayed this; _fdm_timestamp := _fdm_timestamp
     this; _controlSub := _controlSub this; _modelInfoSub := _modelInfoSub this; _updateConnection
     := _updateConnection this; _rover_model := _rover_model this; node := node this; wheelRadius
     := wheelRadius this; flWheelRadius := flWheelRadius this; frWheelRadius := frWheelRadius
     this; blWheelRadius := blWheelRadius this; brWheelRadius := brWheelRadius this;
     steeredWheelForce := steeredWheelForce this; frontTorque := frontTorque this; backTorque :=
     backTorque this; tireAngleRange := tireAngleRange this; maxSpeed := maxSpeed this; maxSteer
     := v; aeroLoad := aeroLoad this; flWheelJoint := flWheelJoint this; frWheelJoint :=
     frWheelJoint this; blWheelJoint := blWheelJoint this; brWheelJoint := brWheelJoint this;
     frWheelSteeringJoint := frWheelSteeringJoint this; flWheelSteeringJoint :=
     flWheelSteeringJoint this |}.

Definition set_aeroLoad (v : double) (this : Plugin) : Plugin :=
  {| _parent_world := _parent_world this; _sdf := _sdf this; _modelName := _modelName this;
     _nbMotorSpeed := _nbMotorSpeed this; _isSimPaused := _isSimPaused this;
     _timeMsgAlreadyDisplayed := _timeMsgAlreadyDisplayed this; _fdm_timestamp := _fdm_timestamp
     this; _controlSub := _controlSub this; _modelInfoSub := _modelInfoSub this; _updateConnection
     := _updateConnection this; _rover_model := _rover_model this; node := node this; wheelRadius
     := wheelRadius this; flWheelRadius := flWheelRadius this; frWheelRadius := frWheelRadius
     this; blWheelRadius := blWheelRadius this; brWheelRadius := brWheelRadius this;
     steeredWheelForce := steeredWheelForce this; frontTorque := frontTorque this; backTorque :=
     backTorque this; tireAngleRange := tireAngleRange this; maxSpeed := maxSpeed this; maxSteer
     := maxSteer this; aeroLoad := v; flWheelJoint := flWheelJoint this; frWheelJoint :=
     frWheelJoint this; blWheelJoint := blWheelJoint this; brWheelJoint := brWheelJoint this;
     frWheelSteeringJoint := frWheelSteeringJoint this; flWheelSteeringJoint :=
     flWheelSteeringJoint this |}.

Definition set_flWheelJoint (v : JointPtr) (this : Plugin) : Plugin :=
  {| _parent_world := _parent_world this; _sdf := _sdf this; _modelName := _modelName this;
     _nbMotorSpeed := _nbMotorSpeed this; _isSimPaused := _isSimPaused this;
     _timeMsgAlreadyDisplayed := _timeMsgAlreadyDisplayed this; _fdm_timestamp := _fdm_timestamp
     this; _controlSub := _controlSub this; _modelInfoSub := _modelInfoSub this; _updateConnection
     := _updateConnection this; _rover_model := _rover_model this; node := node this; wheelRadius
     := wheelRadius this; flWheelRadius := flWheelRadius this; frWheelRadius := frWheelRadius
     this; blWheelRadius := blWheelRadius this; brWheelRadius := brWheelRadius this;
     steeredWheelForce := steeredWheelForce this; frontTorque := frontTorque this; backTorque :=
     backTorque this; tireAngleRange := tireAngleRange this; maxSpeed := maxSpeed this; maxSteer
     := maxSteer this; aeroLoad := aeroLoad this; flWheelJoint := v; frWheelJoint := frWheelJoint
     this; blWheelJoint := blWheelJoint this; brWheelJoint := brWheelJoint this;
     frWheelSteeringJoint := frWheelSteeringJoint this; flWheelSteeringJoint :=
     flWheelSteeringJoint this |}.

Definition set_frWheelJoint (v : JointPtr) (this : Plugin) : Plugin :=
  {| _parent_world := _parent_world this; _sdf := _sdf this; _modelName := _modelName this;
     _nbMotorSpeed := _nbMotorSpeed this; _isSimPaused := _isSimPaused this;
     _timeMsgAlreadyDisplayed := _timeMsgAlreadyDisplayed this; _fdm_timestamp := _fdm_timestamp
     this; _controlSub := _controlSub this; _modelInfoSub := _modelInfoSub this; _updateConnection
     := _updateConnection this; _rover_model := _rover_model this; node := node this; wheelRadius
     := wheelRadius this; flWheelRadius := flWheelRadius this; frWheelRadius := frWheelRadius
     this; blWheelRadius := blWheelRadius this; brWheelRadius := brWheelRadius this;
     steeredWheelForce := steeredWheelForce this; frontTorque := frontTorque this; backTorque :=
     backTorque this; tireAngleRange := tireAngleRange this; maxSpeed := maxSpeed this; maxSteer
     := maxSteer this; aeroLoad := aeroLoad this; flWheelJoint := flWheelJoint this; frWheelJoint
     := v; blWheelJoint := blWheelJoint this; brWheelJoint := brWheelJoint this;
     frWheelSteeringJoint := frWheelSteeringJoint this; flWheelSteeringJoint :=
     flWheelSteeringJoint this |}.

Definition set_blWheelJoint (v : JointPtr) (this : Plugin) : Plugin :=
  {| _parent_world := _parent_world this; _sdf := _sdf this; _modelName := _modelName this;
     _nbMotorSpeed := _nbMotorSpeed this; _isSimPaused := _isSimPaused this;
     _timeMsgAlreadyDisplayed := _timeMsgAlreadyDisplayed this; _fdm_timestamp := _fdm_timestamp
     this; _controlSub := _controlSub this; _modelInfoSub := _modelInfoSub this; _updateConnection
     := _updateConnection this; _rover_model := _rover_model this; node := node this; wheelRadius
     := wheelRadius this; flWheelRadius := flWheelRadius this; frWheelRadius := frWheelRadius
     this; blWheelRadius := blWheelRadius this; brWheelRadius := brWheelRadius this;
     steeredWheelForce := steeredWheelForce this; frontTorque := frontTorque this; backTorque :=
     backTorque this; tireAngleRange := tireAngleRange this; maxSpeed := maxSpeed this; maxSteer
     := maxSteer this; aeroLoad := aeroLoad this; flWheelJoint := flWheelJoint this; frWheelJoint
     := frWheelJoint this; blWheelJoint := v; brWheelJoint := brWheelJoint this;
     frWheelSteeringJoint := frWheelSteeringJoint this; flWheelSteeringJoint :=
     flWheelSteeringJoint this |}.

Definition set_brWheelJoint (v : JointPtr) (this : Plugin) : Plugin :=
  {| _parent_world := _parent_world this; _sdf := _sdf this; _modelName := _modelName this;
     _nbMotorSpeed := _nbMotorSpeed this; _isSimPaused := _isSimPaused this;
     _timeMsgAlreadyDisplayed := _timeMsgAlreadyDisplayed this; _fdm_timestamp := _fdm_timestamp
     this; _controlSub := _controlSub this; _modelInfoSub := _modelInfoSub this; _updateConnection
     := _updateConnection this; _rover_model := _rover_model this; node := node this; wheelRadius
     := wheelRadius this; flWheelRadius := flWheelRadius this; frWheelRadius := frWheelRadius
     this; blWheelRadius := blWheelRadius this; brWheelRadius := brWheelRadius this;
     steeredWheelForce := steeredWheelForce this; frontTorque := frontTorque this; backTorque :=
     backTorque this; tireAngleRange := tireAngleRange this; maxSpeed := maxSpeed this; maxSteer
     := maxSteer this; aeroLoad := aeroLoad this; flWheelJoint := flWheelJoint this; frWheelJoint
     := frWheelJoint this; blWheelJoint := blWheelJoint this; brWheelJoint := v;
     frWheelSteeringJoint := frWheelSteeringJoint this; flWheelSteeringJoint :=
     flWheelSteeringJoint this |}.

Definition set_frWheelSteeringJoint (v : JointPtr) (this : Plugin) : Plugin :=
  {| _parent_world := _parent_world this; _sdf := _sdf this; _modelName := _modelName this;
     _nbMotorSpeed := _nbMotorSpeed this; _isSimPaused := _isSimPaused this;
     _timeMsgAlreadyDisplayed := _timeMsgAlreadyDisplayed this; _fdm_timestamp := _fdm_timestamp
     this; _controlSub := _controlSub this; _modelInfoSub := _modelInfoSub this; _updateConnection
     := _updateConnection this; _rover_model := _rover_model this; node := node this; wheelRadius
     := wheelRadius this; flWheelRadius := flWheelRadius this; frWheelRadius := frWheelRadius
     this; blWheelRadius := blWheelRadius this; brWheelRadius := brWheelRadius this;
     steeredWheelForce := steeredWheelForce this; frontTorque := frontTorque this; backTorque :=
     backTorque this; tireAngleRange := tireAngleRange this; maxSpeed := maxSpeed this; maxSteer
     := maxSteer this; aeroLoad := aeroLoad this; flWheelJoint := flWheelJoint this; frWheelJoint
     := frWheelJoint this; blWheelJoint := blWheelJoint this; brWheelJoint := brWheelJoint this;
     frWheelSteeringJoint := v; flWheelSteeringJoint := flWheelSteeringJoint this |}.

Definition set_flWheelSteeringJoint (v : JointPtr) (this : Plugin) : Plugin :=
  {| _parent_world := _parent_world this; _sdf := _sdf this; _modelName := _modelName this;
     _nbMotorSpeed := _nbMotorSpeed this; _isSimPaused := _isSimPaused this;
     _timeMsgAlreadyDisplayed := _timeMsgAlreadyDisplayed this; _fdm_timestamp := _fdm_timestamp
     this; _controlSub := _controlSub this; _modelInfoSub := _modelInfoSub this; _updateConnection
     := _updateConnection this; _rover_model := _rover_model this; node := node this; wheelRadius
     := wheelRadius this; flWheelRadius := flWheelRadius this; frWheelRadius := frWheelRadius
     this; blWheelRadius := blWheelRadius this; brWheelRadius := brWheelRadius this;
     steeredWheelForce := steeredWheelForce this; frontTorque := frontTorque this; backTorque :=
     backTorque this; tireAngleRange := tireAngleRange this; maxSpeed := maxSpeed this; maxSteer
     := maxSteer this; aeroLoad := aeroLoad this; flWheelJoint := flWheelJoint this; frWheelJoint
     := frWheelJoint this; blWheelJoint := blWheelJoint this; brWheelJoint := brWheelJoint this;
     frWheelSteeringJoint := frWheelSteeringJoint this; flWheelSteeringJoint := v |}.

(** ** The state-and-exception monad of the member functions *)

(** A member function runs on the plugin object and the trace of what it
    has done to the outside so far (oldest first). *)
Record Sim := mkSim { this : Plugin; out : list Event }.

(** It returns normally, leaves by the exception of [gzthrow]
    ([gazebo::common::Exception], with its message), or runs into undefined
    behaviour: a null pointer dereferenced, a pointer to an object that is
    not there, a [static_cast] to the wrong class. *)
Inductive Outcome (A : Type) : Type :=
| Ok (a : A) (s : Sim)
| Thrown (msg : string) (s : Sim)
| Undefined (s : Sim).
Arguments Ok {A} a s.
Arguments Thrown {A} msg s.
Arguments Undefined {A} s.

Definition M (A : Type) : Type := Sim -> Outcome A.

Definition ret {A} (a : A) : M A := fun s => Ok a s.

Definition bind {A B} (m : M A) (k : A -> M B) : M B :=
  fun s =>
    match m s with
    | Ok a s' => k a s'
    | Thrown msg s' => Thrown msg s'
    | Undefined s' => Undefined s'
    end.

Declare Scope plugin_scope.
Delimit Scope plugin_scope with plugin.
Notation "x <- m ;; k" := (bind m (fun x => k))
  (at level 100, m at next level, k at level 200, right associativity) : plugin_scope.
Notation "m ;; k" := (bind m (fun _ => k))
  (at level 100, k at level 200, right associativity) : plugin_scope.
Open Scope plugin_scope.

(** Read the object, assign to it, act on the outside. *)
Definition get : M Plugin := fun s => Ok (this s) s.
Definition modify (f : Plugin -> Plugin) : M unit :=
  fun s => Ok tt {| this := f (this s); out := out s |}.
Definition emit (e : Event) : M unit :=
  fun s => Ok tt {| this := this s; out := out s ++ [e] |}.

(** [p->...]: the pointee, or undefined behaviour on a null pointer. *)
Definition deref {A} (p : option A) : M A :=
  fun s =>
    match p with
    | Some a => Ok a s
    | None => Undefined s
    end.

(** [gzthrow(msg)]. *)
Definition gzthrow {A} (msg : string) : M A := fun s => Thrown msg s.

Definition ROS_INFO (fmt : Format) (args : list Arg) : M unit :=
  emit (ev_ROS_INFO fmt args).

(** *** Through the plugin's pointers *)

(** [_parent_world->...], reading. *)
Definition parent_world : M World :=
  p <- get ;; deref (_parent_world p).

(** [_parent_world->method(...)] for a method that changes the world. *)
Definition parent_world_do (method : World -> World) : M unit :=
  w <- parent_world ;;
  modify (set__parent_world (Some (method w))).

(** [_sdf->HasElement(key)] and [_sdf->Get<T>(key)]. *)
Definition sdf : M Element :=
  p <- get ;; deref (_sdf p).
Definition sdf_HasElement (key : string) : M bool :=
  e <- sdf ;; ret (HasElement e key).
Definition sdf_Get_string (key : string) : M string :=
  e <- sdf ;; ret (Get_string e key).
Definition sdf_Get_int (key : string) : M Z :=
  e <- sdf ;; ret (Get_int e key).
Definition sdf_Get_double (key : string) : M double :=
  e <- sdf ;; ret (Get_double e key).

(** [_rover_model->GetJoint(name)]. *)
Definition rover_model_GetJoint (jname : string) : M JointPtr :=
  p <- get ;;
  mname <- deref (_rover_model p) ;;
  w <- parent_world ;;
  m <- deref (models w !! mname) ;;
  ret (match joints m !! jname with
       | Some _ => Some (mname, jname)
       | None => None
       end).

(** The joint behind a [JointPtr], in a given world. *)
Definition joint_at (w : World) (jp : JointPtr) : option Joint :=
  '(mname, jname) ← jp; m ← models w !! mname; joints m !! jname.

(** [jp->getter()]. *)
Definition joint_read (jp : JointPtr) : M Joint :=
  w <- parent_world ;; deref (joint_at w jp).

(** [jp->method(...)] for a method that changes the joint: the joint is
    replaced where it lives, in its model inside the world. *)
Definition joint_do (jp : JointPtr) (method : Joint -> Joint) : M unit :=
  ref <- deref jp ;;
  w <- parent_world ;;
  m <- deref (models w !! ref.1) ;;
  j <- deref (joints m !! ref.2) ;;
  parent_world_do
    (set_models (<[ref.1 := {| joints := <[ref.2 := method j]> (joints m) |}]> (models w))).

(** *** Through a transport node *)

Definition Node_Init (ns : string) : Node := {| topic_namespace := ns |}.

Definition Advertise (n : Node) (topic : string) : M Publisher :=
  ret {| pub_topic := topic |}.

Definition Publish (pub : Publisher) (msg : Physics) : M unit :=
  emit (ev_Publish (pub_topic pub) msg).

Definition Subscribe (n : Node) (topic : string) (cb : Callback) : M Subscriber :=
  emit (ev_Subscribe topic cb) ;;
  ret {| sub_topic := topic; sub_callback := cb |}.

Definition ConnectWorldUpdateEnd (cb : Callback) : M Connection :=
  emit (ev_ConnectWorldUpdateEnd cb) ;;
  ret {| conn_callback := cb |}.

(** ** The member functions of [apm_plugin_gazebo_side.cpp] *)

(** Modelled from the spec: the header's macro [STEP_SIZE_FOR_ARDUPILOT]
    (the header is not among the sources).  The spec fixes the maximum
    physics step size at 0.0025 s, and the comment at its use says
    2.5 ms for 400 Hz. *)
Definition STEP_SIZE_FOR_ARDUPILOT : double := 0.0025%float.

(** [init_gazebo_side], lines 44-100. *)
Definition init_gazebo_side (world : WorldPtr) (sdf_ : ElementPtr) : M bool :=
  modify (set__parent_world world) ;;
  modify (set__sdf sdf_) ;;
  has_model <- sdf_HasElement "UAV_MODEL" ;;
  (if has_model
   then v <- sdf_Get_string "UAV_MODEL" ;; modify (set__modelName v)
   else ret tt) ;;
  has_nb <- sdf_HasElement "NB_SERVOS_MOTOR_SPEED" ;;
  (if has_nb
   then v <- sdf_Get_int "NB_SERVOS_MOTOR_SPEED" ;; modify (set__nbMotorSpeed v)
   else ret tt) ;;
  p <- get ;;
  ROS_INFO (Fmt "Model name:      %s") [ArgS (_modelName p)] ;;
  ROS_INFO (Fmt "Nb motor servos: %d") [ArgD (_nbMotorSpeed p)] ;;
  w <- parent_world ;;
  let node_ := Node_Init (GetName w) in
  parent_world_do (SetPaused true) ;;
  physicsPub <- Advertise node_ "~/physics" ;;
  let physicsMsg := Physics_default in
  let physicsMsg := set_type ODE physicsMsg in
  let physicsMsg := set_max_step_size STEP_SIZE_FOR_ARDUPILOT physicsMsg in
  Publish physicsPub physicsMsg ;;
  sub <- Subscribe node_ "~/world_control" cb_on_gazebo_control ;;
  modify (set__controlSub (Some sub)) ;;
  sub <- Subscribe node_ "~/model/info" cb_on_gazebo_modelInfo ;;
  modify (set__modelInfoSub (Some sub)) ;;
  conn <- ConnectWorldUpdateEnd cb_on_gazebo_update ;;
  modify (set__updateConnection (Some conn)) ;;
  ret true.

(** [get_collision_radius], lines 106-123.  [None] is the undefined
    behaviour of a [static_cast] to a class the shape is not of. *)
Definition get_collision_radius (_coll : CollisionPtr) : option double :=
  match _coll with
  | None => Some 0%float
  | Some coll =>
      match GetShape coll with
      | None => Some 0%float
      | Some shape =>
          if HasType shape CYLINDER_SHAPE then CylinderShape_GetRadius shape
          else if HasType shape SPHERE_SHAPE then SphereShape_GetRadius shape
          else Some 0%float
      end
  end.

(** [step_gazebo_sim], lines 133-141. *)
Definition step_gazebo_sim : M unit :=
  parent_world_do (Step 1).

(** [on_gazebo_update], lines 147-162. *)
Definition on_gazebo_update : M unit :=
  w <- parent_world ;;
  let gz_time_now := GetSimTime w in
  modify (set__fdm_timestamp
            (double_of_int32 (sec gz_time_now)
             + double_of_int32 (nsec gz_time_now) * 1e-9)%float) ;;
  p <- get ;;
  if negb (_timeMsgAlreadyDisplayed p) then
    w <- parent_world ;;
    ROS_INFO (PrependFmt "Simulation step size is = %f")
             [ArgF (GetMaxStepSize (GetPhysicsEngine w))] ;;
    modify (set__timeMsgAlreadyDisplayed true)
  else ret tt.

(** [on_gazebo_control], lines 168-189. *)
Definition on_gazebo_control (_msg : WorldControl) : M unit :=
  if has_pause _msg then
    modify (fun p => set__isSimPaused (negb (_isSimPaused p)) p) ;;
    p <- get ;;
    if _isSimPaused p then
      parent_world_do (SetPaused true) ;;
      ROS_INFO (PrependFmt "Simulation is now paused") []
    else
      ROS_INFO (PrependFmt "Resuming simulation") []
  else ret tt.

Definition is_null {A} (p : option A) : bool :=
  match p with
  | Some _ => false
  | None => true
  end.

(** [this->joint->method(...)] and [this->joint->getter()] on one of the
    plugin's joint pointers. *)
Definition this_joint_do (joint : Plugin -> JointPtr) (method : Joint -> Joint) : M unit :=
  p <- get ;; joint_do (joint p) method.
Definition this_joint_read (joint : Plugin -> JointPtr) : M Joint :=
  p <- get ;; joint_read (joint p).

(** [on_rover_model_loaded], lines 191-316, in the order of the source and
    cut at its comments.  Lines 193-211: the model pointer, the rover
    fields, the node. *)
Definition rover_stuff : M unit :=
  w <- parent_world ;;
  modify (set__rover_model (GetModel w "rover")) ;;
  modify (set_wheelRadius 0.1%float) ;;
  modify (set_flWheelRadius 0.1%float) ;;
  modify (set_frWheelRadius 0.1%float) ;;
  modify (set_blWheelRadius 0.1%float) ;;
  modify (set_brWheelRadius 0.1%float) ;;
  modify (set_steeredWheelForce 5000%float) ;;
  modify (set_frontTorque 0%float) ;;
  modify (set_backTorque 0%float) ;;
  modify (set_tireAngleRange 0%float) ;;
  modify (set_maxSpeed 0%float) ;;
  modify (set_maxSteer 0%float) ;;
  modify (set_aeroLoad 0%float) ;;
  w <- parent_world ;;
  modify (set_node (Some (Node_Init (GetName w)))).

(** Lines 213-238: the six joints. *)
Definition searching_joints : M unit :=
  ROS_INFO (Fmt "Searching joints...") [] ;;
  jp <- rover_model_GetJoint "front_left_wheel_joint" ;;
  modify (set_flWheelJoint jp) ;;
  p <- get ;;
  (if is_null (flWheelJoint p)
   then gzthrow ("could not find front left wheel joint" +:+ nl)
   else ret tt) ;;
  ROS_INFO (Fmt "Front left joint found") [] ;;
  jp <- rover_model_GetJoint "front_right_wheel_joint" ;;
  modify (set_frWheelJoint jp) ;;
  p <- get ;;
  (if is_null (frWheelJoint p)
   then gzthrow ("could not find front right wheel joint" +:+ nl)
   else ret tt) ;;
  jp <- rover_model_GetJoint "rear_left_wheel_joint" ;;
  modify (set_blWheelJoint jp) ;;
  p <- get ;;
  (if is_null (blWheelJoint p)
   then gzthrow ("could not find back left wheel joint" +:+ nl)
   else ret tt) ;;
  jp <- rover_model_GetJoint "rear_right_wheel_joint" ;;
  modify (set_brWheelJoint jp) ;;
  p <- get ;;
  (if is_null (brWheelJoint p)
   then gzthrow ("could not find back right wheel joint" +:+ nl)
   else ret tt) ;;
  jp <- rover_model_GetJoint "front_left_steering_joint" ;;
  modify (set_frWheelSteeringJoint jp) ;;
  p <- get ;;
  (if is_null (frWheelSteeringJoint p)
   then gzthrow ("could not find front right steering joint" +:+ nl)
   else ret tt) ;;
  jp <- rover_model_GetJoint "front_right_steering_joint" ;;
  modify (set_flWheelSteeringJoint jp) ;;
  p <- get ;;
  (if is_null (flWheelSteeringJoint p)
   then gzthrow ("could not find front left steering joint" +:+ nl)
   else ret tt).

(** One parameter of lines 240-277: the element's value if the element is
    there, [paramDefault] if not. *)
Definition get_parameter (paramName : string) (paramDefault : double)
    (set_field : double -> Plugin -> Plugin) : M unit :=
  has <- sdf_HasElement paramName ;;
  if has
  then v <- sdf_Get_double paramName ;; modify (set_field v)
  else modify (set_field paramDefault).

(** Lines 240-277: the five vehicle parameters. *)
Definition get_some_vehicle_parameters : M unit :=
  get_parameter "front_torque" 0%float set_frontTorque ;;
  get_parameter "back_torque" 2000%float set_backTorque ;;
  get_parameter "max_speed" 10%float set_maxSpeed ;;
  get_parameter "max_steer" 0.6%float set_maxSteer ;;
  get_parameter "aero_load" 0.1%float set_aeroLoad.

(** Lines 279-300: braking by joint stops. *)
Definition simulate_braking : M unit :=
  this_joint_do flWheelJoint (SetHighStop 0 0%float) ;;
  this_joint_do frWheelJoint (SetHighStop 0 0%float) ;;
  this_joint_do blWheelJoint (SetHighStop 0 0%float) ;;
  this_joint_do brWheelJoint (SetHighStop 0 0%float) ;;
  this_joint_do flWheelJoint (SetLowStop 0 0%float) ;;
  this_joint_do frWheelJoint (SetLowStop 0 0%float) ;;
  this_joint_do blWheelJoint (SetLowStop 0 0%float) ;;
  this_joint_do brWheelJoint (SetLowStop 0 0%float) ;;
  this_joint_do flWheelJoint (SetParam "stop_erp" 0 0.0%float) ;;
  this_joint_do frWheelJoint (SetParam "stop_erp" 0 0.0%float) ;;
  this_joint_do blWheelJoint (SetParam "stop_erp" 0 0.0%float) ;;
  this_joint_do brWheelJoint (SetParam "stop_erp" 0 0.0%float) ;;
  this_joint_do flWheelJoint (SetParam "stop_cfm" 0 10.0%float) ;;
  this_joint_do frWheelJoint (SetParam "stop_cfm" 0 10.0%float) ;;
  this_joint_do blWheelJoint (SetParam "stop_cfm" 0 10.0%float) ;;
  this_joint_do brWheelJoint (SetParam "stop_cfm" 0 10.0%float).

(** One wheel of lines 302-313:
    [get_collision_radius(joint->GetChild()->GetCollision(id))]. *)
Definition wheel_radius_of (joint : Plugin -> JointPtr) (id : nat) : M double :=
  j <- this_joint_read joint ;;
  child <- deref (GetChild j) ;;
  deref (get_collision_radius (GetCollision child id)).

(** Lines 302-313: the four wheel radii. *)
Definition update_wheel_radius : M unit :=
  let id := 0%nat in
  r <- wheel_radius_of flWheelJoint id ;; modify (set_flWheelRadius r) ;;
  r <- wheel_radius_of frWheelJoint id ;; modify (set_frWheelRadius r) ;;
  r <- wheel_radius_of blWheelJoint id ;; modify (set_blWheelRadius r) ;;
  r <- wheel_radius_of brWheelJoint id ;; modify (set_brWheelRadius r).

Definition on_rover_model_loaded : M unit :=
  rover_stuff ;;
  searching_joints ;;
  get_some_vehicle_parameters ;;
  simulate_braking ;;
  update_wheel_radius.

(** [on_gazebo_modelInfo], lines 322-333. *)
Definition on_gazebo_modelInfo (_msg : ModelMsg) : M unit :=
  ROS_INFO (Fmt "NEW MODEL : name %s") [ArgS (name _msg)] ;;
  if lnot (std_string_compare (name _msg) "rover") then
    ROS_INFO (Fmt "There is Rover !") [] ;;
    on_rover_model_loaded
  else ret tt.

(** ** Running the plugin *)

(** Where a call leaves the plugin, however it ends. *)
Definition final {A} (o : Outcome A) : Sim :=
  match o with
  | Ok _ s => s
  | Thrown _ s => s
  | Undefined s => s
  end.

(** What a call has added to the trace. *)
Definition emitted {A} (m : M A) (s : Sim) : list Event :=
  drop (length (out s)) (out (final (m s))).

(** The number of iterations the world has run, as the plugin sees it. *)
Definition iterations (s : Sim) : option N :=
  GetIterations <$> _parent_world (this s).

(** The external driver calling [step_gazebo_sim] [n] times. *)
Fixpoint repeat_step (n : nat) : M unit :=
  match n with
  | O => ret tt
  | S n' => step_gazebo_sim ;; repeat_step n'
  end.

(** A schedule: the driver's steps and the simulator's callbacks, in the
    order in which they run. *)
Inductive Call :=
| call_step
| call_control (_msg : WorldControl)
| call_update.

Definition call (c : Call) : M unit :=
  match c with
  | call_step => step_gazebo_sim
  | call_control _msg => on_gazebo_control _msg
  | call_update => on_gazebo_update
  end.

Fixpoint run (cs : list Call) : M unit :=
  match cs with
  | [] => ret tt
  | c :: cs' => call c ;; run cs'
  end.

Definition is_step (c : Call) : bool :=
  match c with call_step => true | _ => false end.
Definition is_control (c : Call) : bool :=
  match c with call_control _ => true | _ => false end.
Definition is_update (c : Call) : bool :=
  match c with call_update => true | _ => false end.

(** The iteration count read after each step of a schedule. *)
Fixpoint step_counts (cs : list Call) (s : Sim) : list (option N) :=
  match cs with
  | [] => []
  | c :: cs' =>
      match call c s with
      | Ok _ s' => (if is_step c then [iterations s'] else []) ++ step_counts cs' s'
      | _ => []
      end
  end.

(** The conversion of [on_gazebo_update]: a [Time] in seconds. *)
Definition Time_seconds (t : Time) : double :=
  (double_of_int32 (sec t) + double_of_int32 (nsec t) * 1e-9)%float.

(** The step-size diagnostic of [on_gazebo_update]. *)
Definition is_step_size_message (e : Event) : bool :=
  match e with
  | ev_ROS_INFO (PrependFmt f) _ => String.eqb f "Simulation step size is = %f"
  | _ => false
  end.

(** How many elements of a list pass a test. *)
Fixpoint count {A} (f : A -> bool) (l : list A) : nat :=
  match l with
  | [] => 0
  | x :: l' => (if f x then 1 else 0) + count f l'
  end.

Definition step_size_messages (evs : list Event) : nat :=
  count is_step_size_message evs.

(** The events of the callbacks. *)
Definition paused_message : Event :=
  ev_ROS_INFO (PrependFmt "Simulation is now paused") [].
Definition resuming_message : Event :=
  ev_ROS_INFO (PrependFmt "Resuming simulation") [].
Definition step_size_message (w : World) : Event :=
  ev_ROS_INFO (PrependFmt "Simulation step size is = %f")
              [ArgF (GetMaxStepSize (GetPhysicsEngine w))].

(** The iteration counts a schedule reads after its steps, from a world
    that has run [i] iterations. *)
Fixpoint counts_from (i : N) (cs : list Call) : list (option N) :=
  match cs with
  | [] => []
  | call_step :: cs' => Some (i + 1)%N :: counts_from (i + 1)%N cs'
  | _ :: cs' => counts_from i cs'
  end.

(** The first thing [on_rover_model_loaded] says once it has the model
    pointer and the rover fields set. *)
Definition is_searching_joints (e : Event) : bool :=
  match e with
  | ev_ROS_INFO (Fmt f) _ => String.eqb f "Searching joints..."
  | _ => false
  end.

(** Whether a model-load event made the resolver run, read off the trace. *)
Definition triggers_resolution (_msg : ModelMsg) (s : Sim) : bool :=
  existsb is_searching_joints (emitted (on_gazebo_modelInfo _msg) s).

(** The spec's [radiusOf]: the radius of a cylinder or of a sphere, zero for
    a null handle, a null shape and every other kind of shape. *)
Definition radiusOf (c : CollisionPtr) : double :=
  match c with
  | Some {| GetShape := Some (CylinderShape r _) |} => r
  | Some {| GetShape := Some (SphereShape r) |} => r
  | _ => 0%float
  end.

(** Whether [needle] occurs in [hay]. *)
Fixpoint is_infix (needle hay : string) : bool :=
  String.prefix needle hay ||
  match hay with
  | EmptyString => false
  | String _ hay' => is_infix needle hay'
  end.

(** The [msgs::Physics] messages among some events. *)
Definition published (evs : list Event) : list (string * Physics) :=
  omap (fun e => match e with ev_Publish t m => Some (t, m) | _ => None end) evs.

(** [method] applied to the joint a reference names, where the joint lives. *)
Definition alter_joint (ref : string * string) (method : Joint -> Joint) (w : World) : World :=
  set_models
    (alter (fun mdl => {| joints := alter method ref.2 (joints mdl) |}) ref.1 (models w)) w.

(** A vehicle parameter as the spec has it: the value the configuration
    provides under [key], or the documented default. *)
Definition param_or (cfg : Element) (key : string) (default : double) : double :=
  from_option as_double default (elements cfg !! key).

(** The world once [simulate_braking] has gone through the four wheel
    joints, in the order of its sixteen calls. *)
Definition braked (fl fr bl br : string * string) (w : World) : World :=
  alter_joint br (SetParam "stop_cfm" 0 10.0%float)
  (alter_joint bl (SetParam "stop_cfm" 0 10.0%float)
  (alter_joint fr (SetParam "stop_cfm" 0 10.0%float)
  (alter_joint fl (SetParam "stop_cfm" 0 10.0%float)
  (alter_joint br (SetParam "stop_erp" 0 0.0%float)
  (alter_joint bl (SetParam "stop_erp" 0 0.0%float)
  (alter_joint fr (SetParam "stop_erp" 0 0.0%float)
  (alter_joint fl (SetParam "stop_erp" 0 0.0%float)
  (alter_joint br (SetLowStop 0 0%float)
  (alter_joint bl (SetLowStop 0 0%float)
  (alter_joint fr (SetLowStop 0 0%float)
  (alter_joint fl (SetLowStop 0 0%float)
  (alter_joint br (SetHighStop 0 0%float)
  (alter_joint bl (SetHighStop 0 0%float)
  (alter_joint fr (SetHighStop 0 0%float)
  (alter_joint fl (SetHighStop 0 0%float) w))))))))))))))).

(** A wheel joint as [simulate_braking] leaves it. *)
Definition brake (j : Joint) : Joint :=
  SetParam "stop_cfm" 0 10.0%float
    (SetParam "stop_erp" 0 0.0%float (SetLowStop 0 0%float (SetHighStop 0 0%float j))).

(** The event [on_gazebo_modelInfo] starts with. *)
Definition new_model_message (_msg : ModelMsg) : Event :=
  ev_ROS_INFO (Fmt "NEW MODEL : name %s") [ArgS (name _msg)].

(** [m] takes the plugin from any state to one related to it by [R],
    however it ends. *)
Definition respects {A} (R : relation Sim) (m : M A) : Prop :=
  forall s, R s (final (m s)).

(** The trace only grows. *)
Definition extends (s s' : Sim) : Prop := exists evs, out s' = out s ++ evs.

(** The six lookups of [searching_joints] in the order of the source: the
    name each one asks the model for, and the message it throws with when
    the model has no such joint. *)
Definition joint_lookups : list (string * string) :=
  [ ("front_left_wheel_joint", "could not find front left wheel joint" +:+ nl);
    ("front_right_wheel_joint", "could not find front right wheel joint" +:+ nl);
    ("rear_left_wheel_joint", "could not find back left wheel joint" +:+ nl);
    ("rear_right_wheel_joint", "could not find back right wheel joint" +:+ nl);
    ("front_left_steering_joint", "could not find front right steering joint" +:+ nl);
    ("front_right_steering_joint", "could not find front left steering joint" +:+ nl) ].

(** The message of the first lookup that a model fails, if any. *)
Definition first_missing (mdl : Model) : option string :=
  snd <$> List.find (fun l => is_null (joints mdl !! l.1)) joint_lookups.

(** The plugin after the first two stages of [on_rover_model_loaded] on a
    world that has the rover with its six joints. *)
Definition joints_found (w : World) (p : Plugin) : Plugin :=
  {| _parent_world := _parent_world p; _sdf := _sdf p; _modelName := _modelName p;
     _nbMotorSpeed := _nbMotorSpeed p; _isSimPaused := _isSimPaused p;
     _timeMsgAlreadyDisplayed := _timeMsgAlreadyDisplayed p;
     _fdm_timestamp := _fdm_timestamp p; _controlSub := _controlSub p;
     _modelInfoSub := _modelInfoSub p; _updateConnection := _updateConnection p;
     _rover_model := Some "rover"; node := Some (Node_Init (GetName w));
     wheelRadius := 0.1; flWheelRadius := 0.1; frWheelRadius := 0.1;
     blWheelRadius := 0.1; brWheelRadius := 0.1; steeredWheelForce := 5000;
     frontTorque := 0; backTorque := 0; tireAngleRange := 0; maxSpeed := 0;
     maxSteer := 0; aeroLoad := 0;
     flWheelJoint := Some ("rover", "front_left_wheel_joint");
     frWheelJoint := Some ("rover", "front_right_wheel_joint");
     blWheelJoint := Some ("rover", "rear_left_wheel_joint");
     brWheelJoint := Some ("rover", "rear_right_wheel_joint");
     frWheelSteeringJoint := Some ("rover", "front_left_steering_joint");
     flWheelSteeringJoint := Some ("rover", "front_right_steering_joint") |}.

(** What [searching_joints] says when it finds the joints. *)
Definition searching_messages : list Event :=
  [ev_ROS_INFO (Fmt "Searching joints...") []; ev_ROS_INFO (Fmt "Front left joint found") []].

(** The references [searching_joints] stores for the four wheels. *)
Definition FL : string * string := ("rover", "front_left_wheel_joint").
Definition FR : string * string := ("rover", "front_right_wheel_joint").
Definition BL : string * string := ("rover", "rear_left_wheel_joint").
Definition BR : string * string := ("rover", "rear_right_wheel_joint").

(** The plugin after [on_rover_model_loaded] on a world that has the rover
    with its six joints, the wheel joints with the child links [lfl], [lfr],
    [lbl] and [lbr], under the configuration [cfg]. *)
Definition resolved (cfg : Element) (w : World) (lfl lfr lbl lbr : Link) (p : Plugin) : Plugin :=
  set_brWheelRadius (radiusOf (GetCollision lbr 0))
    (set_blWheelRadius (radiusOf (GetCollision lbl 0))
       (set_frWheelRadius (radiusOf (GetCollision lfr 0))
          (set_flWheelRadius (radiusOf (GetCollision lfl 0))
             (set__parent_world (Some (braked FL FR BL BR w))
                (set_aeroLoad (param_or cfg "aero_load" 0.1%float)
                   (set_maxSteer (param_or cfg "max_steer" 0.6%float)
                      (set_maxSpeed (param_or cfg "max_speed" 10%float)
                         (set_backTorque (param_or cfg "back_torque" 2000%float)
                            (set_frontTorque (param_or cfg "front_torque" 0%float)
                               (joints_found w p)))))))))).

(** The plugin when [on_rover_model_loaded] is about to read the wheel
    radii. *)
Definition ready (cfg : Element) (w : World) (s : Sim) : Sim :=
  {| this :=
       set__parent_world (Some (braked FL FR BL BR w))
         (set_aeroLoad (param_or cfg "aero_load" 0.1%float)
            (set_maxSteer (param_or cfg "max_steer" 0.6%float)
               (set_maxSpeed (param_or cfg "max_speed" 10%float)
                  (set_backTorque (param_or cfg "back_torque" 2000%float)
                     (set_frontTorque (param_or cfg "front_torque" 0%float)
                        (joints_found w (this s)))))));
     out := out s ++ searching_messages |}.

(** What [on_rover_model_loaded] needs of the plugin to go through: the
    world and the configuration behind its pointers, the rover in the world,
    the six joints in the rover, a child link under each wheel joint. *)
Record rover_scene (s : Sim) (w : World) (mdl : Model) (cfg : Element)
    (jfl jfr jbl jbr : Joint) (lfl lfr lbl lbr : Link) : Prop := {
  scene_world : _parent_world (this s) = Some w;
  scene_sdf : _sdf (this s) = Some cfg;
  scene_rover : models w !! "rover" = Some mdl;
  scene_fl : joints mdl !! "front_left_wheel_joint" = Some jfl;
  scene_fr : joints mdl !! "front_right_wheel_joint" = Some jfr;
  scene_bl : joints mdl !! "rear_left_wheel_joint" = Some jbl;
  scene_br : joints mdl !! "rear_right_wheel_joint" = Some jbr;
  scene_sl : is_Some (joints mdl !! "front_left_steering_joint");
  scene_sr : is_Some (joints mdl !! "front_right_steering_joint");
  scene_lfl : GetChild jfl = Some lfl;
  scene_lfr : GetChild jfr = Some lfr;
  scene_lbl : GetChild jbl = Some lbl;
  scene_lbr : GetChild jbr = Some lbr
}.

(** The wheels: the joint pointer and the radius the plugin keeps for each. *)
Definition wheels : list ((Plugin -> JointPtr) * (Plugin -> double)) :=
  [ (flWheelJoint, flWheelRadius); (frWheelJoint, frWheelRadius);
    (blWheelJoint, blWheelRadius); (brWheelJoint, brWheelRadius) ].

(** A wheel after a resolution, in the world [w] and the plugin [p]: its
    joint is braked, and its radius is read off collision 0 of the joint's
    child link. *)
Definition wheel_resolved (w : World) (p : Plugin)
    (wheel : (Plugin -> JointPtr) * (Plugin -> double)) : Prop :=
  exists j child,
    joint_at w (wheel.1 p) = Some j /\
    highStop j !! 0%nat = Some 0%float /\
    lowStop j !! 0%nat = Some 0%float /\
    param j !! ("stop_erp", 0%nat) = Some 0%float /\
    param j !! ("stop_cfm", 0%nat) = Some 10%float /\
    GetChild j = Some child /\
    get_collision_radius (GetCollision child 0) = Some (wheel.2 p).

(** ** More of what the plugin keeps *)

(** Two states of the plugin agree on what [f] reads of the object. *)
Definition same_on {X} (f : Plugin -> X) (s s' : Sim) : Prop :=
  f (this s') = f (this s).

(** If the plugin had a world, it still has one, and [P] relates the world
    before to the world after. *)
Definition world_rel (P : relation World) (s s' : Sim) : Prop :=
  match _parent_world (this s) with
  | Some w => exists w', _parent_world (this s') = Some w' /\ P w w'
  | None => True
  end.

(** All of a world but its models is as it was. *)
Definition world_kept (w w' : World) : Prop :=
  GetName w' = GetName w /\
  IsPaused w' = IsPaused w /\
  GetIterations w' = GetIterations w /\
  clock w' = clock w /\
  GetPhysicsEngine w' = GetPhysicsEngine w.

(** A world has gone on: no iteration is taken back, and a paused world is
    still paused. *)
Definition world_advanced (w w' : World) : Prop :=
  GetName w' = GetName w /\
  clock w' = clock w /\
  GetPhysicsEngine w' = GetPhysicsEngine w /\
  (GetIterations w <= GetIterations w')%N /\
  (IsPaused w = true -> IsPaused w' = true).

(** All that can happen to an initialised plugin: a call of a schedule, or
    a model-load event. *)
Inductive Happening :=
| a_call (c : Call)
| a_model (_msg : ModelMsg).

Definition happen (h : Happening) : M unit :=
  match h with
  | a_call c => call c
  | a_model _msg => on_gazebo_modelInfo _msg
  end.

Fixpoint happen_all (hs : list Happening) : M unit :=
  match hs with
  | [] => ret tt
  | h :: hs' => happen h ;; happen_all hs'
  end.


Definition is_step_happening (h : Happening) : bool :=
  match h with a_call c => is_step c | a_model _ => false end.

(** The happening is a control event that carries a pause request. *)
Definition asks_pause (h : Happening) : bool :=
  match h with a_call (call_control m) => has_pause m | _ => false end.

(** The plugin after [init_gazebo_side] on a world and a configuration
    element. *)
Definition initialised (w : World) (cfg : Element) (s : Sim) : Sim :=
  final (init_gazebo_side (Some w) (Some cfg) s).

(** The models of a world are as they were. *)
Definition models_kept (w w' : World) : Prop := models w' = models w.

(** What [on_rover_model_loaded] writes in the plugin object, the world
    aside: the model pointer, the node, the radii, the steered wheel force,
    the vehicle parameters and the tire angle range, the six joint
    pointers. *)
Definition resolution_of (p : Plugin)
  : ModelPtr * option Node * list double * list JointPtr :=
  (_rover_model p, node p,
   [wheelRadius p; flWheelRadius p; frWheelRadius p; blWheelRadius p; brWheelRadius p;
    steeredWheelForce p; frontTorque p; backTorque p; tireAngleRange p; maxSpeed p;
    maxSteer p; aeroLoad p],
   [flWheelJoint p; frWheelJoint p; blWheelJoint p; brWheelJoint p;
    frWheelSteeringJoint p; flWheelSteeringJoint p]).

(** ** A rover scene, to run the plugin on *)

Module Sample.

Definition wheel_link (r : double) : Link :=
  {| collisions := [ {| GetShape := Some (CylinderShape r 0.1%float) |} ] |}.

Definition wheel_joint (r : double) : Joint :=
  {| highStop := ∅; lowStop := ∅; param := ∅; GetChild := Some (wheel_link r) |}.

Definition steering_joint : Joint :=
  {| highStop := ∅; lowStop := ∅; param := ∅;
     GetChild := Some {| collisions := [ {| GetShape := Some (BoxShape 0.1 0.1 0.1) |} ] |} |}.

Definition rover : Model :=
  {| joints :=
       <["front_left_wheel_joint" := wheel_joint 0.15%float]>
      (<["front_right_wheel_joint" := wheel_joint 0.16%float]>
      (<["rear_left_wheel_joint" := wheel_joint 0.17%float]>
      (<["rear_right_wheel_joint" := wheel_joint 0.18%float]>
      (<["front_left_steering_joint" := steering_joint]>
      (<["front_right_steering_joint" := steering_joint]> ∅))))) |}.

(** A world at 400 Hz holding the rover. *)
Definition world : World :=
  {| GetName := "default"; IsPaused := false; GetIterations := 0;
     clock := fun k => {| sec := Z.of_N (k / 400); nsec := Z.of_N (k mod 400) * 2500000 |};
     GetPhysicsEngine := {| GetMaxStepSize := 0.001%float |};
     models := {[ "rover" := rover ]} |}.

(** The same world with one joint of the rover taken out. *)
Definition world_without (jname : string) : World :=
  set_models {[ "rover" := {| joints := delete jname (joints rover) |} ]} world.

(** [<UAV_MODEL>drone1</UAV_MODEL> <NB_SERVOS_MOTOR_SPEED>4</...>
    <max_speed>12.5</max_speed>]. *)
Definition config : Element :=
  {| elements :=
       <["UAV_MODEL" := {| as_string := "drone1"; as_int := 0; as_double := 0 |}]>
      (<["NB_SERVOS_MOTOR_SPEED" := {| as_string := "4"; as_int := 4; as_double := 4 |}]>
      (<["max_speed" := {| as_string := "12.5"; as_int := 12; as_double := 12.5 |}]> ∅)) |}.

(** A plugin object before [init_gazebo_side]: null pointers, flags
    clear. *)
Definition plugin : Plugin :=
  {| _parent_world := None; _sdf := None; _modelName := "rover"; _nbMotorSpeed := 0;
     _isSimPaused := false; _timeMsgAlreadyDisplayed := false; _fdm_timestamp := 0;
     _controlSub := None; _modelInfoSub := None; _updateConnection := None;
     _rover_model := None; node := None;
     wheelRadius := 0; flWheelRadius := 0; frWheelRadius := 0; blWheelRadius := 0;
     brWheelRadius := 0; steeredWheelForce := 0; frontTorque := 0; backTorque := 0;
     tireAngleRange := 0; maxSpeed := 0; maxSteer := 0; aeroLoad := 0;
     flWheelJoint := None; frWheelJoint := None; blWheelJoint := None;
     brWheelJoint := None; frWheelSteeringJoint := None; flWheelSteeringJoint := None |}.

Definition fresh : Sim := {| this := plugin; out := [] |}.

(** The plugin once initialised on a world, with [config]. *)
Definition started_on (w : World) : Sim :=
  final (init_gazebo_side (Some w) (Some config) fresh).

Definition started : Sim := started_on world.

(** The same after a control event asking for a pause. *)
Definition paused : Sim :=
  final (on_gazebo_control {| pause := Some true |} started).

(** The same after the resolver has run. *)
Definition resolved : Sim := final (on_rover_model_loaded started).

End Sample.

(** * Properties *)

(** ** The monad *)

Lemma bind_Ok {A B} (m : M A) (k : A -> M B) (s s1 : Sim) (a : A) :
  m s = Ok a s1 -> (m' <- m ;; k m') s = k a s1.
Proof. intros H. unfold bind. now rewrite H. Qed.

Lemma parent_world_Some (s : Sim) (w : World) :
  _parent_world (this s) = Some w -> parent_world s = Ok w s.
Proof. intros H. unfold parent_world, bind, get, deref. now rewrite H. Qed.

Lemma parent_world_do_Some (method : World -> World) (s : Sim) (w : World) :
  _parent_world (this s) = Some w ->
  parent_world_do method s =
  Ok tt {| this := set__parent_world (Some (method w)) (this s); out := out s |}.
Proof.
  intros H. unfold parent_world_do.
  rewrite (bind_Ok _ _ _ _ _ (parent_world_Some s w H)). reflexivity.
Qed.

(** ** [get_collision_radius] *)

Lemma HasType_CYLINDER_SHAPE (sh : Shape) :
  HasType sh CYLINDER_SHAPE = true <-> exists r l, sh = CylinderShape r l.
Proof.
  split.
  - destruct sh; try (vm_compute; discriminate). eauto.
  - intros (r & l & ->). reflexivity.
Qed.

Lemma HasType_SPHERE_SHAPE (sh : Shape) :
  HasType sh SPHERE_SHAPE = true <-> exists r, sh = SphereShape r.
Proof.
  split.
  - destruct sh; try (vm_compute; discriminate). eauto.
  - intros (r & ->). reflexivity.
Qed.

Lemma get_collision_radius_radiusOf (_coll : CollisionPtr) :
  get_collision_radius _coll = Some (radiusOf _coll).
Proof.
  destruct _coll as [[[sh|]]|]; try reflexivity.
  destruct sh; reflexivity.
Qed.

(** C4. [get_collision_radius] always returns a value, and the value is the
    spec's [radiusOf]: zero for a null collision or a null shape, the radius
    of a shape that [HasType] classifies as a cylinder (which is then a
    [CylinderShape]) or as a sphere (a [SphereShape]), zero for every other
    shape. *)
Theorem get_collision_radius_contract (_coll : CollisionPtr) :
  get_collision_radius _coll = Some (radiusOf _coll) /\
  get_collision_radius None = Some 0%float /\
  get_collision_radius (Some {| GetShape := None |}) = Some 0%float /\
  (forall sh : Shape,
      get_collision_radius (Some {| GetShape := Some sh |}) =
      Some (if HasType sh CYLINDER_SHAPE then radiusOf (Some {| GetShape := Some sh |})
            else if HasType sh SPHERE_SHAPE then radiusOf (Some {| GetShape := Some sh |})
            else 0%float)) /\
  (forall sh : Shape, HasType sh CYLINDER_SHAPE = true <-> exists r l, sh = CylinderShape r l) /\
  (forall sh : Shape, HasType sh SPHERE_SHAPE = true <-> exists r, sh = SphereShape r) /\
  (forall r l : double,
      get_collision_radius (Some {| GetShape := Some (CylinderShape r l) |}) = Some r) /\
  (forall r : double,
      get_collision_radius (Some {| GetShape := Some (SphereShape r) |}) = Some r).
Proof.
  split_and!; try reflexivity.
  - apply get_collision_radius_radiusOf.
  - intros sh. destruct sh; reflexivity.
  - apply HasType_CYLINDER_SHAPE.
  - apply HasType_SPHERE_SHAPE.
Qed.

(** ** [step_gazebo_sim] *)

(** C1. One call of [step_gazebo_sim] is one [Step(1)] of the world,
    whatever [_isSimPaused] and the world's own pause flag are; [n] calls
    take the iteration count [n] further and leave [_isSimPaused] as it
    was. *)
Theorem step_gazebo_sim_advances (n : nat) (s : Sim) (w : World) :
  _parent_world (this s) = Some w ->
  step_gazebo_sim s =
    Ok tt {| this := set__parent_world (Some (Step 1 w)) (this s); out := out s |} /\
  exists s',
    repeat_step n s = Ok tt s' /\
    iterations s' = Some (GetIterations w + N.of_nat n)%N /\
    _isSimPaused (this s') = _isSimPaused (this s).
Proof.
  intros Hw. split; [ now apply parent_world_do_Some | ].
  revert s w Hw. induction n as [|n IH]; intros s w Hw.
  - exists s. unfold iterations. rewrite Hw. simpl. rewrite N.add_0_r. auto.
  - cbn [repeat_step]. unfold step_gazebo_sim at 1.
    rewrite (bind_Ok _ _ _ _ _ (parent_world_do_Some _ s w Hw)).
    edestruct (IH {| this := set__parent_world (Some (Step 1 w)) (this s); out := out s |})
      as (s' & Hrun & Hit & Hp); [ reflexivity | ].
    exists s'. split; [ exact Hrun | ]. split; [ | exact Hp ].
    rewrite Hit. simpl. f_equal. lia.
Qed.

Lemma step_gazebo_sim_advances_sample :
  (_parent_world (this Sample.started) = Some (SetPaused true Sample.world) /\
   exists s',
     repeat_step 3 Sample.started = Ok tt s' /\
     iterations s' = Some 3%N /\
     _isSimPaused (this s') = false) /\
  (_parent_world (this Sample.paused) = Some (SetPaused true Sample.world) /\
   exists s',
     repeat_step 3 Sample.paused = Ok tt s' /\
     iterations s' = Some 3%N /\
     _isSimPaused (this s') = true).
Proof.
  split; (split; [ reflexivity | ]).
  - exact (proj2 (step_gazebo_sim_advances
                    3 Sample.started (SetPaused true Sample.world) eq_refl)).
  - exact (proj2 (step_gazebo_sim_advances
                    3 Sample.paused (SetPaused true Sample.world) eq_refl)).
Defined.

(** ** The callbacks, one call at a time *)

Lemma on_gazebo_control_Some (_msg : WorldControl) (s : Sim) (w : World) :
  _parent_world (this s) = Some w ->
  on_gazebo_control _msg s =
  Ok tt (if has_pause _msg then
           if _isSimPaused (this s) then
             {| this := set__isSimPaused false (this s);
                out := out s ++ [resuming_message] |}
           else
             {| this := set__parent_world (Some (SetPaused true w))
                          (set__isSimPaused true (this s));
                out := out s ++ [paused_message] |}
         else s).
Proof.
  intros Hw. unfold on_gazebo_control.
  destruct (has_pause _msg); [ | reflexivity ].
  unfold bind, modify, get. cbn [this out].
  destruct (_isSimPaused (this s)) eqn:Hp; simpl.
  - unfold ROS_INFO, emit. simpl. reflexivity.
  - unfold parent_world_do, parent_world, bind, get, deref. simpl. rewrite Hw.
    reflexivity.
Qed.

Lemma on_gazebo_update_Some (s : Sim) (w : World) :
  _parent_world (this s) = Some w ->
  on_gazebo_update s =
  Ok tt (if _timeMsgAlreadyDisplayed (this s) then
           {| this := set__fdm_timestamp (Time_seconds (GetSimTime w)) (this s);
              out := out s |}
         else
           {| this := set__timeMsgAlreadyDisplayed true
                        (set__fdm_timestamp (Time_seconds (GetSimTime w)) (this s));
              out := out s ++ [step_size_message w] |}).
Proof.
  intros Hw. unfold on_gazebo_update, parent_world, bind, get, deref, modify.
  rewrite Hw. simpl.
  destruct (_timeMsgAlreadyDisplayed (this s)); simpl; [ reflexivity | ].
  rewrite Hw. reflexivity.
Qed.

(** What one call of a schedule does to the quantities the claims are
    about, on an initialised plugin. *)
Lemma call_Some (c : Call) (s : Sim) (w : World) :
  _parent_world (this s) = Some w ->
  exists s' w' evs,
    call c s = Ok tt s' /\
    _parent_world (this s') = Some w' /\
    GetIterations w' = (GetIterations w + if is_step c then 1 else 0)%N /\
    clock w' = clock w /\
    _isSimPaused (this s') =
      xorb (_isSimPaused (this s))
           (match c with call_control m => has_pause m | _ => false end) /\
    _timeMsgAlreadyDisplayed (this s') = _timeMsgAlreadyDisplayed (this s) || is_update c /\
    out s' = out s ++ evs /\
    step_size_messages evs =
      (if is_update c && negb (_timeMsgAlreadyDisplayed (this s)) then 1 else 0)%nat.
Proof.
  intros Hw. destruct c as [|m|]; cbn [call is_step is_update].
  - unfold step_gazebo_sim. rewrite (parent_world_do_Some _ s w Hw).
    eexists _, _, []. split_and!; try reflexivity; simpl.
    + now rewrite xorb_false_r.
    + now rewrite orb_false_r.
    + now rewrite app_nil_r.
  - rewrite (on_gazebo_control_Some m s w Hw).
    destruct (has_pause m), (_isSimPaused (this s)) eqn:Hp.
    + eexists _, w, [_]. split_and!; try reflexivity; simpl; auto using N.add_0_r, orb_false_r.
    + eexists _, _, [_]. split_and!; try reflexivity; simpl; auto using N.add_0_r, orb_false_r.
    + eexists s, w, []. split_and!; try reflexivity; simpl;
        auto using N.add_0_r, orb_false_r, app_nil_r.
    + eexists s, w, []. split_and!; try reflexivity; simpl;
        auto using N.add_0_r, orb_false_r, app_nil_r.
  - rewrite (on_gazebo_update_Some s w Hw).
    destruct (_timeMsgAlreadyDisplayed (this s)) eqn:Hd.
    + eexists _, w, []. split_and!; try reflexivity; simpl;
        auto using N.add_0_r, xorb_false_r, app_nil_r.
    + eexists _, w, [_]. split_and!; try reflexivity; simpl;
        auto using N.add_0_r, xorb_false_r.
Qed.

(** ** Schedules *)

Lemma count_app {A} (f : A -> bool) (l1 l2 : list A) :
  count f (l1 ++ l2) = (count f l1 + count f l2)%nat.
Proof. induction l1 as [|x l1 IH]; simpl; [ reflexivity | rewrite IH; lia ]. Qed.

Lemma run_app (cs1 cs2 : list Call) (s : Sim) :
  run (cs1 ++ cs2) s = (run cs1 ;; run cs2) s.
Proof.
  revert s. induction cs1 as [|c cs1 IH]; intros s; [ reflexivity | ].
  cbn [run app]. unfold bind in *.
  destruct (call c s) as [[] s1|msg s1|s1]; [ | reflexivity | reflexivity ].
  apply IH.
Qed.

Lemma run_Some (cs : list Call) (s : Sim) (w : World) :
  _parent_world (this s) = Some w ->
  exists s' w' evs,
    run cs s = Ok tt s' /\
    _parent_world (this s') = Some w' /\
    GetIterations w' = (GetIterations w + N.of_nat (count is_step cs))%N /\
    clock w' = clock w /\
    out s' = out s ++ evs /\
    step_size_messages evs =
      (if _timeMsgAlreadyDisplayed (this s) then 0 else Nat.min 1 (count is_update cs))%nat.
Proof.
  revert s w. induction cs as [|c cs IH]; intros s w Hw.
  - exists s, w, []. split_and!; try reflexivity; auto using app_nil_r.
    + simpl. now rewrite N.add_0_r.
    + now destruct (_timeMsgAlreadyDisplayed (this s)).
  - destruct (call_Some c s w Hw) as (s1 & w1 & evs1 & Hc & Hw1 & Hi1 & Hk1 & _ & Hd1 & Ho1 & Hm1).
    destruct (IH s1 w1 Hw1) as (s' & w' & evs & Hr & Hw' & Hi & Hk & Ho & Hm).
    exists s', w', (evs1 ++ evs). cbn [run].
    rewrite (bind_Ok _ _ _ _ _ Hc). split_and!; [ assumption | assumption | | | | ].
    + rewrite Hi, Hi1. cbn [count]. destruct (is_step c); lia.
    + congruence.
    + rewrite Ho, Ho1. now rewrite app_assoc.
    + unfold step_size_messages in *. rewrite count_app, Hm1, Hm, Hd1. cbn [count].
      destruct (_timeMsgAlreadyDisplayed (this s)), (is_update c); reflexivity.
Qed.

Lemma step_counts_from (cs : list Call) (s : Sim) (w : World) :
  _parent_world (this s) = Some w ->
  step_counts cs s = counts_from (GetIterations w) cs.
Proof.
  revert s w. induction cs as [|c cs IH]; intros s w Hw; [ reflexivity | ].
  destruct (call_Some c s w Hw) as (s1 & w1 & evs1 & Hc & Hw1 & Hi1 & _).
  cbn [step_counts]. rewrite Hc, (IH s1 w1 Hw1), Hi1.
  unfold iterations. rewrite Hw1. cbn [fmap option_fmap option_map].
  destruct c; cbn [is_step counts_from app]; rewrite ?Hi1, ?N.add_0_r; reflexivity.
Qed.

Lemma counts_from_filter (i : N) (cs : list Call) :
  counts_from i (List.filter (fun c => negb (is_control c)) cs) = counts_from i cs.
Proof.
  revert i. induction cs as [|c cs IH]; intros i; [ reflexivity | ].
  destruct c; cbn [List.filter is_control negb counts_from]; now rewrite ?IH.
Qed.

(** C5. A control event that carries a pause request negates
    [_isSimPaused] (exclusive or with the presence of the request, not an
    assignment of the requested value): two such events in a row from the
    unpaused state leave it true, then false.  An event without a pause
    request changes nothing.  Whatever control events are put into a
    schedule, the iteration counts read after its steps are those of the
    schedule without them. *)
Theorem on_gazebo_control_toggles
    (s : Sim) (w : World) (_msg : WorldControl) (cs : list Call) :
  _parent_world (this s) = Some w ->
  (exists s',
      on_gazebo_control _msg s = Ok tt s' /\
      _isSimPaused (this s') = xorb (_isSimPaused (this s)) (has_pause _msg) /\
      (has_pause _msg = false -> s' = s)) /\
  (forall m1 m2, has_pause m1 = true -> has_pause m2 = true ->
    exists s1 s2,
      on_gazebo_control m1 s = Ok tt s1 /\
      on_gazebo_control m2 s1 = Ok tt s2 /\
      _isSimPaused (this s1) = negb (_isSimPaused (this s)) /\
      _isSimPaused (this s2) = _isSimPaused (this s) /\
      (_isSimPaused (this s) = false ->
       _isSimPaused (this s1) = true /\ _isSimPaused (this s2) = false)) /\
  step_counts cs s = step_counts (List.filter (fun c => negb (is_control c)) cs) s.
Proof.
  intros Hw. split_and!.
  - destruct (call_Some (call_control _msg) s w Hw)
      as (s' & w' & evs & Hc & _ & _ & _ & Hp & _).
    exists s'. split_and!; auto.
    intros Hno. cbn [call] in Hc. rewrite (on_gazebo_control_Some _ s w Hw), Hno in Hc.
    congruence.
  - intros m1 m2 H1 H2.
    destruct (call_Some (call_control m1) s w Hw)
      as (s1 & w1 & evs1 & Hc1 & Hw1 & _ & _ & Hp1 & _).
    destruct (call_Some (call_control m2) s1 w1 Hw1)
      as (s2 & w2 & evs2 & Hc2 & _ & _ & _ & Hp2 & _).
    rewrite H1 in Hp1. rewrite H2, Hp1 in Hp2.
    exists s1, s2. split_and!; [ exact Hc1 | exact Hc2 | | | ].
    + now rewrite Hp1, xorb_true_r.
    + rewrite Hp2. now destruct (_isSimPaused (this s)).
    + intros Hu. rewrite Hp2, Hp1, Hu. split; reflexivity.
  - rewrite (step_counts_from _ s w Hw), (step_counts_from _ s w Hw).
    symmetry. apply counts_from_filter.
Qed.

Lemma on_gazebo_control_toggles_sample :
  _parent_world (this Sample.started) = Some (SetPaused true Sample.world) /\
  (exists s1 s2,
      on_gazebo_control {| pause := Some true |} Sample.started = Ok tt s1 /\
      on_gazebo_control {| pause := Some true |} s1 = Ok tt s2 /\
      _isSimPaused (this s1) = true /\
      _isSimPaused (this s2) = false) /\
  step_counts
    [call_step; call_control {| pause := Some true |}; call_step;
     call_control {| pause := Some false |}; call_step] Sample.started =
  step_counts [call_step; call_step; call_step] Sample.started.
Proof.
  pose proof (on_gazebo_control_toggles
                Sample.started (SetPaused true Sample.world) {| pause := None |}
                [call_step; call_control {| pause := Some true |}; call_step;
                 call_control {| pause := Some false |}; call_step] eq_refl)
    as (_ & Htwice & Hcounts).
  split_and!; [ reflexivity | | exact Hcounts ].
  destruct (Htwice {| pause := Some true |} {| pause := Some true |} eq_refl eq_refl)
    as (s1 & s2 & H1 & H2 & _ & _ & Hfrom).
  destruct (Hfrom eq_refl) as [Hp1 Hp2].
  exists s1, s2. split_and!; assumption.
Defined.

(** C9. Each call of [on_gazebo_update] stores the world's simulated time,
    in seconds, in [_fdm.timestamp].  It says the step size only while
    [_timeMsgAlreadyDisplayed] is clear, and sets it: over a schedule of
    steps and callbacks the message is emitted by the first update and by
    no later one. *)
Theorem on_gazebo_update_records (s : Sim) (w : World) (cs : list Call) :
  _parent_world (this s) = Some w ->
  (exists s',
      on_gazebo_update s = Ok tt s' /\
      _fdm_timestamp (this s') = Time_seconds (GetSimTime w) /\
      _timeMsgAlreadyDisplayed (this s') = true /\
      out s' = out s ++ (if _timeMsgAlreadyDisplayed (this s) then []
                         else [step_size_message w])) /\
  (exists s' evs,
      run cs s = Ok tt s' /\
      out s' = out s ++ evs /\
      step_size_messages evs =
        (if _timeMsgAlreadyDisplayed (this s) then 0
         else Nat.min 1 (count is_update cs))%nat) /\
  (exists s' w',
      run (cs ++ [call_update]) s = Ok tt s' /\
      _parent_world (this s') = Some w' /\
      GetIterations w' = (GetIterations w + N.of_nat (count is_step cs))%N /\
      _fdm_timestamp (this s') = Time_seconds (GetSimTime w') /\
      _timeMsgAlreadyDisplayed (this s') = true).
Proof.
  intros Hw. split_and!.
  - rewrite (on_gazebo_update_Some s w Hw).
    destruct (_timeMsgAlreadyDisplayed (this s)) eqn:Hd;
      eexists; split_and!; try reflexivity; simpl; auto using app_nil_r.
  - destruct (run_Some cs s w Hw) as (s' & w' & evs & Hr & _ & _ & _ & Ho & Hm).
    exists s', evs. auto.
  - destruct (run_Some cs s w Hw) as (s1 & w1 & evs & Hr & Hw1 & Hi & _).
    rewrite run_app, (bind_Ok _ _ _ _ _ Hr). cbn [run call].
    rewrite (bind_Ok _ _ _ _ _ (on_gazebo_update_Some s1 w1 Hw1)).
    destruct (_timeMsgAlreadyDisplayed (this s1)) eqn:Hd;
      eexists _, w1; split_and!; try reflexivity; simpl; auto.
Qed.

Lemma on_gazebo_update_records_sample :
  _parent_world (this Sample.started) = Some (SetPaused true Sample.world) /\
  (exists s' evs,
      run [call_step; call_update; call_step; call_update] Sample.started = Ok tt s' /\
      out s' = out Sample.started ++ evs /\
      step_size_messages evs = 1%nat) /\
  (exists s' w',
      run ([call_step; call_update; call_step] ++ [call_update]) Sample.started = Ok tt s' /\
      _parent_world (this s') = Some w' /\
      GetIterations w' = 2%N /\
      _fdm_timestamp (this s') = Time_seconds (GetSimTime w') /\
      _timeMsgAlreadyDisplayed (this s') = true).
Proof.
  split_and!; [ reflexivity | | ].
  - exact (proj1 (proj2 (on_gazebo_update_records
                           Sample.started (SetPaused true Sample.world)
                           [call_step; call_update; call_step; call_update] eq_refl))).
  - exact (proj2 (proj2 (on_gazebo_update_records
                           Sample.started (SetPaused true Sample.world)
                           [call_step; call_update; call_step] eq_refl))).
Defined.

(** ** [init_gazebo_side] *)

Ltac unfold_M :=
  unfold sdf_HasElement, sdf_Get_string, sdf_Get_int, sdf_Get_double, sdf,
    parent_world_do, parent_world, ROS_INFO, Publish, Advertise, Subscribe,
    ConnectWorldUpdateEnd, bind, ret, get, modify, emit, deref, gzthrow.

Lemma init_gazebo_side_Some (w : World) (cfg : Element) (s : Sim) :
  init_gazebo_side (Some w) (Some cfg) s =
  Ok true
    {| this :=
         let p1 := set__sdf (Some cfg) (set__parent_world (Some w) (this s)) in
         let p2 := if HasElement cfg "UAV_MODEL"
                   then set__modelName (Get_string cfg "UAV_MODEL") p1 else p1 in
         let p3 := if HasElement cfg "NB_SERVOS_MOTOR_SPEED"
                   then set__nbMotorSpeed (Get_int cfg "NB_SERVOS_MOTOR_SPEED") p2 else p2 in
         set__updateConnection (Some {| conn_callback := cb_on_gazebo_update |})
           (set__modelInfoSub
              (Some {| sub_topic := "~/model/info"; sub_callback := cb_on_gazebo_modelInfo |})
              (set__controlSub
                 (Some {| sub_topic := "~/world_control"; sub_callback := cb_on_gazebo_control |})
                 (set__parent_world (Some (SetPaused true w)) p3)));
       out :=
         out s ++
         [ev_ROS_INFO (Fmt "Model name:      %s")
            [ArgS (if HasElement cfg "UAV_MODEL" then Get_string cfg "UAV_MODEL"
                   else _modelName (this s))];
          ev_ROS_INFO (Fmt "Nb motor servos: %d")
            [ArgD (if HasElement cfg "NB_SERVOS_MOTOR_SPEED"
                   then Get_int cfg "NB_SERVOS_MOTOR_SPEED"
                   else _nbMotorSpeed (this s))];
          ev_Publish "~/physics"
            {| type := Some ODE; max_step_size := Some STEP_SIZE_FOR_ARDUPILOT |};
          ev_Subscribe "~/world_control" cb_on_gazebo_control;
          ev_Subscribe "~/model/info" cb_on_gazebo_modelInfo;
          ev_ConnectWorldUpdateEnd cb_on_gazebo_update] |}.
Proof.
  unfold init_gazebo_side. unfold_M. simpl.
  destruct (HasElement cfg "UAV_MODEL"); simpl;
    destruct (HasElement cfg "NB_SERVOS_MOTOR_SPEED"); simpl;
    rewrite <- ?app_assoc; reflexivity.
Qed.

Lemma init_gazebo_side_never_false
    (world : WorldPtr) (sdf_ : ElementPtr) (s s' : Sim) (b : bool) :
  init_gazebo_side world sdf_ s = Ok b s' -> b = true.
Proof.
  destruct sdf_ as [cfg|], world as [w|].
  - rewrite init_gazebo_side_Some. congruence.
  - unfold init_gazebo_side. unfold_M. simpl.
    destruct (HasElement cfg "UAV_MODEL"); simpl;
      destruct (HasElement cfg "NB_SERVOS_MOTOR_SPEED"); simpl; discriminate.
  - unfold init_gazebo_side. unfold_M. simpl. discriminate.
  - unfold init_gazebo_side. unfold_M. simpl. discriminate.
Qed.

(** C8. On a world and a configuration element, whatever the element's
    children, [init_gazebo_side] returns [true]; it leaves the world paused
    and publishes one message on [~/physics], of type ODE and maximum step
    size 0.0025.  It never returns [false]. *)
Theorem init_gazebo_side_succeeds (w : World) (cfg : Element) (s : Sim) :
  (exists s',
      init_gazebo_side (Some w) (Some cfg) s = Ok true s' /\
      _parent_world (this s') = Some (SetPaused true w) /\
      _modelName (this s') =
        (if HasElement cfg "UAV_MODEL" then Get_string cfg "UAV_MODEL"
         else _modelName (this s)) /\
      _nbMotorSpeed (this s') =
        (if HasElement cfg "NB_SERVOS_MOTOR_SPEED" then Get_int cfg "NB_SERVOS_MOTOR_SPEED"
         else _nbMotorSpeed (this s)) /\
      published (emitted (init_gazebo_side (Some w) (Some cfg)) s) =
        [("~/physics", {| type := Some ODE; max_step_size := Some 0.0025%float |})]) /\
  (forall world sdf_ s0 s1 b, init_gazebo_side world sdf_ s0 = Ok b s1 -> b = true).
Proof.
  split; [ | intros world sdf_ s0 s1 b; apply init_gazebo_side_never_false ].
  eexists. split; [ apply init_gazebo_side_Some | ].
  unfold emitted. rewrite init_gazebo_side_Some. cbn [this out final].
  rewrite drop_app_length. split_and!; try reflexivity.
  - now destruct (HasElement cfg "UAV_MODEL"), (HasElement cfg "NB_SERVOS_MOTOR_SPEED").
  - now destruct (HasElement cfg "UAV_MODEL"), (HasElement cfg "NB_SERVOS_MOTOR_SPEED").
Qed.

(** ** What every call respects *)

Section Respects.
Context (R : relation Sim) `{!PreOrder R}.

Lemma respects_ret {A} (a : A) : respects R (ret a).
Proof. intros s. reflexivity. Qed.

Lemma respects_get : respects R get.
Proof. intros s. reflexivity. Qed.

Lemma respects_deref {A} (p : option A) : respects R (deref p).
Proof. intros s. unfold deref. destruct p; reflexivity. Qed.

Lemma respects_gzthrow {A} (msg : string) : respects R (@gzthrow A msg).
Proof. intros s. reflexivity. Qed.

Lemma respects_bind {A B} (m : M A) (k : A -> M B) :
  respects R m -> (forall a, respects R (k a)) -> respects R (x <- m ;; k x).
Proof.
  intros Hm Hk s. unfold bind. specialize (Hm s).
  destruct (m s) as [a s1|msg s1|s1]; cbn [final] in *; try exact Hm.
  etransitivity; [ exact Hm | apply Hk ].
Qed.

Lemma respects_if {A} (b : bool) (m1 m2 : M A) :
  respects R m1 -> respects R m2 -> respects R (if b then m1 else m2).
Proof. destruct b; auto. Qed.
End Respects.

#[global] Instance extends_PreOrder : PreOrder extends.
Proof.
  split.
  - intros s. exists []. now rewrite app_nil_r.
  - intros s1 s2 s3 [e1 H1] [e2 H2]. exists (e1 ++ e2). now rewrite H2, H1, app_assoc.
Qed.

Lemma extends_modify (f : Plugin -> Plugin) : respects extends (modify f).
Proof. intros s. exists []. simpl. now rewrite app_nil_r. Qed.

Lemma extends_emit (e : Event) : respects extends (emit e).
Proof. intros s. exists [e]. reflexivity. Qed.

Create HintDb respects discriminated.
#[global] Hint Resolve respects_ret respects_get respects_deref respects_gzthrow
  extends_modify extends_emit : respects.

Ltac respects_step :=
  first
    [ apply respects_bind; [ typeclasses eauto | | intros ? ]
    | apply respects_if; [ typeclasses eauto | | ]
    | solve [ eauto with respects typeclass_instances ]
    | match goal with
      | |- respects _ (let _ := _ in _) => cbv zeta
      | |- respects _ (match ?x with _ => _ end) => destruct x
      end ].

Ltac respects_all := repeat respects_step.

Lemma extends_on_rover_model_loaded : respects extends on_rover_model_loaded.
Proof.
  unfold on_rover_model_loaded, rover_stuff, searching_joints, get_some_vehicle_parameters,
    get_parameter, simulate_braking, update_wheel_radius, wheel_radius_of,
    this_joint_do, this_joint_read, joint_do, joint_read, rover_model_GetJoint,
    sdf_HasElement, sdf_Get_double, sdf, parent_world_do, parent_world, ROS_INFO.
  respects_all.
Qed.

Lemma final_bind_Ok {A B} (m : M A) (k : A -> M B) (s s1 : Sim) (a : A) :
  m s = Ok a s1 -> final ((x <- m ;; k x) s) = final (k a s1).
Proof. intros H. now rewrite (bind_Ok _ _ _ _ _ H). Qed.

(** A call that starts by saying [e] has [e] in the trace right after what
    was there, however it goes on. *)
Lemma says_first {A B} (e : Event) (k : unit -> M A) (k' : A -> M B) (s : Sim) :
  (forall u, respects extends (k u)) ->
  (forall a, respects extends (k' a)) ->
  exists evs, out (final ((x <- (u <- emit e ;; k u) ;; k' x) s)) = out s ++ e :: evs.
Proof.
  intros Hk Hk'.
  assert (Hr : respects extends (x <- k tt ;; k' x))
    by (apply respects_bind; [ typeclasses eauto | apply Hk | apply Hk' ]).
  destruct (Hr {| this := this s; out := out s ++ [e] |}) as [evs Hevs].
  exists evs. cbn [out] in Hevs. rewrite <- app_assoc in Hevs. exact Hevs.
Qed.

Lemma rover_stuff_Some (s : Sim) (w : World) :
  _parent_world (this s) = Some w ->
  exists s1,
    rover_stuff s = Ok tt s1 /\
    out s1 = out s /\
    _parent_world (this s1) = Some w /\
    _sdf (this s1) = _sdf (this s) /\
    _rover_model (this s1) = GetModel w "rover".
Proof.
  intros Hw. unfold rover_stuff, parent_world, bind, get, deref, modify.
  rewrite Hw. simpl. rewrite Hw. simpl. eexists. split_and!; try reflexivity. exact Hw.
Qed.

Lemma on_rover_model_loaded_says (s : Sim) (w : World) :
  _parent_world (this s) = Some w ->
  exists evs,
    out (final (on_rover_model_loaded s)) =
    out s ++ ev_ROS_INFO (Fmt "Searching joints...") [] :: evs.
Proof.
  intros Hw. destruct (rover_stuff_Some s w Hw) as (s1 & Hs1 & Ho1 & _).
  unfold on_rover_model_loaded. rewrite (final_bind_Ok _ _ _ _ _ Hs1), <- Ho1.
  unfold searching_joints, ROS_INFO at 1.
  apply says_first; intros;
    unfold get_some_vehicle_parameters,
      get_parameter, simulate_braking, update_wheel_radius, wheel_radius_of,
      this_joint_do, this_joint_read, joint_do, joint_read, rover_model_GetJoint,
      sdf_HasElement, sdf_Get_double, sdf, parent_world_do, parent_world, ROS_INFO;
    respects_all.
Qed.

Lemma lnot_std_string_compare (a b : string) :
  lnot (std_string_compare a b) = bool_decide (a = b).
Proof.
  unfold lnot, std_string_compare.
  destruct (String.compare a b) eqn:Hc; case_bool_decide as Hd; try reflexivity.
  - apply String.compare_eq_iff in Hc. contradiction.
  - subst b. pose proof (String.compare_antisym a a) as Ha. rewrite Hc in Ha. discriminate.
  - subst b. pose proof (String.compare_antisym a a) as Ha. rewrite Hc in Ha. discriminate.
Qed.

(** C2, as the code has it.  A model-load event makes the resolver run if
    and only if its name is "rover", the literal of the comparison, whatever
    [_modelName] holds (the value [init_gazebo_side] read from UAV_MODEL):
    on "rover" the callback is the two messages and then
    [on_rover_model_loaded]; on any other name it says the name and changes
    nothing in the plugin. *)
Theorem on_gazebo_modelInfo_rover (s : Sim) (w : World) (_msg : ModelMsg) :
  _parent_world (this s) = Some w ->
  (triggers_resolution _msg s = true <-> name _msg = "rover") /\
  (name _msg = "rover" ->
   on_gazebo_modelInfo _msg s =
   (ROS_INFO (Fmt "NEW MODEL : name %s") [ArgS (name _msg)] ;;
    ROS_INFO (Fmt "There is Rover !") [] ;;
    on_rover_model_loaded) s) /\
  (name _msg <> "rover" ->
   on_gazebo_modelInfo _msg s =
   Ok tt {| this := this s; out := out s ++ [new_model_message _msg] |}).
Proof.
  intros Hw.
  assert (Hyes : name _msg = "rover" ->
            on_gazebo_modelInfo _msg s =
            (ROS_INFO (Fmt "NEW MODEL : name %s") [ArgS (name _msg)] ;;
             ROS_INFO (Fmt "There is Rover !") [] ;;
             on_rover_model_loaded) s).
  { intros Hn. unfold on_gazebo_modelInfo.
    rewrite lnot_std_string_compare, bool_decide_eq_true_2 by exact Hn. reflexivity. }
  assert (Hno : name _msg <> "rover" ->
            on_gazebo_modelInfo _msg s =
            Ok tt {| this := this s; out := out s ++ [new_model_message _msg] |}).
  { intros Hn. unfold on_gazebo_modelInfo.
    rewrite lnot_std_string_compare, bool_decide_eq_false_2 by exact Hn. reflexivity. }
  split_and!; [ | exact Hyes | exact Hno ].
  unfold triggers_resolution, emitted.
  destruct (decide (name _msg = "rover")) as [Hn|Hn].
  - split; [ auto | intros _ ]. rewrite (Hyes Hn).
    unfold ROS_INFO at 1 2, bind at 1 2, emit. cbn [this out].
    destruct (on_rover_model_loaded_says
                {| this := this s;
                   out := (out s ++ [ev_ROS_INFO (Fmt "NEW MODEL : name %s") [ArgS (name _msg)]])
                          ++ [ev_ROS_INFO (Fmt "There is Rover !") []] |} w Hw)
      as [evs Hevs].
    rewrite Hevs. cbn [out]. rewrite <- !app_assoc, drop_app_length. reflexivity.
  - rewrite (Hno Hn). cbn [final out]. rewrite drop_app_length. cbn.
    split; [ discriminate | contradiction ].
Qed.

Lemma on_gazebo_modelInfo_rover_sample :
  _parent_world (this Sample.started) = Some (SetPaused true Sample.world) /\
  (triggers_resolution {| name := "rover" |} Sample.started = true <-> "rover" = "rover") /\
  (triggers_resolution {| name := "drone1" |} Sample.started = true <-> "drone1" = "rover").
Proof.
  split_and!; [ reflexivity | | ].
  - exact (proj1 (on_gazebo_modelInfo_rover
                    Sample.started (SetPaused true Sample.world) {| name := "rover" |}
                    eq_refl)).
  - exact (proj1 (on_gazebo_modelInfo_rover
                    Sample.started (SetPaused true Sample.world) {| name := "drone1" |}
                    eq_refl)).
Defined.

(** C2, as the claim has it, fails: with UAV_MODEL set to "drone1" an event
    for the model "drone1" does not make the resolver run, and an event for
    "rover" does. *)
Lemma modelInfo_ignores_UAV_MODEL :
  _modelName (this Sample.started) = "drone1" /\
  triggers_resolution {| name := "drone1" |} Sample.started = false /\
  triggers_resolution {| name := "rover" |} Sample.started = true.
Proof. vm_compute. auto. Qed.

(** ** Joints behind pointers *)

Lemma insert_as_alter `{Countable K} {A} (f : A -> A) (m : gmap K A) (i : K) (x : A) :
  m !! i = Some x -> <[i := f x]> m = alter f i m.
Proof.
  intros Hx. apply map_eq. intros j. rewrite lookup_insert, lookup_alter.
  case_decide; [ subst j; now rewrite Hx | reflexivity ].
Qed.

Lemma joint_at_alter_joint (ref ref' : string * string) (f : Joint -> Joint) (w : World) :
  joint_at (alter_joint ref f w) (Some ref') =
  if decide (ref = ref') then f <$> joint_at w (Some ref') else joint_at w (Some ref').
Proof.
  destruct ref as [mn jn], ref' as [mn' jn']. unfold joint_at, alter_joint.
  cbn [models set_models mbind option_bind fst snd].
  rewrite (lookup_alter (M:=gmap string)).
  destruct (decide (mn = mn')) as [->|Hmn].
  - destruct (models w !! mn') as [mdl|];
      cbn [fmap option_fmap option_map joints mbind option_bind];
      [ | now case_decide ].
    rewrite (lookup_alter (M:=gmap string)).
    destruct (decide (jn = jn')) as [->|Hjn].
    + rewrite decide_True by reflexivity. reflexivity.
    + rewrite decide_False by congruence. reflexivity.
  - rewrite decide_False by congruence. reflexivity.
Qed.

Lemma joint_at_alter_joint_eq (ref : string * string) (f : Joint -> Joint) (w : World) :
  joint_at (alter_joint ref f w) (Some ref) = f <$> joint_at w (Some ref).
Proof. rewrite joint_at_alter_joint. now rewrite decide_True. Qed.

Lemma joint_at_alter_joint_ne (ref ref' : string * string) (f : Joint -> Joint) (w : World) :
  ref <> ref' -> joint_at (alter_joint ref f w) (Some ref') = joint_at w (Some ref').
Proof. intros Hne. rewrite joint_at_alter_joint. now rewrite decide_False. Qed.

Lemma joint_at_alter_joint_is_Some
    (ref ref' : string * string) (f : Joint -> Joint) (w : World) :
  is_Some (joint_at w (Some ref')) -> is_Some (joint_at (alter_joint ref f w) (Some ref')).
Proof.
  intros [j Hj]. rewrite joint_at_alter_joint, Hj. case_decide; eauto.
Qed.

Lemma joint_do_Some (ref : string * string) (method : Joint -> Joint) (s : Sim) (w : World) :
  _parent_world (this s) = Some w ->
  is_Some (joint_at w (Some ref)) ->
  joint_do (Some ref) method s =
  Ok tt {| this := set__parent_world (Some (alter_joint ref method w)) (this s);
           out := out s |}.
Proof.
  intros Hw [j Hj]. destruct ref as [mn jn]. unfold joint_at in Hj.
  cbn [mbind option_bind] in Hj.
  destruct (models w !! mn) as [mdl|] eqn:Hmdl; [ | discriminate ].
  cbn [mbind option_bind] in Hj.
  unfold joint_do, parent_world_do, parent_world, bind, get, deref, modify.
  cbn [fst snd]. repeat (progress (rewrite ?Hw, ?Hmdl, ?Hj; simpl)).
  unfold alter_joint. cbn [fst snd].
  rewrite <- (insert_as_alter (fun mdl => {| joints := alter method jn (joints mdl) |})
                (models w) mn mdl Hmdl).
  now rewrite <- (insert_as_alter method (joints mdl) jn j Hj).
Qed.

Lemma this_joint_do_Some
    (field : Plugin -> JointPtr) (method : Joint -> Joint)
    (s : Sim) (w : World) (ref : string * string) :
  _parent_world (this s) = Some w ->
  field (this s) = Some ref ->
  is_Some (joint_at w (Some ref)) ->
  this_joint_do field method s =
  Ok tt {| this := set__parent_world (Some (alter_joint ref method w)) (this s);
           out := out s |}.
Proof.
  intros Hw Hf Hj. unfold this_joint_do, bind at 1, get. rewrite Hf.
  now apply joint_do_Some.
Qed.

(** ** The stages of [on_rover_model_loaded] *)

Lemma param_or_Get_double (cfg : Element) (key : string) (default : double) :
  (if HasElement cfg key then Get_double cfg key else default) = param_or cfg key default.
Proof.
  unfold HasElement, Get_double, param_or.
  destruct (elements cfg !! key); reflexivity.
Qed.

Lemma get_parameter_Some
    (key : string) (default : double) (set_field : double -> Plugin -> Plugin)
    (s : Sim) (cfg : Element) :
  _sdf (this s) = Some cfg ->
  get_parameter key default set_field s =
  Ok tt {| this := set_field (param_or cfg key default) (this s); out := out s |}.
Proof.
  intros Hcfg. rewrite <- param_or_Get_double.
  unfold get_parameter, sdf_HasElement, sdf_Get_double, sdf, bind, get, deref, ret, modify.
  rewrite Hcfg. destruct (HasElement cfg key); [ rewrite Hcfg | ]; reflexivity.
Qed.

Lemma get_some_vehicle_parameters_Some (s : Sim) (cfg : Element) :
  _sdf (this s) = Some cfg ->
  get_some_vehicle_parameters s =
  Ok tt {| this :=
             set_aeroLoad (param_or cfg "aero_load" 0.1%float)
               (set_maxSteer (param_or cfg "max_steer" 0.6%float)
                  (set_maxSpeed (param_or cfg "max_speed" 10%float)
                     (set_backTorque (param_or cfg "back_torque" 2000%float)
                        (set_frontTorque (param_or cfg "front_torque" 0%float) (this s)))));
           out := out s |}.
Proof.
  intros Hcfg. unfold get_some_vehicle_parameters.
  repeat (erewrite bind_Ok; [ | apply get_parameter_Some; exact Hcfg ]).
  erewrite get_parameter_Some by exact Hcfg. reflexivity.
Qed.

Lemma simulate_braking_Some (s : Sim) (w : World) (fl fr bl br : string * string) :
  _parent_world (this s) = Some w ->
  flWheelJoint (this s) = Some fl -> frWheelJoint (this s) = Some fr ->
  blWheelJoint (this s) = Some bl -> brWheelJoint (this s) = Some br ->
  is_Some (joint_at w (Some fl)) -> is_Some (joint_at w (Some fr)) ->
  is_Some (joint_at w (Some bl)) -> is_Some (joint_at w (Some br)) ->
  simulate_braking s =
  Ok tt {| this := set__parent_world (Some (braked fl fr bl br w)) (this s); out := out s |}.
Proof.
  intros Hw Hfl Hfr Hbl Hbr Jfl Jfr Jbl Jbr. unfold simulate_braking.
  repeat (erewrite bind_Ok;
          [ | apply this_joint_do_Some;
              [ first [ reflexivity | eassumption ] | simpl; eassumption
              | repeat apply joint_at_alter_joint_is_Some; assumption ] ]).
  erewrite this_joint_do_Some;
    [ reflexivity | reflexivity | simpl; eassumption
    | repeat apply joint_at_alter_joint_is_Some; assumption ].
Qed.

Ltac run_M :=
  unfold rover_model_GetJoint, sdf_HasElement, sdf_Get_double, sdf,
    parent_world_do, parent_world, ROS_INFO, bind, ret, get, modify, emit, deref, gzthrow.

Lemma bind_assoc {A B C} (m : M A) (k : A -> M B) (k' : B -> M C) (s : Sim) :
  (y <- (x <- m ;; k x) ;; k' y) s = (x <- m ;; y <- k x ;; k' y) s.
Proof. unfold bind. destruct (m s); reflexivity. Qed.

Lemma bind_Thrown {A B} (m : M A) (k : A -> M B) (s s1 : Sim) (msg : string) :
  m s = Thrown msg s1 -> (x <- m ;; k x) s = Thrown msg s1.
Proof. intros H. unfold bind. now rewrite H. Qed.

Lemma bind_Undefined {A B} (m : M A) (k : A -> M B) (s s1 : Sim) :
  m s = Undefined s1 -> (x <- m ;; k x) s = Undefined s1.
Proof. intros H. unfold bind. now rewrite H. Qed.

Lemma emit_bind {B} (e : Event) (k : M B) (s : Sim) :
  (emit e ;; k) s = k {| this := this s; out := out s ++ [e] |}.
Proof. reflexivity. Qed.

Lemma modify_bind {B} (f : Plugin -> Plugin) (k : M B) (s : Sim) :
  (modify f ;; k) s = k {| this := f (this s); out := out s |}.
Proof. reflexivity. Qed.

(** The plugin after [rover_stuff]. *)
Lemma rover_stuff_eq (s : Sim) (w : World) :
  _parent_world (this s) = Some w ->
  rover_stuff s =
  Ok tt {| this :=
             set_node (Some (Node_Init (GetName w)))
               (set_aeroLoad 0 (set_maxSteer 0 (set_maxSpeed 0 (set_tireAngleRange 0
                 (set_backTorque 0 (set_frontTorque 0 (set_steeredWheelForce 5000
                   (set_brWheelRadius 0.1 (set_blWheelRadius 0.1 (set_frWheelRadius 0.1
                     (set_flWheelRadius 0.1 (set_wheelRadius 0.1
                       (set__rover_model (GetModel w "rover") (this s))))))))))))));
           out := out s |}.
Proof.
  intros Hw. unfold rover_stuff.
  rewrite (bind_Ok _ _ _ _ _ (parent_world_Some s w Hw)).
  do 13 rewrite modify_bind. cbn [this out].
  erewrite bind_Ok by (apply parent_world_Some; exact Hw).
  reflexivity.
Qed.

(** One lookup of [searching_joints]: the pointer is stored, and the search
    goes on if the joint is there and ends with the message if not. *)
Lemma search_step
    (jn msg : string) (set_field : JointPtr -> Plugin -> Plugin)
    (field : Plugin -> JointPtr) (k : M unit)
    (s : Sim) (w : World) (mn : string) (mdl : Model) :
  _rover_model (this s) = Some mn ->
  _parent_world (this s) = Some w ->
  models w !! mn = Some mdl ->
  (forall v p, field (set_field v p) = v) ->
  (jp <- rover_model_GetJoint jn ;;
   modify (set_field jp) ;;
   p <- get ;;
   (if is_null (field p) then gzthrow msg else ret tt) ;;
   k) s =
  match joints mdl !! jn with
  | Some _ => k {| this := set_field (Some (mn, jn)) (this s); out := out s |}
  | None => Thrown msg {| this := set_field None (this s); out := out s |}
  end.
Proof.
  intros Hr Hw Hm Hfield.
  unfold rover_model_GetJoint, parent_world, bind, get, deref, modify, ret, gzthrow.
  rewrite Hr, Hw, Hm. cbn [this out].
  destruct (joints mdl !! jn); rewrite Hfield; reflexivity.
Qed.

(** The same for the last lookup, which has nothing after it. *)
Lemma search_step_last
    (jn msg : string) (set_field : JointPtr -> Plugin -> Plugin)
    (field : Plugin -> JointPtr)
    (s : Sim) (w : World) (mn : string) (mdl : Model) :
  _rover_model (this s) = Some mn ->
  _parent_world (this s) = Some w ->
  models w !! mn = Some mdl ->
  (forall v p, field (set_field v p) = v) ->
  (jp <- rover_model_GetJoint jn ;;
   modify (set_field jp) ;;
   p <- get ;;
   (if is_null (field p) then gzthrow msg else ret tt)) s =
  match joints mdl !! jn with
  | Some _ => Ok tt {| this := set_field (Some (mn, jn)) (this s); out := out s |}
  | None => Thrown msg {| this := set_field None (this s); out := out s |}
  end.
Proof.
  intros Hr Hw Hm Hfield.
  unfold rover_model_GetJoint, parent_world, bind, get, deref, modify, ret, gzthrow.
  rewrite Hr, Hw, Hm. cbn [this out].
  destruct (joints mdl !! jn); rewrite Hfield; reflexivity.
Qed.

Lemma rover_stuff_no_rover (s : Sim) (w : World) :
  _parent_world (this s) = Some w ->
  models w !! "rover" = None ->
  exists s', (rover_stuff ;; searching_joints) s = Undefined s'.
Proof.
  intros Hw Hm. rewrite (bind_Ok _ _ _ _ _ (rover_stuff_eq s w Hw)).
  unfold GetModel. rewrite Hm.
  unfold searching_joints, ROS_INFO. rewrite emit_bind.
  unfold rover_model_GetJoint, bind, get, deref. cbn [this out].
  eexists. reflexivity.
Qed.

Lemma searching_joints_eq (s : Sim) (w : World) (mdl : Model) :
  _parent_world (this s) = Some w ->
  models w !! "rover" = Some mdl ->
  match first_missing mdl with
  | Some msg => exists s', (rover_stuff ;; searching_joints) s = Thrown msg s'
  | None =>
      (rover_stuff ;; searching_joints) s =
      Ok tt {| this := joints_found w (this s); out := out s ++ searching_messages |}
  end.
Proof.
  intros Hw Hm.
  unfold first_missing, joint_lookups. cbn [List.find fst].
  rewrite (bind_Ok _ _ _ _ _ (rover_stuff_eq s w Hw)).
  unfold GetModel. rewrite Hm.
  unfold searching_joints, ROS_INFO. rewrite emit_bind. cbn [this out].
  rewrite (search_step "front_left_wheel_joint" _ set_flWheelJoint flWheelJoint _ _
             w "rover" mdl); [ | reflexivity | exact Hw | exact Hm | reflexivity ].
  destruct (joints mdl !! "front_left_wheel_joint");
    cbn [is_null fmap option_fmap option_map snd]; [ | eexists; reflexivity ].
  rewrite emit_bind. cbn [this out].
  rewrite (search_step "front_right_wheel_joint" _ set_frWheelJoint frWheelJoint _ _
             w "rover" mdl); [ | reflexivity | exact Hw | exact Hm | reflexivity ].
  destruct (joints mdl !! "front_right_wheel_joint");
    cbn [is_null fmap option_fmap option_map snd]; [ | eexists; reflexivity ].
  cbn [this out].
  rewrite (search_step "rear_left_wheel_joint" _ set_blWheelJoint blWheelJoint _ _
             w "rover" mdl); [ | reflexivity | exact Hw | exact Hm | reflexivity ].
  destruct (joints mdl !! "rear_left_wheel_joint");
    cbn [is_null fmap option_fmap option_map snd]; [ | eexists; reflexivity ].
  cbn [this out].
  rewrite (search_step "rear_right_wheel_joint" _ set_brWheelJoint brWheelJoint _ _
             w "rover" mdl); [ | reflexivity | exact Hw | exact Hm | reflexivity ].
  destruct (joints mdl !! "rear_right_wheel_joint");
    cbn [is_null fmap option_fmap option_map snd]; [ | eexists; reflexivity ].
  cbn [this out].
  rewrite (search_step "front_left_steering_joint" _ set_frWheelSteeringJoint
             frWheelSteeringJoint _ _ w "rover" mdl);
    [ | reflexivity | exact Hw | exact Hm | reflexivity ].
  destruct (joints mdl !! "front_left_steering_joint");
    cbn [is_null fmap option_fmap option_map snd]; [ | eexists; reflexivity ].
  cbn [this out].
  rewrite (search_step_last "front_right_steering_joint" _ set_flWheelSteeringJoint
             flWheelSteeringJoint _ w "rover" mdl);
    [ | reflexivity | exact Hw | exact Hm | reflexivity ].
  destruct (joints mdl !! "front_right_steering_joint");
    cbn [is_null fmap option_fmap option_map snd]; [ | eexists; reflexivity ].
  cbn [this out].
  rewrite <- app_assoc. reflexivity.
Qed.

Lemma on_rover_model_loaded_split (s : Sim) :
  on_rover_model_loaded s =
  (x <- (rover_stuff ;; searching_joints) ;;
   get_some_vehicle_parameters ;; simulate_braking ;; update_wheel_radius) s.
Proof. unfold on_rover_model_loaded. now rewrite bind_assoc. Qed.

Lemma wheel_radius_of_eq
    (field : Plugin -> JointPtr) (id : nat) (s : Sim) (w : World)
    (ref : string * string) (j : Joint) :
  _parent_world (this s) = Some w ->
  field (this s) = Some ref ->
  joint_at w (Some ref) = Some j ->
  wheel_radius_of field id s =
  match GetChild j with
  | Some child => Ok (radiusOf (GetCollision child id)) s
  | None => Undefined s
  end.
Proof.
  intros Hw Hf Hj.
  unfold wheel_radius_of, this_joint_read, joint_read, parent_world, bind, get, deref.
  rewrite Hf, Hw, Hj. destruct (GetChild j) as [child|]; [ | reflexivity ].
  now rewrite get_collision_radius_radiusOf.
Qed.

Lemma get_some_vehicle_parameters_None (s : Sim) :
  _sdf (this s) = None -> get_some_vehicle_parameters s = Undefined s.
Proof.
  intros Hcfg. unfold get_some_vehicle_parameters, get_parameter. run_M. now rewrite Hcfg.
Qed.

Lemma joint_at_braked_FL (w : World) :
  joint_at (braked FL FR BL BR w) (Some FL) = brake <$> joint_at w (Some FL).
Proof.
  unfold braked.
  repeat first [ rewrite joint_at_alter_joint_ne by discriminate
               | rewrite joint_at_alter_joint_eq ].
  now destruct (joint_at w (Some FL)).
Qed.

Lemma joint_at_braked_FR (w : World) :
  joint_at (braked FL FR BL BR w) (Some FR) = brake <$> joint_at w (Some FR).
Proof.
  unfold braked.
  repeat first [ rewrite joint_at_alter_joint_ne by discriminate
               | rewrite joint_at_alter_joint_eq ].
  now destruct (joint_at w (Some FR)).
Qed.

Lemma joint_at_braked_BL (w : World) :
  joint_at (braked FL FR BL BR w) (Some BL) = brake <$> joint_at w (Some BL).
Proof.
  unfold braked.
  repeat first [ rewrite joint_at_alter_joint_ne by discriminate
               | rewrite joint_at_alter_joint_eq ].
  now destruct (joint_at w (Some BL)).
Qed.

Lemma joint_at_braked_BR (w : World) :
  joint_at (braked FL FR BL BR w) (Some BR) = brake <$> joint_at w (Some BR).
Proof.
  unfold braked.
  repeat first [ rewrite joint_at_alter_joint_ne by discriminate
               | rewrite joint_at_alter_joint_eq ].
  now destruct (joint_at w (Some BR)).
Qed.

Lemma joint_at_rover (w : World) (mdl : Model) (jname : string) :
  models w !! "rover" = Some mdl ->
  joint_at w (Some ("rover", jname)) = joints mdl !! jname.
Proof. intros Hm. unfold joint_at. cbn [mbind option_bind]. now rewrite Hm. Qed.

Lemma first_missing_None (mdl : Model) :
  first_missing mdl = None <->
  is_Some (joints mdl !! "front_left_wheel_joint") /\
  is_Some (joints mdl !! "front_right_wheel_joint") /\
  is_Some (joints mdl !! "rear_left_wheel_joint") /\
  is_Some (joints mdl !! "rear_right_wheel_joint") /\
  is_Some (joints mdl !! "front_left_steering_joint") /\
  is_Some (joints mdl !! "front_right_steering_joint").
Proof.
  unfold first_missing, joint_lookups. cbn [List.find fst].
  destruct (joints mdl !! "front_left_wheel_joint");
    [ | split; [ discriminate | intros ([? ?] & _); discriminate ] ].
  destruct (joints mdl !! "front_right_wheel_joint");
    [ | split; [ discriminate | intros (_ & [? ?] & _); discriminate ] ].
  destruct (joints mdl !! "rear_left_wheel_joint");
    [ | split; [ discriminate | intros (_ & _ & [? ?] & _); discriminate ] ].
  destruct (joints mdl !! "rear_right_wheel_joint");
    [ | split; [ discriminate | intros (_ & _ & _ & [? ?] & _); discriminate ] ].
  destruct (joints mdl !! "front_left_steering_joint");
    [ | split; [ discriminate | intros (_ & _ & _ & _ & [? ?] & _); discriminate ] ].
  destruct (joints mdl !! "front_right_steering_joint");
    [ | split; [ discriminate | intros (_ & _ & _ & _ & _ & [? ?]); discriminate ] ].
  split; [ intros _; split_and!; eauto | reflexivity ].
Qed.

Section Resolution.
Variables (s : Sim) (w : World) (mdl : Model) (cfg : Element).
Variables (jfl jfr jbl jbr : Joint).
Hypothesis Hw : _parent_world (this s) = Some w.
Hypothesis Hcfg : _sdf (this s) = Some cfg.
Hypothesis Hm : models w !! "rover" = Some mdl.
Hypothesis Hfl : joints mdl !! "front_left_wheel_joint" = Some jfl.
Hypothesis Hfr : joints mdl !! "front_right_wheel_joint" = Some jfr.
Hypothesis Hbl : joints mdl !! "rear_left_wheel_joint" = Some jbl.
Hypothesis Hbr : joints mdl !! "rear_right_wheel_joint" = Some jbr.
Hypothesis Hsl : is_Some (joints mdl !! "front_left_steering_joint").
Hypothesis Hsr : is_Some (joints mdl !! "front_right_steering_joint").

Lemma on_rover_model_loaded_ready :
  on_rover_model_loaded s = update_wheel_radius (ready cfg w s).
Proof using All.
  rewrite on_rover_model_loaded_split.
  pose proof (searching_joints_eq s w mdl Hw Hm) as Hs.
  rewrite (proj2 (first_missing_None mdl)) in Hs by (split_and!; eauto).
  rewrite (bind_Ok _ _ _ _ _ Hs).
  lazymatch goal with
  | |- bind get_some_vehicle_parameters _ ?S = _ =>
      rewrite (bind_Ok _ _ _ _ _ (get_some_vehicle_parameters_Some S cfg Hcfg))
  end.
  lazymatch goal with
  | |- bind simulate_braking _ ?S = _ =>
      rewrite (bind_Ok _ _ _ _ _
                 (simulate_braking_Some S w FL FR BL BR Hw eq_refl eq_refl eq_refl eq_refl
                    (ex_intro _ jfl (eq_trans (joint_at_rover w mdl _ Hm) Hfl))
                    (ex_intro _ jfr (eq_trans (joint_at_rover w mdl _ Hm) Hfr))
                    (ex_intro _ jbl (eq_trans (joint_at_rover w mdl _ Hm) Hbl))
                    (ex_intro _ jbr (eq_trans (joint_at_rover w mdl _ Hm) Hbr))))
  end.
  reflexivity.
Qed.

Lemma update_wheel_radius_ready :
  match GetChild jfl, GetChild jfr, GetChild jbl, GetChild jbr with
  | Some lfl, Some lfr, Some lbl, Some lbr =>
      update_wheel_radius (ready cfg w s) =
      Ok tt {| this := resolved cfg w lfl lfr lbl lbr (this s);
               out := out s ++ searching_messages |}
  | _, _, _, _ => exists s', update_wheel_radius (ready cfg w s) = Undefined s'
  end.
Proof using All.
  assert (Jfl : joint_at (braked FL FR BL BR w) (Some FL) = Some (brake jfl)).
  { rewrite joint_at_braked_FL. unfold FL.
    now rewrite (joint_at_rover w mdl _ Hm), Hfl. }
  assert (Jfr : joint_at (braked FL FR BL BR w) (Some FR) = Some (brake jfr)).
  { rewrite joint_at_braked_FR. unfold FR.
    now rewrite (joint_at_rover w mdl _ Hm), Hfr. }
  assert (Jbl : joint_at (braked FL FR BL BR w) (Some BL) = Some (brake jbl)).
  { rewrite joint_at_braked_BL. unfold BL.
    now rewrite (joint_at_rover w mdl _ Hm), Hbl. }
  assert (Jbr : joint_at (braked FL FR BL BR w) (Some BR) = Some (brake jbr)).
  { rewrite joint_at_braked_BR. unfold BR.
    now rewrite (joint_at_rover w mdl _ Hm), Hbr. }
  destruct (GetChild jfl) as [lfl|] eqn:Cfl, (GetChild jfr) as [lfr|] eqn:Cfr,
    (GetChild jbl) as [lbl|] eqn:Cbl, (GetChild jbr) as [lbr|] eqn:Cbr;
    try eexists;
    unfold update_wheel_radius, ready; cbv zeta;
    unfold bind at 1;
    lazymatch goal with
    | |- context [wheel_radius_of flWheelJoint 0 ?S] =>
        rewrite (wheel_radius_of_eq flWheelJoint 0 S _ FL _ eq_refl eq_refl Jfl)
    end;
    cbn [GetChild brake SetParam SetLowStop SetHighStop]; rewrite Cfl;
    try reflexivity;
    rewrite modify_bind; unfold bind at 1;
    lazymatch goal with
    | |- context [wheel_radius_of frWheelJoint 0 ?S] =>
        rewrite (wheel_radius_of_eq frWheelJoint 0 S _ FR _ eq_refl eq_refl Jfr)
    end;
    cbn [GetChild brake SetParam SetLowStop SetHighStop]; rewrite Cfr;
    try reflexivity;
    rewrite modify_bind; unfold bind at 1;
    lazymatch goal with
    | |- context [wheel_radius_of blWheelJoint 0 ?S] =>
        rewrite (wheel_radius_of_eq blWheelJoint 0 S _ BL _ eq_refl eq_refl Jbl)
    end;
    cbn [GetChild brake SetParam SetLowStop SetHighStop]; rewrite Cbl;
    try reflexivity;
    rewrite modify_bind; unfold bind at 1;
    lazymatch goal with
    | |- context [wheel_radius_of brWheelJoint 0 ?S] =>
        rewrite (wheel_radius_of_eq brWheelJoint 0 S _ BR _ eq_refl eq_refl Jbr)
    end;
    cbn [GetChild brake SetParam SetLowStop SetHighStop]; rewrite Cbr;
    reflexivity.
Qed.
End Resolution.

(** On a scene that has all it needs, [on_rover_model_loaded] returns, and
    leaves the plugin resolved. *)
Lemma on_rover_model_loaded_resolves
    (s : Sim) (w : World) (mdl : Model) (cfg : Element)
    (jfl jfr jbl jbr : Joint) (lfl lfr lbl lbr : Link) :
  rover_scene s w mdl cfg jfl jfr jbl jbr lfl lfr lbl lbr ->
  on_rover_model_loaded s =
  Ok tt {| this := resolved cfg w lfl lfr lbl lbr (this s);
           out := out s ++ searching_messages |}.
Proof.
  intros [Hw Hcfg Hm Hfl Hfr Hbl Hbr Hsl Hsr Cfl Cfr Cbl Cbr].
  rewrite (on_rover_model_loaded_ready s w mdl cfg jfl jfr jbl jbr) by assumption.
  pose proof (update_wheel_radius_ready s w mdl cfg jfl jfr jbl jbr
                Hw Hcfg Hm Hfl Hfr Hbl Hbr Hsl Hsr) as H.
  rewrite Cfl, Cfr, Cbl, Cbr in H. exact H.
Qed.

(** And it returns on no other. *)
Lemma on_rover_model_loaded_Ok (s s' : Sim) :
  on_rover_model_loaded s = Ok tt s' ->
  exists w mdl cfg jfl jfr jbl jbr lfl lfr lbl lbr,
    rover_scene s w mdl cfg jfl jfr jbl jbr lfl lfr lbl lbr /\
    s' = {| this := resolved cfg w lfl lfr lbl lbr (this s);
            out := out s ++ searching_messages |}.
Proof.
  intros Hok.
  destruct (_parent_world (this s)) as [w|] eqn:Hw.
  2:{ exfalso. revert Hok. unfold on_rover_model_loaded, rover_stuff. run_M.
      rewrite Hw. discriminate. }
  destruct (models w !! "rover") as [mdl|] eqn:Hm.
  2:{ exfalso. destruct (rover_stuff_no_rover s w Hw Hm) as [s1 Hs1].
      rewrite on_rover_model_loaded_split, (bind_Undefined _ _ _ _ Hs1) in Hok.
      discriminate. }
  pose proof (searching_joints_eq s w mdl Hw Hm) as Hs.
  destruct (first_missing mdl) as [msg|] eqn:Hmiss.
  { exfalso. destruct Hs as [s1 Hs1].
    rewrite on_rover_model_loaded_split, (bind_Thrown _ _ _ _ _ Hs1) in Hok.
    discriminate. }
  apply first_missing_None in Hmiss.
  destruct Hmiss as ([jfl Hfl] & [jfr Hfr] & [jbl Hbl] & [jbr Hbr] & Hsl & Hsr).
  destruct (_sdf (this s)) as [cfg|] eqn:Hcfg.
  2:{ exfalso. rewrite on_rover_model_loaded_split, (bind_Ok _ _ _ _ _ Hs) in Hok.
      rewrite (bind_Undefined _ _ _ _
                 (get_some_vehicle_parameters_None
                    {| this := joints_found w (this s);
                       out := out s ++ searching_messages |} Hcfg)) in Hok.
      discriminate. }
  rewrite (on_rover_model_loaded_ready s w mdl cfg jfl jfr jbl jbr) in Hok by assumption.
  pose proof (update_wheel_radius_ready s w mdl cfg jfl jfr jbl jbr
                Hw Hcfg Hm Hfl Hfr Hbl Hbr Hsl Hsr) as H.
  destruct (GetChild jfl) as [lfl|] eqn:Cfl, (GetChild jfr) as [lfr|] eqn:Cfr,
    (GetChild jbl) as [lbl|] eqn:Cbl, (GetChild jbr) as [lbr|] eqn:Cbr;
    try (exfalso;
         lazymatch type of H with ex _ => destruct H as [s1 Hs1] end;
         rewrite Hs1 in Hok; discriminate).
  rewrite H in Hok. injection Hok as <-.
  exists w, mdl, cfg, jfl, jfr, jbl, jbr, lfl, lfr, lbl, lbr.
  split; [ split; assumption | reflexivity ].
Qed.

(** ** The resolver: parameters, wheels, steering *)

(** C6. Each of the five parameters is the value the configuration gives
    under its name when the element is there, and its default when it is
    not: 0 for front_torque, 2000 for back_torque, 10 for max_speed, 0.6 for
    max_steer, 0.1 for aero_load.  Reading them never fails, whatever
    elements are missing; and they are what a resolution that returns
    leaves in the plugin. *)
Theorem vehicle_parameters (s s' : Sim) (cfg : Element) :
  _sdf (this s) = Some cfg ->
  (exists s1,
      get_some_vehicle_parameters s = Ok tt s1 /\
      frontTorque (this s1) = param_or cfg "front_torque" 0%float /\
      backTorque (this s1) = param_or cfg "back_torque" 2000%float /\
      maxSpeed (this s1) = param_or cfg "max_speed" 10%float /\
      maxSteer (this s1) = param_or cfg "max_steer" 0.6%float /\
      aeroLoad (this s1) = param_or cfg "aero_load" 0.1%float) /\
  (on_rover_model_loaded s = Ok tt s' ->
      frontTorque (this s') = param_or cfg "front_torque" 0%float /\
      backTorque (this s') = param_or cfg "back_torque" 2000%float /\
      maxSpeed (this s') = param_or cfg "max_speed" 10%float /\
      maxSteer (this s') = param_or cfg "max_steer" 0.6%float /\
      aeroLoad (this s') = param_or cfg "aero_load" 0.1%float).
Proof.
  intros Hcfg. split.
  - eexists. split; [ apply get_some_vehicle_parameters_Some; exact Hcfg | ].
    split_and!; reflexivity.
  - intros Hok.
    destruct (on_rover_model_loaded_Ok s s' Hok)
      as (w & mdl & cfg' & jfl & jfr & jbl & jbr & lfl & lfr & lbl & lbr & Hscene & ->).
    pose proof (scene_sdf _ _ _ _ _ _ _ _ _ _ _ _ Hscene) as Hcfg'.
    rewrite Hcfg in Hcfg'. injection Hcfg' as <-.
    split_and!; reflexivity.
Qed.

Lemma vehicle_parameters_sample :
  _sdf (this Sample.started) = Some Sample.config /\
  on_rover_model_loaded Sample.started = Ok tt Sample.resolved /\
  frontTorque (this Sample.resolved) = 0%float /\
  backTorque (this Sample.resolved) = 2000%float /\
  maxSpeed (this Sample.resolved) = 12.5%float /\
  maxSteer (this Sample.resolved) = 0.6%float /\
  aeroLoad (this Sample.resolved) = 0.1%float.
Proof.
  assert (Hcfg : _sdf (this Sample.started) = Some Sample.config)
    by (vm_compute; reflexivity).
  assert (Hok : on_rover_model_loaded Sample.started = Ok tt Sample.resolved)
    by (vm_compute; reflexivity).
  split; [ exact Hcfg | ]. split; [ exact Hok | ].
  exact (proj2 (vehicle_parameters Sample.started Sample.resolved Sample.config Hcfg) Hok).
Defined.

(** C7. When a resolution returns, each of the four wheel joints has its
    high and its low stop on axis 0 at zero, [stop_erp] at 0 and [stop_cfm]
    at 10 on axis 0, and the radius the plugin keeps for the wheel is what
    [get_collision_radius] gives for collision 0 of the joint's child link. *)
Theorem wheel_joints_braked (s s' : Sim) :
  on_rover_model_loaded s = Ok tt s' ->
  exists w',
    _parent_world (this s') = Some w' /\
    Forall (wheel_resolved w' (this s')) wheels.
Proof.
  intros Hok.
  destruct (on_rover_model_loaded_Ok s s' Hok)
    as (w & mdl & cfg & jfl & jfr & jbl & jbr & lfl & lfr & lbl & lbr & Hscene & ->).
  destruct Hscene as [Hw Hcfg Hm Hfl Hfr Hbl Hbr Hsl Hsr Cfl Cfr Cbl Cbr].
  exists (braked FL FR BL BR w). split; [ reflexivity | ].
  assert (Hbrake : forall j child,
            GetChild j = Some child ->
            highStop (brake j) !! 0%nat = Some 0%float /\
            lowStop (brake j) !! 0%nat = Some 0%float /\
            param (brake j) !! ("stop_erp", 0%nat) = Some 0%float /\
            param (brake j) !! ("stop_cfm", 0%nat) = Some 10%float /\
            GetChild (brake j) = Some child /\
            get_collision_radius (GetCollision child 0) =
              Some (radiusOf (GetCollision child 0))).
  { intros j child Hc. unfold brake. cbn [highStop lowStop param GetChild SetParam
      SetLowStop SetHighStop]. split_and!.
    - apply lookup_insert_eq.
    - apply lookup_insert_eq.
    - rewrite lookup_insert_ne by discriminate. apply lookup_insert_eq.
    - apply lookup_insert_eq.
    - exact Hc.
    - apply get_collision_radius_radiusOf. }
  unfold wheels, wheel_resolved. repeat constructor; cbn [fst snd].
  - exists (brake jfl), lfl. split; [ | apply Hbrake; exact Cfl ].
    change (flWheelJoint _) with (Some FL).
    rewrite joint_at_braked_FL. unfold FL. now rewrite (joint_at_rover w mdl _ Hm), Hfl.
  - exists (brake jfr), lfr. split; [ | apply Hbrake; exact Cfr ].
    change (frWheelJoint _) with (Some FR).
    rewrite joint_at_braked_FR. unfold FR. now rewrite (joint_at_rover w mdl _ Hm), Hfr.
  - exists (brake jbl), lbl. split; [ | apply Hbrake; exact Cbl ].
    change (blWheelJoint _) with (Some BL).
    rewrite joint_at_braked_BL. unfold BL. now rewrite (joint_at_rover w mdl _ Hm), Hbl.
  - exists (brake jbr), lbr. split; [ | apply Hbrake; exact Cbr ].
    change (brWheelJoint _) with (Some BR).
    rewrite joint_at_braked_BR. unfold BR. now rewrite (joint_at_rover w mdl _ Hm), Hbr.
Qed.

Lemma wheel_joints_braked_sample :
  on_rover_model_loaded Sample.started = Ok tt Sample.resolved /\
  exists w',
    _parent_world (this Sample.resolved) = Some w' /\
    Forall (wheel_resolved w' (this Sample.resolved)) wheels.
Proof.
  assert (Hok : on_rover_model_loaded Sample.started = Ok tt Sample.resolved)
    by (vm_compute; reflexivity).
  split; [ exact Hok | ].
  exact (wheel_joints_braked Sample.started Sample.resolved Hok).
Defined.

Lemma joint_at_braked_other (w : World) (ref : string * string) :
  ref <> FL -> ref <> FR -> ref <> BL -> ref <> BR ->
  joint_at (braked FL FR BL BR w) (Some ref) = joint_at w (Some ref).
Proof.
  intros Hfl Hfr Hbl Hbr. unfold braked.
  now rewrite !joint_at_alter_joint_ne by congruence.
Qed.

(** A model without one of the six joints: the resolver throws, with the
    message of the first lookup that fails. *)
Lemma missing_joint_message (s : Sim) (w : World) (mdl : Model) (msg : string) :
  _parent_world (this s) = Some w ->
  models w !! "rover" = Some mdl ->
  first_missing mdl = Some msg ->
  exists s', on_rover_model_loaded s = Thrown msg s'.
Proof.
  intros Hw Hm Hmiss. pose proof (searching_joints_eq s w mdl Hw Hm) as Hs.
  rewrite Hmiss in Hs. destruct Hs as [s1 Hs1]. exists s1.
  now rewrite on_rover_model_loaded_split, (bind_Thrown _ _ _ _ _ Hs1).
Qed.

(** C10. The resolver keeps the joint it finds under
    ["front_left_steering_joint"] in [frWheelSteeringJoint] and the one under
    ["front_right_steering_joint"] in [flWheelSteeringJoint]; when the first
    is missing it throws naming the front right steering joint, when the
    second is missing, the front left one. *)
Theorem steering_joints_crosswise (s : Sim) (w : World) (mdl : Model) :
  _parent_world (this s) = Some w ->
  models w !! "rover" = Some mdl ->
  is_Some (joints mdl !! "front_left_wheel_joint") ->
  is_Some (joints mdl !! "front_right_wheel_joint") ->
  is_Some (joints mdl !! "rear_left_wheel_joint") ->
  is_Some (joints mdl !! "rear_right_wheel_joint") ->
  match joints mdl !! "front_left_steering_joint",
        joints mdl !! "front_right_steering_joint" with
  | None, _ =>
      exists s', on_rover_model_loaded s =
                 Thrown ("could not find front right steering joint" +:+ nl) s'
  | Some _, None =>
      exists s', on_rover_model_loaded s =
                 Thrown ("could not find front left steering joint" +:+ nl) s'
  | Some _, Some _ =>
      exists s1,
        (rover_stuff ;; searching_joints) s = Ok tt s1 /\
        frWheelSteeringJoint (this s1) = Some ("rover", "front_left_steering_joint") /\
        flWheelSteeringJoint (this s1) = Some ("rover", "front_right_steering_joint")
  end /\
  (forall s',
      on_rover_model_loaded s = Ok tt s' ->
      exists w',
        _parent_world (this s') = Some w' /\
        frWheelSteeringJoint (this s') = Some ("rover", "front_left_steering_joint") /\
        flWheelSteeringJoint (this s') = Some ("rover", "front_right_steering_joint") /\
        joint_at w' (frWheelSteeringJoint (this s')) =
          joints mdl !! "front_left_steering_joint" /\
        joint_at w' (flWheelSteeringJoint (this s')) =
          joints mdl !! "front_right_steering_joint").
Proof.
  intros Hw Hm [jfl Hfl] [jfr Hfr] [jbl Hbl] [jbr Hbr]. split.
  - destruct (joints mdl !! "front_left_steering_joint") as [jsl|] eqn:Hsl.
    + destruct (joints mdl !! "front_right_steering_joint") as [jsr|] eqn:Hsr.
      * pose proof (searching_joints_eq s w mdl Hw Hm) as Hs.
        rewrite (proj2 (first_missing_None mdl)) in Hs by (split_and!; eauto).
        eexists. split; [ exact Hs | split; reflexivity ].
      * apply (missing_joint_message s w mdl _ Hw Hm).
        unfold first_missing, joint_lookups. cbn [List.find fst].
        now rewrite Hfl, Hfr, Hbl, Hbr, Hsl, Hsr.
    + apply (missing_joint_message s w mdl _ Hw Hm).
      unfold first_missing, joint_lookups. cbn [List.find fst].
      now rewrite Hfl, Hfr, Hbl, Hbr, Hsl.
  - intros s' Hok.
    destruct (on_rover_model_loaded_Ok s s' Hok)
      as (w0 & mdl0 & cfg & j1 & j2 & j3 & j4 & l1 & l2 & l3 & l4 & Hscene & ->).
    pose proof (scene_world _ _ _ _ _ _ _ _ _ _ _ _ Hscene) as Hw0.
    pose proof (scene_rover _ _ _ _ _ _ _ _ _ _ _ _ Hscene) as Hm0.
    rewrite Hw in Hw0. injection Hw0 as <-. rewrite Hm in Hm0. injection Hm0 as <-.
    exists (braked FL FR BL BR w). split_and!; try reflexivity.
    + change (frWheelSteeringJoint _) with (Some ("rover", "front_left_steering_joint")).
      rewrite joint_at_braked_other by discriminate. apply (joint_at_rover w mdl _ Hm).
    + change (flWheelSteeringJoint _) with (Some ("rover", "front_right_steering_joint")).
      rewrite joint_at_braked_other by discriminate. apply (joint_at_rover w mdl _ Hm).
Qed.

Lemma steering_joints_crosswise_sample :
  (_parent_world (this Sample.started) = Some (SetPaused true Sample.world) /\
   models (SetPaused true Sample.world) !! "rover" = Some Sample.rover /\
   is_Some (joints Sample.rover !! "front_left_wheel_joint") /\
   is_Some (joints Sample.rover !! "front_right_wheel_joint") /\
   is_Some (joints Sample.rover !! "rear_left_wheel_joint") /\
   is_Some (joints Sample.rover !! "rear_right_wheel_joint")) /\
  (exists s1,
      (rover_stuff ;; searching_joints) Sample.started = Ok tt s1 /\
      frWheelSteeringJoint (this s1) = Some ("rover", "front_left_steering_joint") /\
      flWheelSteeringJoint (this s1) = Some ("rover", "front_right_steering_joint")) /\
  (exists s',
      on_rover_model_loaded
        (Sample.started_on (Sample.world_without "front_left_steering_joint")) =
      Thrown ("could not find front right steering joint" +:+ nl) s') /\
  (exists s',
      on_rover_model_loaded
        (Sample.started_on (Sample.world_without "front_right_steering_joint")) =
      Thrown ("could not find front left steering joint" +:+ nl) s').
Proof.
  assert (Hw : forall w, _parent_world (this (Sample.started_on w)) = Some (SetPaused true w))
    by (intros w; reflexivity).
  assert (Hm : models (SetPaused true Sample.world) !! "rover" = Some Sample.rover)
    by (vm_compute; reflexivity).
  assert (Hfl : is_Some (joints Sample.rover !! "front_left_wheel_joint"))
    by (eexists; vm_compute; reflexivity).
  assert (Hfr : is_Some (joints Sample.rover !! "front_right_wheel_joint"))
    by (eexists; vm_compute; reflexivity).
  assert (Hbl : is_Some (joints Sample.rover !! "rear_left_wheel_joint"))
    by (eexists; vm_compute; reflexivity).
  assert (Hbr : is_Some (joints Sample.rover !! "rear_right_wheel_joint"))
    by (eexists; vm_compute; reflexivity).
  split_and!; try assumption.
  - apply Hw.
  - exact (proj1 (steering_joints_crosswise
                    Sample.started (SetPaused true Sample.world) Sample.rover
                    (Hw Sample.world) Hm Hfl Hfr Hbl Hbr)).
  - refine (proj1 (steering_joints_crosswise
                     (Sample.started_on (Sample.world_without "front_left_steering_joint"))
                     (SetPaused true (Sample.world_without "front_left_steering_joint"))
                     {| joints := delete "front_left_steering_joint" (joints Sample.rover) |}
                     (Hw _) _ _ _ _ _)); try (vm_compute; reflexivity);
      eexists; vm_compute; reflexivity.
  - refine (proj1 (steering_joints_crosswise
                     (Sample.started_on (Sample.world_without "front_right_steering_joint"))
                     (SetPaused true (Sample.world_without "front_right_steering_joint"))
                     {| joints := delete "front_right_steering_joint" (joints Sample.rover) |}
                     (Hw _) _ _ _ _ _)); try (vm_compute; reflexivity);
      eexists; vm_compute; reflexivity.
Defined.

(** C3. Run on the rover without its ["front_left_steering_joint"], the
    resolver throws "could not find front right steering joint": the
    message names the joint of the other side, and not the missing one.
    Likewise without ["front_right_steering_joint"]. *)
Theorem missing_steering_joint_misnamed :
  (exists s',
      on_rover_model_loaded
        (Sample.started_on (Sample.world_without "front_left_steering_joint")) =
      Thrown ("could not find front right steering joint" +:+ nl) s') /\
  is_infix "left" ("could not find front right steering joint" +:+ nl) = false /\
  (exists s',
      on_rover_model_loaded
        (Sample.started_on (Sample.world_without "front_right_steering_joint")) =
      Thrown ("could not find front left steering joint" +:+ nl) s') /\
  is_infix "right" ("could not find front left steering joint" +:+ nl) = false.
Proof.
  split_and!; try reflexivity.
  - apply (missing_joint_message _
             (SetPaused true (Sample.world_without "front_left_steering_joint"))
             {| joints := delete "front_left_steering_joint" (joints Sample.rover) |});
      reflexivity.
  - apply (missing_joint_message _
             (SetPaused true (Sample.world_without "front_right_steering_joint"))
             {| joints := delete "front_right_steering_joint" (joints Sample.rover) |});
      reflexivity.
Qed.

(** ** What the callbacks leave alone *)

#[global] Instance same_on_PreOrder {X} (f : Plugin -> X) : PreOrder (same_on f).
Proof.
  split.
  - intros s. reflexivity.
  - intros s1 s2 s3 H12 H23. unfold same_on in *. congruence.
Qed.

Lemma same_on_modify {X} (f : Plugin -> X) (g : Plugin -> Plugin) :
  (forall p, f (g p) = f p) -> respects (same_on f) (modify g).
Proof. intros Hg s. apply Hg. Qed.

Lemma same_on_emit {X} (f : Plugin -> X) (e : Event) : respects (same_on f) (emit e).
Proof. intros s. reflexivity. Qed.

#[global] Instance world_rel_PreOrder (P : relation World) `{!PreOrder P} :
  PreOrder (world_rel P).
Proof.
  split.
  - intros s. unfold world_rel. destruct (_parent_world (this s)) as [w|] eqn:Hw; [ | exact I ].
    exists w. split; reflexivity.
  - intros s1 s2 s3 H12 H23. unfold world_rel in *.
    destruct (_parent_world (this s1)) as [w1|]; [ | exact I ].
    destruct H12 as (w2 & Hw2 & P12). rewrite Hw2 in H23.
    destruct H23 as (w3 & Hw3 & P23). exists w3. split; [ exact Hw3 | ].
    etransitivity; eassumption.
Qed.

Lemma world_rel_modify (P : relation World) `{!PreOrder P} (g : Plugin -> Plugin) :
  (forall p, _parent_world (g p) = _parent_world p) -> respects (world_rel P) (modify g).
Proof.
  intros Hg s. unfold world_rel. cbn [final modify this]. rewrite Hg.
  destruct (_parent_world (this s)) as [w|]; [ | exact I ].
  exists w. split; reflexivity.
Qed.

Lemma world_rel_emit (P : relation World) `{!PreOrder P} (e : Event) :
  respects (world_rel P) (emit e).
Proof.
  intros s. unfold world_rel. cbn [final emit this].
  destruct (_parent_world (this s)) as [w|]; [ | exact I ].
  exists w. split; reflexivity.
Qed.

(** A method called through [_parent_world] relates the world before to the
    world after as it relates any world to its result. *)
Lemma world_rel_parent_world_do (P : relation World) (method : World -> World) :
  (forall w, P w (method w)) -> respects (world_rel P) (parent_world_do method).
Proof.
  intros Hmethod s. unfold world_rel.
  destruct (_parent_world (this s)) as [w|] eqn:Hw; [ | exact I ].
  rewrite (parent_world_do_Some method s w Hw). cbn [final this].
  exists (method w). split; [ reflexivity | apply Hmethod ].
Qed.

#[global] Instance world_kept_PreOrder : PreOrder world_kept.
Proof.
  split.
  - intros w. repeat split.
  - intros w1 w2 w3 (?&?&?&?&?) (?&?&?&?&?). unfold world_kept. split_and!; congruence.
Qed.

#[global] Instance models_kept_PreOrder : PreOrder models_kept.
Proof.
  split.
  - intros w. reflexivity.
  - intros w1 w2 w3 H12 H23. unfold models_kept in *. congruence.
Qed.

#[global] Instance world_advanced_PreOrder : PreOrder world_advanced.
Proof.
  split.
  - intros w. unfold world_advanced. split_and!; auto; reflexivity.
  - intros w1 w2 w3 (?&?&?&?&?) (?&?&?&?&?). unfold world_advanced.
    split_and!; try congruence; [ etransitivity; eassumption | auto ].
Qed.

Lemma world_kept_advanced (w w' : World) : world_kept w w' -> world_advanced w w'.
Proof.
  intros (Hn & Hp & Hi & Hc & He). unfold world_advanced.
  split_and!; auto; [ rewrite Hi; reflexivity | congruence ].
Qed.

Lemma respects_weaken {A} (R R' : relation Sim) (m : M A) :
  (forall s s', R s s' -> R' s s') -> respects R m -> respects R' m.
Proof. intros HR Hm s. apply HR, Hm. Qed.

Lemma world_rel_weaken (P P' : relation World) (s s' : Sim) :
  (forall w w', P w w' -> P' w w') -> world_rel P s s' -> world_rel P' s s'.
Proof.
  intros HP. unfold world_rel. destruct (_parent_world (this s)); [ | auto ].
  intros (w' & Hw' & Hww'). eauto.
Qed.

(** One step of a proof that a member function respects a relation: by the
    lemma for the leaf at a leaf, through a [bind], into the branches of a
    test. *)
Ltac frame_step :=
  match goal with
  | |- respects _ (parent_world_do _) =>
      apply world_rel_parent_world_do; intros ?;
      unfold world_kept, world_advanced, models_kept;
      cbn [GetName IsPaused GetIterations clock GetPhysicsEngine models
           set_models SetPaused Step];
      split_and?; auto; lia
  | |- respects (same_on _) (modify _) => apply same_on_modify; intros ?; cbv beta; auto
  | |- respects (same_on _) (emit _) => apply same_on_emit
  | |- respects (world_rel _) (modify _) =>
      apply world_rel_modify; [ typeclasses eauto | intros ?; reflexivity ]
  | |- respects (world_rel _) (emit _) => apply world_rel_emit; typeclasses eauto
  | |- respects _ (ret _) => apply respects_ret; typeclasses eauto
  | |- respects _ get => apply respects_get; typeclasses eauto
  | |- respects _ (deref _) => apply respects_deref; typeclasses eauto
  | |- respects _ (gzthrow _) => apply respects_gzthrow; typeclasses eauto
  | |- respects _ (bind _ _) => apply respects_bind; [ typeclasses eauto | | intros ? ]
  | |- respects _ (let _ := _ in _) => cbv zeta
  | |- respects _ (match ?x with _ => _ end) => destruct x
  end.

Ltac frame := repeat frame_step.

Ltac unfold_resolver :=
  unfold on_gazebo_modelInfo, on_rover_model_loaded, rover_stuff, searching_joints,
    get_some_vehicle_parameters, get_parameter, simulate_braking, update_wheel_radius,
    wheel_radius_of, this_joint_do, this_joint_read, joint_do, joint_read,
    rover_model_GetJoint, sdf_HasElement, sdf_Get_double, sdf, parent_world, ROS_INFO.

Lemma world_kept_on_gazebo_modelInfo (_msg : ModelMsg) :
  respects (world_rel world_kept) (on_gazebo_modelInfo _msg).
Proof. unfold_resolver. frame. Qed.

Lemma same_on_on_gazebo_modelInfo {X} (f : Plugin -> X) (_msg : ModelMsg) :
  (forall v p, f (set__parent_world v p) = f p) ->
  (forall v p, f (set__rover_model v p) = f p) ->
  (forall v p, f (set_node v p) = f p) ->
  (forall v p, f (set_wheelRadius v p) = f p) ->
  (forall v p, f (set_flWheelRadius v p) = f p) ->
  (forall v p, f (set_frWheelRadius v p) = f p) ->
  (forall v p, f (set_blWheelRadius v p) = f p) ->
  (forall v p, f (set_brWheelRadius v p) = f p) ->
  (forall v p, f (set_steeredWheelForce v p) = f p) ->
  (forall v p, f (set_frontTorque v p) = f p) ->
  (forall v p, f (set_backTorque v p) = f p) ->
  (forall v p, f (set_tireAngleRange v p) = f p) ->
  (forall v p, f (set_maxSpeed v p) = f p) ->
  (forall v p, f (set_maxSteer v p) = f p) ->
  (forall v p, f (set_aeroLoad v p) = f p) ->
  (forall v p, f (set_flWheelJoint v p) = f p) ->
  (forall v p, f (set_frWheelJoint v p) = f p) ->
  (forall v p, f (set_blWheelJoint v p) = f p) ->
  (forall v p, f (set_brWheelJoint v p) = f p) ->
  (forall v p, f (set_frWheelSteeringJoint v p) = f p) ->
  (forall v p, f (set_flWheelSteeringJoint v p) = f p) ->
  respects (same_on f) (on_gazebo_modelInfo _msg).
Proof.
  intros. unfold_resolver. unfold parent_world_do, parent_world. frame.
Qed.

Ltac unfold_callbacks :=
  unfold call, step_gazebo_sim, on_gazebo_control, on_gazebo_update, parent_world, ROS_INFO.

Lemma world_advanced_happen (h : Happening) :
  respects (world_rel world_advanced) (happen h).
Proof.
  destruct h as [c|_msg]; cbn [happen].
  - destruct c; unfold_callbacks; frame.
  - apply (respects_weaken (world_rel world_kept)); [ | apply world_kept_on_gazebo_modelInfo ].
    intros s s'. apply world_rel_weaken, world_kept_advanced.
Qed.

Lemma world_advanced_happen_all (hs : list Happening) :
  respects (world_rel world_advanced) (happen_all hs).
Proof.
  induction hs as [|h hs IH]; cbn [happen_all].
  - apply respects_ret. typeclasses eauto.
  - apply respects_bind; [ typeclasses eauto | apply world_advanced_happen | intros _; exact IH ].
Qed.

(** X1. A model-load event, whatever its name and however the resolver
    ends (it returns, it throws, it runs into a null pointer), leaves the
    plugin's pause flag, its one-shot message flag, its timestamp, its model
    name, its motor count, its configuration pointer and its subscriptions as
    they were, and of the world it changes nothing but the models. *)
Theorem on_gazebo_modelInfo_keeps (_msg : ModelMsg) (s : Sim) :
  _isSimPaused (this (final (on_gazebo_modelInfo _msg s))) = _isSimPaused (this s) /\
  _timeMsgAlreadyDisplayed (this (final (on_gazebo_modelInfo _msg s))) =
    _timeMsgAlreadyDisplayed (this s) /\
  _fdm_timestamp (this (final (on_gazebo_modelInfo _msg s))) = _fdm_timestamp (this s) /\
  _modelName (this (final (on_gazebo_modelInfo _msg s))) = _modelName (this s) /\
  _nbMotorSpeed (this (final (on_gazebo_modelInfo _msg s))) = _nbMotorSpeed (this s) /\
  _sdf (this (final (on_gazebo_modelInfo _msg s))) = _sdf (this s) /\
  _controlSub (this (final (on_gazebo_modelInfo _msg s))) = _controlSub (this s) /\
  _modelInfoSub (this (final (on_gazebo_modelInfo _msg s))) = _modelInfoSub (this s) /\
  _updateConnection (this (final (on_gazebo_modelInfo _msg s))) = _updateConnection (this s) /\
  (forall w,
      _parent_world (this s) = Some w ->
      exists w',
        _parent_world (this (final (on_gazebo_modelInfo _msg s))) = Some w' /\
        world_kept w w').
Proof.
  split_and!;
    try (apply (same_on_on_gazebo_modelInfo _ _msg); intros; reflexivity).
  intros w Hw. pose proof (world_kept_on_gazebo_modelInfo _msg s) as H.
  unfold world_rel in H. rewrite Hw in H. exact H.
Qed.

(** X2. Whatever is done with the plugin, steps, control events, updates
    and model-load events in any order, and however it ends, the plugin
    still has its world, with the same name, clock and physics engine; the
    iteration count has not gone down, and if the world was paused it is
    paused: no member function takes a step back or clears the world's pause
    flag. *)
Theorem world_never_rewound (hs : list Happening) (s : Sim) (w : World) :
  _parent_world (this s) = Some w ->
  exists w',
    _parent_world (this (final (happen_all hs s))) = Some w' /\
    world_advanced w w'.
Proof.
  intros Hw. pose proof (world_advanced_happen_all hs s) as H.
  unfold world_rel in H. rewrite Hw in H. exact H.
Qed.

(** ** How [on_rover_model_loaded] ends *)

Lemma on_rover_model_loaded_no_world (s : Sim) :
  _parent_world (this s) = None -> on_rover_model_loaded s = Undefined s.
Proof.
  intros Hw. unfold on_rover_model_loaded, rover_stuff, parent_world, bind, get, deref.
  now rewrite Hw.
Qed.

(** X3. [on_rover_model_loaded] returns exactly on a plugin that has its
    world and its configuration, in a world that has the model "rover" with
    the six joints and a child link under each of the four wheel joints; and
    then it leaves the plugin as [resolved] says, having said that it searches
    the joints and has found the front left one. *)
Theorem on_rover_model_loaded_returns_iff (s s' : Sim) :
  on_rover_model_loaded s = Ok tt s' <->
  exists w mdl cfg jfl jfr jbl jbr lfl lfr lbl lbr,
    rover_scene s w mdl cfg jfl jfr jbl jbr lfl lfr lbl lbr /\
    s' = {| this := resolved cfg w lfl lfr lbl lbr (this s);
            out := out s ++ searching_messages |}.
Proof.
  split.
  - apply on_rover_model_loaded_Ok.
  - intros (w & mdl & cfg & jfl & jfr & jbl & jbr & lfl & lfr & lbl & lbr & Hscene & ->).
    now apply (on_rover_model_loaded_resolves s w mdl cfg jfl jfr jbl jbr).
Qed.

(** X4. [on_rover_model_loaded] throws exactly when the plugin has its
    world, the world has the model "rover", and the model lacks one of the
    six joints; the message is then that of the first lookup, in the order
    of the source, whose joint is missing.  A missing world, a missing rover,
    a missing configuration or a wheel joint without a child link is never
    reported by an exception. *)
Theorem on_rover_model_loaded_throws_iff (s : Sim) (msg : string) :
  (exists s', on_rover_model_loaded s = Thrown msg s') <->
  exists w mdl,
    _parent_world (this s) = Some w /\
    models w !! "rover" = Some mdl /\
    first_missing mdl = Some msg.
Proof.
  split.
  - intros [s' Hthrown].
    destruct (_parent_world (this s)) as [w|] eqn:Hw.
    2:{ rewrite (on_rover_model_loaded_no_world s Hw) in Hthrown. discriminate. }
    destruct (models w !! "rover") as [mdl|] eqn:Hm.
    2:{ destruct (rover_stuff_no_rover s w Hw Hm) as [s1 Hs1].
        rewrite on_rover_model_loaded_split, (bind_Undefined _ _ _ _ Hs1) in Hthrown.
        discriminate. }
    exists w, mdl. split_and!; [ reflexivity | exact Hm | ].
    pose proof (searching_joints_eq s w mdl Hw Hm) as Hs.
    destruct (first_missing mdl) as [msg'|] eqn:Hmiss.
    { destruct Hs as [s1 Hs1].
      rewrite on_rover_model_loaded_split, (bind_Thrown _ _ _ _ _ Hs1) in Hthrown.
      congruence. }
    exfalso. apply first_missing_None in Hmiss.
    destruct Hmiss as ([jfl Hfl] & [jfr Hfr] & [jbl Hbl] & [jbr Hbr] & Hsl & Hsr).
    destruct (_sdf (this s)) as [cfg|] eqn:Hcfg.
    2:{ rewrite on_rover_model_loaded_split, (bind_Ok _ _ _ _ _ Hs) in Hthrown.
        rewrite (bind_Undefined _ _ _ _
                   (get_some_vehicle_parameters_None
                      {| this := joints_found w (this s);
                         out := out s ++ searching_messages |} Hcfg)) in Hthrown.
        discriminate. }
    rewrite (on_rover_model_loaded_ready s w mdl cfg jfl jfr jbl jbr) in Hthrown
      by assumption.
    pose proof (update_wheel_radius_ready s w mdl cfg jfl jfr jbl jbr
                  Hw Hcfg Hm Hfl Hfr Hbl Hbr Hsl Hsr) as H.
    destruct (GetChild jfl), (GetChild jfr), (GetChild jbl), (GetChild jbr);
      lazymatch type of H with
      | ex _ => destruct H as [s1 Hs1]; rewrite Hs1 in Hthrown; discriminate
      | _ => rewrite H in Hthrown; discriminate
      end.
  - intros (w & mdl & Hw & Hm & Hmiss). now apply (missing_joint_message s w mdl).
Qed.

Lemma same_on_searching_joints {X} (f : Plugin -> X) :
  (forall v p, f (set_flWheelJoint v p) = f p) ->
  (forall v p, f (set_frWheelJoint v p) = f p) ->
  (forall v p, f (set_blWheelJoint v p) = f p) ->
  (forall v p, f (set_brWheelJoint v p) = f p) ->
  (forall v p, f (set_frWheelSteeringJoint v p) = f p) ->
  (forall v p, f (set_flWheelSteeringJoint v p) = f p) ->
  respects (same_on f) searching_joints.
Proof.
  intros. unfold searching_joints, rover_model_GetJoint, parent_world, ROS_INFO. frame.
Qed.

(** X5. When the resolver throws for a missing joint, nothing has been
    done to the world, but the plugin is no longer what it was: the model
    pointer and the node are set, the five vehicle parameters and the tire
    angle range are 0, the wheel radii 0.1 and the steered wheel force 5000,
    the values of lines 196-208, whatever an earlier resolution had left
    there. *)
Theorem failed_resolution_resets (s : Sim) (w : World) (mdl : Model) (msg : string) :
  _parent_world (this s) = Some w ->
  models w !! "rover" = Some mdl ->
  first_missing mdl = Some msg ->
  exists s',
    on_rover_model_loaded s = Thrown msg s' /\
    _parent_world (this s') = Some w /\
    _rover_model (this s') = Some "rover" /\
    node (this s') = Some (Node_Init (GetName w)) /\
    frontTorque (this s') = 0%float /\
    backTorque (this s') = 0%float /\
    maxSpeed (this s') = 0%float /\
    maxSteer (this s') = 0%float /\
    aeroLoad (this s') = 0%float /\
    tireAngleRange (this s') = 0%float /\
    steeredWheelForce (this s') = 5000%float /\
    wheelRadius (this s') = 0.1%float /\
    flWheelRadius (this s') = 0.1%float /\
    frWheelRadius (this s') = 0.1%float /\
    blWheelRadius (this s') = 0.1%float /\
    brWheelRadius (this s') = 0.1%float.
Proof.
  intros Hw Hm Hmiss.
  pose proof (searching_joints_eq s w mdl Hw Hm) as Hs. rewrite Hmiss in Hs.
  destruct Hs as [s' Hs']. exists s'.
  split; [ now rewrite on_rover_model_loaded_split, (bind_Thrown _ _ _ _ _ Hs') | ].
  rewrite (bind_Ok _ _ _ _ _ (rover_stuff_eq s w Hw)) in Hs'.
  unfold GetModel in Hs'. rewrite Hm in Hs'.
  assert (Hkeep : forall {X} (f : Plugin -> X),
            (forall v p, f (set_flWheelJoint v p) = f p) ->
            (forall v p, f (set_frWheelJoint v p) = f p) ->
            (forall v p, f (set_blWheelJoint v p) = f p) ->
            (forall v p, f (set_brWheelJoint v p) = f p) ->
            (forall v p, f (set_frWheelSteeringJoint v p) = f p) ->
            (forall v p, f (set_flWheelSteeringJoint v p) = f p) ->
            forall s0, searching_joints s0 = Thrown msg s' -> f (this s') = f (this s0)).
  { intros X f H1 H2 H3 H4 H5 H6 s0 Hs0.
    pose proof (same_on_searching_joints f H1 H2 H3 H4 H5 H6 s0) as H.
    rewrite Hs0 in H. exact H. }
  split_and!;
    (erewrite Hkeep; [ | reflexivity .. | exact Hs' ]; cbn [this]; try reflexivity).
  exact Hw.
Qed.

(** ** What a resolution changes in the world *)

Lemma models_alter_joint_ne
    (ref : string * string) (f : Joint -> Joint) (w : World) (mn : string) :
  ref.1 <> mn -> models (alter_joint ref f w) !! mn = models w !! mn.
Proof.
  intros Hne. unfold alter_joint. cbn [models set_models].
  now rewrite (lookup_alter_ne (M:=gmap string)).
Qed.

Lemma models_braked_ne (w : World) (mn : string) :
  mn <> "rover" -> models (braked FL FR BL BR w) !! mn = models w !! mn.
Proof.
  intros Hne. unfold braked.
  now rewrite !models_alter_joint_ne by (cbn [fst FL FR BL BR]; congruence).
Qed.

Lemma world_kept_braked (w : World) : world_kept w (braked FL FR BL BR w).
Proof. repeat split. Qed.

(** [brake] writes axis 0 of the two stops and the two parameters, and
    nothing else of a joint. *)
Lemma brake_frame (j : Joint) :
  GetChild (brake j) = GetChild j /\
  (forall k : nat, k <> 0%nat ->
     highStop (brake j) !! k = highStop j !! k /\
     lowStop (brake j) !! k = lowStop j !! k) /\
  (forall key : string * nat,
     key <> ("stop_erp", 0%nat) -> key <> ("stop_cfm", 0%nat) ->
     param (brake j) !! key = param j !! key).
Proof.
  unfold brake. cbn [highStop lowStop param GetChild SetParam SetLowStop SetHighStop].
  split_and!; [ reflexivity | | ].
  - intros k Hk. split; apply lookup_insert_ne; congruence.
  - intros key He Hc. rewrite !lookup_insert_ne by congruence. reflexivity.
Qed.

(** X6. A resolution that returns has changed, in the world, the four
    wheel joints of the rover and nothing else: the world's name, pause
    flag, iteration count, clock and physics engine, every other model and
    every other joint of the rover are as before; and of a wheel joint only
    the two stops on axis 0 and the parameters [stop_erp] and [stop_cfm] on
    axis 0 are written, the child link and every other stop and parameter
    stay. *)
Theorem resolution_touches_wheel_joints_only (s s' : Sim) (w : World) :
  on_rover_model_loaded s = Ok tt s' ->
  _parent_world (this s) = Some w ->
  exists w',
    _parent_world (this s') = Some w' /\
    world_kept w w' /\
    (forall mn, mn <> "rover" -> models w' !! mn = models w !! mn) /\
    (forall ref, ref <> FL -> ref <> FR -> ref <> BL -> ref <> BR ->
       joint_at w' (Some ref) = joint_at w (Some ref)) /\
    Forall (fun ref => exists j,
              joint_at w (Some ref) = Some j /\
              joint_at w' (Some ref) = Some (brake j) /\
              GetChild (brake j) = GetChild j /\
              (forall k : nat, k <> 0%nat ->
                 highStop (brake j) !! k = highStop j !! k /\
                 lowStop (brake j) !! k = lowStop j !! k) /\
              (forall key : string * nat,
                 key <> ("stop_erp", 0%nat) -> key <> ("stop_cfm", 0%nat) ->
                 param (brake j) !! key = param j !! key))
           [FL; FR; BL; BR].
Proof.
  intros Hok Hw.
  destruct (on_rover_model_loaded_Ok s s' Hok)
    as (w0 & mdl & cfg & jfl & jfr & jbl & jbr & lfl & lfr & lbl & lbr & Hscene & ->).
  destruct Hscene as [Hw0 Hcfg Hm Hfl Hfr Hbl Hbr Hsl Hsr Cfl Cfr Cbl Cbr].
  rewrite Hw in Hw0. injection Hw0 as <-.
  exists (braked FL FR BL BR w). split_and!.
  - reflexivity.
  - apply world_kept_braked.
  - intros mn Hmn. now apply models_braked_ne.
  - intros ref H1 H2 H3 H4. now apply joint_at_braked_other.
  - repeat constructor.
    + exists jfl. split; [ unfold FL; now rewrite (joint_at_rover w mdl _ Hm) | ].
      split; [ | apply brake_frame ].
      rewrite joint_at_braked_FL. unfold FL. now rewrite (joint_at_rover w mdl _ Hm), Hfl.
    + exists jfr. split; [ unfold FR; now rewrite (joint_at_rover w mdl _ Hm) | ].
      split; [ | apply brake_frame ].
      rewrite joint_at_braked_FR. unfold FR. now rewrite (joint_at_rover w mdl _ Hm), Hfr.
    + exists jbl. split; [ unfold BL; now rewrite (joint_at_rover w mdl _ Hm) | ].
      split; [ | apply brake_frame ].
      rewrite joint_at_braked_BL. unfold BL. now rewrite (joint_at_rover w mdl _ Hm), Hbl.
    + exists jbr. split; [ unfold BR; now rewrite (joint_at_rover w mdl _ Hm) | ].
      split; [ | apply brake_frame ].
      rewrite joint_at_braked_BR. unfold BR. now rewrite (joint_at_rover w mdl _ Hm), Hbr.
Qed.

(** ** Running the resolver again *)

(** Two plugin objects with the same members are the same. *)
Lemma Plugin_ext (p q : Plugin) :
  _parent_world p = _parent_world q ->
  _sdf p = _sdf q ->
  _modelName p = _modelName q ->
  _nbMotorSpeed p = _nbMotorSpeed q ->
  _isSimPaused p = _isSimPaused q ->
  _timeMsgAlreadyDisplayed p = _timeMsgAlreadyDisplayed q ->
  _fdm_timestamp p = _fdm_timestamp q ->
  _controlSub p = _controlSub q ->
  _modelInfoSub p = _modelInfoSub q ->
  _updateConnection p = _updateConnection q ->
  _rover_model p = _rover_model q ->
  node p = node q ->
  wheelRadius p = wheelRadius q ->
  flWheelRadius p = flWheelRadius q ->
  frWheelRadius p = frWheelRadius q ->
  blWheelRadius p = blWheelRadius q ->
  brWheelRadius p = brWheelRadius q ->
  steeredWheelForce p = steeredWheelForce q ->
  frontTorque p = frontTorque q ->
  backTorque p = backTorque q ->
  tireAngleRange p = tireAngleRange q ->
  maxSpeed p = maxSpeed q ->
  maxSteer p = maxSteer q ->
  aeroLoad p = aeroLoad q ->
  flWheelJoint p = flWheelJoint q ->
  frWheelJoint p = frWheelJoint q ->
  blWheelJoint p = blWheelJoint q ->
  brWheelJoint p = brWheelJoint q ->
  frWheelSteeringJoint p = frWheelSteeringJoint q ->
  flWheelSteeringJoint p = flWheelSteeringJoint q ->
  p = q.
Proof. destruct p, q. cbn. intros. subst. reflexivity. Qed.

(** The member a projection reads of a plugin written by the setters. *)
Ltac read_member :=
  cbn [
    _parent_world _sdf _modelName _nbMotorSpeed _isSimPaused _timeMsgAlreadyDisplayed
    _fdm_timestamp _controlSub _modelInfoSub _updateConnection _rover_model node
    wheelRadius flWheelRadius frWheelRadius blWheelRadius brWheelRadius
    steeredWheelForce frontTorque backTorque tireAngleRange maxSpeed maxSteer aeroLoad
    flWheelJoint frWheelJoint blWheelJoint brWheelJoint frWheelSteeringJoint
    flWheelSteeringJoint set__parent_world set__sdf set__modelName set__nbMotorSpeed
    set__isSimPaused set__timeMsgAlreadyDisplayed set__fdm_timestamp set__controlSub
    set__modelInfoSub set__updateConnection set__rover_model set_node set_wheelRadius
    set_flWheelRadius set_frWheelRadius set_blWheelRadius set_brWheelRadius
    set_steeredWheelForce set_frontTorque set_backTorque set_tireAngleRange set_maxSpeed
    set_maxSteer set_aeroLoad set_flWheelJoint set_frWheelJoint set_blWheelJoint
    set_brWheelJoint set_frWheelSteeringJoint set_flWheelSteeringJoint ].

Lemma brake_idem (j : Joint) : brake (brake j) = brake j.
Proof.
  unfold brake, SetParam, SetLowStop, SetHighStop. cbn [highStop lowStop param GetChild].
  f_equal.
  - apply insert_insert_eq.
  - apply insert_insert_eq.
  - apply map_eq. intros key. rewrite !lookup_insert.
    repeat case_decide; try reflexivity; congruence.
Qed.

Lemma World_ext (w w' : World) :
  GetName w = GetName w' -> IsPaused w = IsPaused w' ->
  GetIterations w = GetIterations w' -> clock w = clock w' ->
  GetPhysicsEngine w = GetPhysicsEngine w' -> models w = models w' ->
  w = w'.
Proof. destruct w, w'. cbn. intros. subst. reflexivity. Qed.

(** Two worlds with the same models, and the same joints under them, have
    the same model table. *)
Lemma models_ext (w w' : World) :
  (forall mn, is_Some (models w !! mn) <-> is_Some (models w' !! mn)) ->
  (forall ref, joint_at w (Some ref) = joint_at w' (Some ref)) ->
  models w = models w'.
Proof.
  intros Hm Hj. apply map_eq. intros mn.
  destruct (models w !! mn) as [[js]|] eqn:E, (models w' !! mn) as [[js']|] eqn:E'.
  - do 2 f_equal. apply map_eq. intros jn.
    specialize (Hj (mn, jn)). unfold joint_at in Hj. cbn [mbind option_bind] in Hj.
    rewrite E, E' in Hj. exact Hj.
  - destruct (proj1 (Hm mn)) as [m Hx]; [ rewrite E; eauto | congruence ].
  - destruct (proj2 (Hm mn)) as [m Hx]; [ rewrite E'; eauto | congruence ].
  - reflexivity.
Qed.

Lemma is_Some_models_alter_joint
    (ref : string * string) (f : Joint -> Joint) (w : World) (mn : string) :
  is_Some (models (alter_joint ref f w) !! mn) <-> is_Some (models w !! mn).
Proof.
  unfold alter_joint. cbn [models set_models].
  rewrite (lookup_alter (M:=gmap string)). case_decide; [ subst mn | reflexivity ].
  apply fmap_is_Some.
Qed.

Lemma is_Some_models_braked (w : World) (mn : string) :
  is_Some (models (braked FL FR BL BR w) !! mn) <-> is_Some (models w !! mn).
Proof. unfold braked. now rewrite !is_Some_models_alter_joint. Qed.

Lemma joint_at_braked_idem (w : World) (ref : string * string) :
  joint_at (braked FL FR BL BR (braked FL FR BL BR w)) (Some ref) =
  joint_at (braked FL FR BL BR w) (Some ref).
Proof.
  destruct (decide (ref = FL)) as [->|Hfl].
  { rewrite !joint_at_braked_FL. destruct (joint_at w (Some FL)); [ | reflexivity ].
    cbn [fmap option_fmap option_map]. now rewrite brake_idem. }
  destruct (decide (ref = FR)) as [->|Hfr].
  { rewrite !joint_at_braked_FR. destruct (joint_at w (Some FR)); [ | reflexivity ].
    cbn [fmap option_fmap option_map]. now rewrite brake_idem. }
  destruct (decide (ref = BL)) as [->|Hbl].
  { rewrite !joint_at_braked_BL. destruct (joint_at w (Some BL)); [ | reflexivity ].
    cbn [fmap option_fmap option_map]. now rewrite brake_idem. }
  destruct (decide (ref = BR)) as [->|Hbr].
  { rewrite !joint_at_braked_BR. destruct (joint_at w (Some BR)); [ | reflexivity ].
    cbn [fmap option_fmap option_map]. now rewrite brake_idem. }
  now rewrite !joint_at_braked_other.
Qed.

(** Braking a braked world changes nothing. *)
Lemma braked_idem (w : World) :
  braked FL FR BL BR (braked FL FR BL BR w) = braked FL FR BL BR w.
Proof.
  destruct (world_kept_braked (braked FL FR BL BR w)) as (Hn & Hp & Hi & Hc & He).
  apply World_ext; [ assumption .. | ].
  apply models_ext.
  - intros mn. apply is_Some_models_braked.
  - apply joint_at_braked_idem.
Qed.

Lemma resolved_resolved
    (cfg : Element) (w : World) (lfl lfr lbl lbr : Link) (p : Plugin) :
  resolved cfg (braked FL FR BL BR w) lfl lfr lbl lbr (resolved cfg w lfl lfr lbl lbr p) =
  resolved cfg w lfl lfr lbl lbr p.
Proof.
  apply Plugin_ext; unfold resolved, joints_found; read_member;
    [ now rewrite braked_idem | reflexivity .. ].
Qed.

Lemma joint_at_Some (w : World) (mn jn : string) (j : Joint) :
  joint_at w (Some (mn, jn)) = Some j ->
  exists mdl, models w !! mn = Some mdl /\ joints mdl !! jn = Some j.
Proof.
  unfold joint_at. cbn [mbind option_bind].
  destruct (models w !! mn) as [mdl|]; [ eauto | discriminate ].
Qed.

(** X7. Running the resolver again on a plugin it has just resolved
    returns again and changes neither the plugin nor the world: the joints
    are already braked, the parameters and radii are read to the same values.
    Only the two lines of the search are logged once more. *)
Theorem second_resolution_changes_nothing (s s1 : Sim) :
  on_rover_model_loaded s = Ok tt s1 ->
  on_rover_model_loaded s1 =
  Ok tt {| this := this s1; out := out s1 ++ searching_messages |}.
Proof.
  intros Hok.
  destruct (on_rover_model_loaded_Ok s s1 Hok)
    as (w & mdl & cfg & jfl & jfr & jbl & jbr & lfl & lfr & lbl & lbr & Hscene & ->).
  destruct Hscene as [Hw Hcfg Hm Hfl Hfr Hbl Hbr Hsl Hsr Cfl Cfr Cbl Cbr].
  pose proof (joint_at_braked_FL w) as HFL.
  pose proof (joint_at_braked_FR w) as HFR.
  pose proof (joint_at_braked_BL w) as HBL.
  pose proof (joint_at_braked_BR w) as HBR.
  pose proof (joint_at_braked_other w ("rover", "front_left_steering_joint")) as HSL.
  pose proof (joint_at_braked_other w ("rover", "front_right_steering_joint")) as HSR.
  unfold FL, FR, BL, BR in HFL, HFR, HBL, HBR.
  rewrite (joint_at_rover w mdl _ Hm) in HFL. rewrite (joint_at_rover w mdl _ Hm) in HFR.
  rewrite (joint_at_rover w mdl _ Hm) in HBL. rewrite (joint_at_rover w mdl _ Hm) in HBR.
  rewrite (joint_at_rover w mdl _ Hm) in HSL. rewrite (joint_at_rover w mdl _ Hm) in HSR.
  rewrite Hfl in HFL. rewrite Hfr in HFR. rewrite Hbl in HBL. rewrite Hbr in HBR.
  specialize (HSL ltac:(discriminate) ltac:(discriminate) ltac:(discriminate)
                  ltac:(discriminate)).
  specialize (HSR ltac:(discriminate) ltac:(discriminate) ltac:(discriminate)
                  ltac:(discriminate)).
  cbn [fmap option_fmap option_map] in HFL, HFR, HBL, HBR.
  destruct (joint_at_Some (braked FL FR BL BR w) _ _ _ HFL) as (mdl' & Hm' & _).
  rewrite (joint_at_rover _ mdl' _ Hm') in HFL. rewrite (joint_at_rover _ mdl' _ Hm') in HFR.
  rewrite (joint_at_rover _ mdl' _ Hm') in HBL. rewrite (joint_at_rover _ mdl' _ Hm') in HBR.
  rewrite (joint_at_rover _ mdl' _ Hm') in HSL. rewrite (joint_at_rover _ mdl' _ Hm') in HSR.
  rewrite (on_rover_model_loaded_resolves _ (braked FL FR BL BR w) mdl' cfg
             (brake jfl) (brake jfr) (brake jbl) (brake jbr) lfl lfr lbl lbr).
  - cbn [this out]. now rewrite resolved_resolved.
  - constructor; try assumption.
    + reflexivity.
    + now rewrite HSL.
    + now rewrite HSR.
Qed.

(** The resolver run twice on the sample plugin. *)
Lemma second_resolution_changes_nothing_sample :
  on_rover_model_loaded Sample.resolved =
  Ok tt {| this := this Sample.resolved;
           out := out Sample.resolved ++ searching_messages |}.
Proof.
  assert (H : on_rover_model_loaded Sample.started = Ok tt Sample.resolved)
    by (vm_compute; reflexivity).
  exact (second_resolution_changes_nothing Sample.started Sample.resolved H).
Defined.

(** ** Schedules with model-load events *)

Lemma happen_Ok (h : Happening) (s s1 : Sim) (w : World) :
  _parent_world (this s) = Some w ->
  happen h s = Ok tt s1 ->
  exists w1,
    _parent_world (this s1) = Some w1 /\
    GetIterations w1 = (GetIterations w + if is_step_happening h then 1 else 0)%N /\
    _isSimPaused (this s1) = xorb (_isSimPaused (this s)) (asks_pause h).
Proof.
  intros Hw E. destruct h as [c|m]; cbn [happen is_step_happening asks_pause] in *.
  - destruct (call_Some c s w Hw) as (s1' & w1 & evs & Hc & Hw1 & Hi & _ & Hp & _).
    rewrite Hc in E. injection E as <-. exists w1. split_and!; assumption.
  - pose proof (world_kept_on_gazebo_modelInfo m s) as Hk.
    assert (Hp : respects (same_on _isSimPaused) (on_gazebo_modelInfo m))
      by (apply same_on_on_gazebo_modelInfo; reflexivity).
    specialize (Hp s). rewrite E in Hk, Hp. cbn [final] in Hk, Hp.
    unfold world_rel in Hk. rewrite Hw in Hk.
    destruct Hk as (w1 & Hw1 & (_ & _ & Hi & _)).
    exists w1. split_and!; [ exact Hw1 | rewrite Hi; apply eq_sym, N.add_0_r | ].
    unfold same_on in Hp. now rewrite Hp, xorb_false_r.
Qed.

(** X8. Over any schedule of steps, updates, control events and model-load
    events that runs to its end, the world has run exactly one iteration per
    call of [step_gazebo_sim], and [_isSimPaused] has changed exactly if the
    number of control events with a pause request is odd.  Updates and
    model-load events, resolving the rover or not, count for neither. *)
Theorem schedule_counts (hs : list Happening) (s s' : Sim) (w : World) :
  _parent_world (this s) = Some w ->
  happen_all hs s = Ok tt s' ->
  exists w',
    _parent_world (this s') = Some w' /\
    GetIterations w' = (GetIterations w + N.of_nat (count is_step_happening hs))%N /\
    _isSimPaused (this s') =
      xorb (_isSimPaused (this s)) (Nat.odd (count asks_pause hs)).
Proof.
  revert s w. induction hs as [|h hs IH]; intros s w Hw Hok; cbn [happen_all] in Hok.
  - unfold ret in Hok. injection Hok as <-. exists w. cbn [count].
    split_and!; [ exact Hw | apply eq_sym, N.add_0_r | now rewrite xorb_false_r ].
  - destruct (happen h s) as [[] s1|msg s1|s1] eqn:E.
    2:{ rewrite (bind_Thrown _ _ _ _ _ E) in Hok. discriminate. }
    2:{ rewrite (bind_Undefined _ _ _ _ E) in Hok. discriminate. }
    rewrite (bind_Ok _ _ _ _ _ E) in Hok.
    destruct (happen_Ok h s s1 w Hw E) as (w1 & Hw1 & Hi1 & Hp1).
    destruct (IH s1 w1 Hw1 Hok) as (w' & Hw' & Hi & Hp).
    exists w'. split_and!; [ exact Hw' | | ].
    + rewrite Hi, Hi1. cbn [count]. destruct (is_step_happening h); lia.
    + rewrite Hp, Hp1. cbn [count].
      destruct (asks_pause h); cbn [Nat.add].
      * rewrite Nat.odd_succ, <- Nat.negb_odd.
        now destruct (_isSimPaused (this s)), (Nat.odd (count asks_pause hs)).
      * now rewrite xorb_false_r.
Qed.

(** A schedule on the sample plugin: a step, the rover loaded, a pause
    request, an update, another model, a step. *)
Lemma schedule_counts_sample :
  exists w',
    _parent_world
      (this (final (happen_all
                      [a_call call_step; a_model {| name := "rover" |};
                       a_call (call_control {| pause := Some false |});
                       a_call call_update; a_model {| name := "drone1" |};
                       a_call call_step] Sample.started))) = Some w' /\
    GetIterations w' = 2%N /\
    _isSimPaused
      (this (final (happen_all
                      [a_call call_step; a_model {| name := "rover" |};
                       a_call (call_control {| pause := Some false |});
                       a_call call_update; a_model {| name := "drone1" |};
                       a_call call_step] Sample.started))) = true.
Proof.
  assert (Hw : _parent_world (this Sample.started) = Some (SetPaused true Sample.world))
    by (vm_compute; reflexivity).
  assert (Hok : happen_all
                  [a_call call_step; a_model {| name := "rover" |};
                   a_call (call_control {| pause := Some false |});
                   a_call call_update; a_model {| name := "drone1" |};
                   a_call call_step] Sample.started =
                Ok tt (final (happen_all
                  [a_call call_step; a_model {| name := "rover" |};
                   a_call (call_control {| pause := Some false |});
                   a_call call_update; a_model {| name := "drone1" |};
                   a_call call_step] Sample.started)))
    by (vm_compute; reflexivity).
  destruct (schedule_counts _ _ _ _ Hw Hok) as (w' & Hw' & Hi & Hp).
  exists w'. split_and!; [ exact Hw' | exact Hi | exact Hp ].
Defined.

(** ** [init_gazebo_side], beyond its result *)

(** X9. [init_gazebo_side] on a world and a configuration element takes
    [_modelName] from [UAV_MODEL] and [_nbMotorSpeed] from
    [NB_SERVOS_MOTOR_SPEED] when the element has them and keeps the values
    the object had otherwise, and logs the two values it ends with.  It keeps
    the configuration pointer, subscribes [on_gazebo_control] to
    [~/world_control] and [on_gazebo_modelInfo] to [~/model/info], connects
    [on_gazebo_update] to the end of the world update, and keeps the three
    handles.  It pauses the world but does not write [_isSimPaused]. *)
Theorem init_gazebo_side_configures (w : World) (cfg : Element) (s : Sim) :
  _modelName (this (initialised w cfg s)) =
    (if HasElement cfg "UAV_MODEL" then Get_string cfg "UAV_MODEL"
     else _modelName (this s)) /\
  _nbMotorSpeed (this (initialised w cfg s)) =
    (if HasElement cfg "NB_SERVOS_MOTOR_SPEED" then Get_int cfg "NB_SERVOS_MOTOR_SPEED"
     else _nbMotorSpeed (this s)) /\
  _sdf (this (initialised w cfg s)) = Some cfg /\
  _controlSub (this (initialised w cfg s)) =
    Some {| sub_topic := "~/world_control"; sub_callback := cb_on_gazebo_control |} /\
  _modelInfoSub (this (initialised w cfg s)) =
    Some {| sub_topic := "~/model/info"; sub_callback := cb_on_gazebo_modelInfo |} /\
  _updateConnection (this (initialised w cfg s)) =
    Some {| conn_callback := cb_on_gazebo_update |} /\
  _isSimPaused (this (initialised w cfg s)) = _isSimPaused (this s) /\
  _parent_world (this (initialised w cfg s)) = Some (SetPaused true w) /\
  emitted (init_gazebo_side (Some w) (Some cfg)) s =
    [ev_ROS_INFO (Fmt "Model name:      %s")
       [ArgS (_modelName (this (initialised w cfg s)))];
     ev_ROS_INFO (Fmt "Nb motor servos: %d")
       [ArgD (_nbMotorSpeed (this (initialised w cfg s)))];
     ev_Publish "~/physics"
       {| type := Some ODE; max_step_size := Some STEP_SIZE_FOR_ARDUPILOT |};
     ev_Subscribe "~/world_control" cb_on_gazebo_control;
     ev_Subscribe "~/model/info" cb_on_gazebo_modelInfo;
     ev_ConnectWorldUpdateEnd cb_on_gazebo_update].
Proof.
  unfold emitted, initialised. rewrite init_gazebo_side_Some. cbn [final this out].
  rewrite drop_app_length.
  destruct (HasElement cfg "UAV_MODEL"), (HasElement cfg "NB_SERVOS_MOTOR_SPEED");
    split_and!; reflexivity.
Qed.

(** X10. [init_gazebo_side] with a null configuration pointer runs into
    undefined behaviour at [_sdf->HasElement], before anything is logged;
    with a configuration but a null world pointer it does so at
    [_parent_world->GetName()], after the two lines of the log and before
    anything is published or subscribed.  In both cases the two pointers have
    been stored. *)
Theorem init_gazebo_side_null_pointer (world : WorldPtr) (cfg : Element) (s : Sim) :
  init_gazebo_side world None s =
    Undefined {| this := set__sdf None (set__parent_world world (this s));
                 out := out s |} /\
  exists s',
    init_gazebo_side None (Some cfg) s = Undefined s' /\
    _parent_world (this s') = None /\
    _sdf (this s') = Some cfg /\
    _controlSub (this s') = _controlSub (this s) /\
    _modelInfoSub (this s') = _modelInfoSub (this s) /\
    _updateConnection (this s') = _updateConnection (this s) /\
    out s' =
      out s ++
      [ev_ROS_INFO (Fmt "Model name:      %s") [ArgS (_modelName (this s'))];
       ev_ROS_INFO (Fmt "Nb motor servos: %d") [ArgD (_nbMotorSpeed (this s'))]].
Proof.
  split.
  - reflexivity.
  - unfold init_gazebo_side. unfold_M. simpl.
    destruct (HasElement cfg "UAV_MODEL"); simpl;
      destruct (HasElement cfg "NB_SERVOS_MOTOR_SPEED"); simpl;
      eexists; (split; [ reflexivity | ]); simpl;
      rewrite <- ?app_assoc; split_and!; reflexivity.
Qed.

(** ** The callbacks on a plugin without its world *)

(** X11. On a plugin whose world pointer is null, [step_gazebo_sim],
    [on_gazebo_update] and [on_rover_model_loaded] run into undefined
    behaviour at once.  [on_gazebo_control] returns and changes nothing for
    an event without a pause request, returns for a request that resumes,
    and runs into undefined behaviour, the flag already set, for a request
    that pauses.  [on_gazebo_modelInfo] returns, having logged the name, for
    any model but "rover", and runs into undefined behaviour for "rover". *)
Theorem callbacks_without_world (s : Sim) (m : WorldControl) (_msg : ModelMsg) :
  _parent_world (this s) = None ->
  step_gazebo_sim s = Undefined s /\
  on_gazebo_update s = Undefined s /\
  on_rover_model_loaded s = Undefined s /\
  (has_pause m = false -> on_gazebo_control m s = Ok tt s) /\
  (has_pause m = true -> _isSimPaused (this s) = true ->
   on_gazebo_control m s =
   Ok tt {| this := set__isSimPaused false (this s);
            out := out s ++ [resuming_message] |}) /\
  (has_pause m = true -> _isSimPaused (this s) = false ->
   on_gazebo_control m s =
   Undefined {| this := set__isSimPaused true (this s); out := out s |}) /\
  (name _msg <> "rover" ->
   on_gazebo_modelInfo _msg s =
   Ok tt {| this := this s; out := out s ++ [new_model_message _msg] |}) /\
  (name _msg = "rover" ->
   exists s', on_gazebo_modelInfo _msg s = Undefined s' /\ this s' = this s).
Proof.
  intros Hw. split_and!.
  - unfold step_gazebo_sim, parent_world_do, parent_world, bind, get, deref.
    now rewrite Hw.
  - unfold on_gazebo_update, parent_world, bind, get, deref. now rewrite Hw.
  - now apply on_rover_model_loaded_no_world.
  - intros Hm. unfold on_gazebo_control. now rewrite Hm.
  - intros Hm Hp. unfold on_gazebo_control. rewrite Hm.
    unfold bind, modify, get, ROS_INFO, emit. cbn [this out _isSimPaused set__isSimPaused].
    rewrite Hp. reflexivity.
  - intros Hm Hp. unfold on_gazebo_control. rewrite Hm.
    unfold bind, modify, get, parent_world_do, parent_world, deref.
    cbn [this out _isSimPaused set__isSimPaused _parent_world].
    rewrite Hp. cbn [negb this out _isSimPaused set__isSimPaused _parent_world].
    unfold bind, get. cbn [this out _isSimPaused set__isSimPaused _parent_world].
    rewrite Hw. reflexivity.
  - intros Hne. unfold on_gazebo_modelInfo.
    rewrite lnot_std_string_compare. rewrite bool_decide_eq_false_2 by exact Hne.
    destruct s. reflexivity.
  - intros He. unfold on_gazebo_modelInfo.
    rewrite lnot_std_string_compare. rewrite bool_decide_eq_true_2 by exact He.
    unfold ROS_INFO. rewrite !emit_bind.
    eexists. split; [ apply on_rover_model_loaded_no_world; exact Hw | reflexivity ].
Qed.

(** The callbacks on the sample plugin before [init_gazebo_side]. *)
Lemma callbacks_without_world_sample :
  step_gazebo_sim Sample.fresh = Undefined Sample.fresh /\
  on_gazebo_update Sample.fresh = Undefined Sample.fresh /\
  on_gazebo_control {| pause := None |} Sample.fresh = Ok tt Sample.fresh /\
  on_gazebo_modelInfo {| name := "drone1" |} Sample.fresh =
    Ok tt {| this := this Sample.fresh;
             out := out Sample.fresh ++ [new_model_message {| name := "drone1" |}] |}.
Proof.
  destruct (callbacks_without_world Sample.fresh {| pause := None |} {| name := "drone1" |}
              eq_refl) as (H1 & H2 & _ & H4 & _ & _ & H7 & _).
  split_and!; [ exact H1 | exact H2 | exact (H4 eq_refl) | apply H7; discriminate ].
Defined.

(** ** What a resolution fixes *)

(** X12. A resolution that returns leaves the plugin with the model
    pointer on "rover", a node initialised with the world's name, the four
    wheel joint pointers on the joints of their own names, [wheelRadius] 0.1,
    [steeredWheelForce] 5000 and [tireAngleRange] 0: no key of the
    configuration reaches these three, and the radius read off the
    collisions goes to the four per-wheel fields only. *)
Theorem resolution_fixed_members (s s' : Sim) (w : World) :
  on_rover_model_loaded s = Ok tt s' ->
  _parent_world (this s) = Some w ->
  _rover_model (this s') = Some "rover" /\
  node (this s') = Some (Node_Init (GetName w)) /\
  flWheelJoint (this s') = Some ("rover", "front_left_wheel_joint") /\
  frWheelJoint (this s') = Some ("rover", "front_right_wheel_joint") /\
  blWheelJoint (this s') = Some ("rover", "rear_left_wheel_joint") /\
  brWheelJoint (this s') = Some ("rover", "rear_right_wheel_joint") /\
  wheelRadius (this s') = 0.1%float /\
  steeredWheelForce (this s') = 5000%float /\
  tireAngleRange (this s') = 0%float.
Proof.
  intros Hok Hw.
  destruct (on_rover_model_loaded_Ok s s' Hok)
    as (w0 & mdl & cfg & jfl & jfr & jbl & jbr & lfl & lfr & lbl & lbr & Hscene & ->).
  destruct Hscene as [Hw0 _ _ _ _ _ _ _ _ _ _ _ _].
  rewrite Hw in Hw0. injection Hw0 as <-.
  split_and!; reflexivity.
Qed.

(** The sample plugin, resolved. *)
Lemma resolution_fixed_members_sample :
  _rover_model (this Sample.resolved) = Some "rover" /\
  node (this Sample.resolved) = Some (Node_Init "default") /\
  flWheelJoint (this Sample.resolved) = Some ("rover", "front_left_wheel_joint") /\
  frWheelJoint (this Sample.resolved) = Some ("rover", "front_right_wheel_joint") /\
  blWheelJoint (this Sample.resolved) = Some ("rover", "rear_left_wheel_joint") /\
  brWheelJoint (this Sample.resolved) = Some ("rover", "rear_right_wheel_joint") /\
  wheelRadius (this Sample.resolved) = 0.1%float /\
  steeredWheelForce (this Sample.resolved) = 5000%float /\
  tireAngleRange (this Sample.resolved) = 0%float.
Proof.
  assert (Hok : on_rover_model_loaded Sample.started = Ok tt Sample.resolved)
    by (vm_compute; reflexivity).
  assert (Hw : _parent_world (this Sample.started) = Some (SetPaused true Sample.world))
    by (vm_compute; reflexivity).
  exact (resolution_fixed_members Sample.started Sample.resolved _ Hok Hw).
Defined.

(** ** The properties above on the sample plugin *)

(** A schedule with a resolution and a resume request, on the sample
    plugin: the world is still paused and has not gone back. *)
Lemma world_never_rewound_sample :
  exists w',
    _parent_world
      (this (final (happen_all
                      [a_call call_step; a_model {| name := "rover" |};
                       a_call (call_control {| pause := Some true |});
                       a_call (call_control {| pause := Some false |});
                       a_call call_update; a_call call_step] Sample.started))) = Some w' /\
    world_advanced (SetPaused true Sample.world) w'.
Proof.
  assert (Hw : _parent_world (this Sample.started) = Some (SetPaused true Sample.world))
    by (vm_compute; reflexivity).
  exact (world_never_rewound
           [a_call call_step; a_model {| name := "rover" |};
            a_call (call_control {| pause := Some true |});
            a_call (call_control {| pause := Some false |});
            a_call call_update; a_call call_step] Sample.started _ Hw).
Defined.

(** The resolved sample plugin, its world then replaced by one whose rover
    has lost a steering joint: the next resolution throws, and [maxSpeed],
    12.5 from the configuration, is back to 0. *)
Lemma failed_resolution_resets_sample :
  maxSpeed (this Sample.resolved) = 12.5%float /\
  exists s',
    on_rover_model_loaded
      {| this := set__parent_world
                   (Some (Sample.world_without "front_left_steering_joint"))
                   (this Sample.resolved);
         out := [] |} =
      Thrown ("could not find front right steering joint" +:+ nl) s' /\
    _parent_world (this s') = Some (Sample.world_without "front_left_steering_joint") /\
    maxSpeed (this s') = 0%float /\
    flWheelRadius (this s') = 0.1%float.
Proof.
  split; [ vm_compute; reflexivity | ].
  assert (Hw : _parent_world
                 (this {| this := set__parent_world
                                    (Some (Sample.world_without "front_left_steering_joint"))
                                    (this Sample.resolved);
                          out := [] |}) =
               Some (Sample.world_without "front_left_steering_joint"))
    by reflexivity.
  assert (Hm : models (Sample.world_without "front_left_steering_joint") !! "rover" =
               Some {| joints := delete "front_left_steering_joint" (joints Sample.rover) |})
    by (vm_compute; reflexivity).
  assert (Hmiss : first_missing
                    {| joints := delete "front_left_steering_joint" (joints Sample.rover) |} =
                  Some ("could not find front right steering joint" +:+ nl))
    by (vm_compute; reflexivity).
  destruct (failed_resolution_resets _ _ _ _ Hw Hm Hmiss)
    as (s' & Hthrown & Hworld & _ & _ & _ & _ & Hspeed & _ & _ & _ & _ & _ & Hfl & _).
  exists s'. split_and!; assumption.
Defined.

(** The resolution of the sample plugin, seen from the world. *)
Lemma resolution_touches_wheel_joints_only_sample :
  exists w',
    _parent_world (this Sample.resolved) = Some w' /\
    world_kept (SetPaused true Sample.world) w' /\
    joint_at w' (Some ("rover", "front_left_steering_joint")) = Some Sample.steering_joint /\
    GetChild <$> joint_at w' (Some FL) = Some (Some (Sample.wheel_link 0.15%float)).
Proof.
  assert (Hok : on_rover_model_loaded Sample.started = Ok tt Sample.resolved)
    by (vm_compute; reflexivity).
  assert (Hw : _parent_world (this Sample.started) = Some (SetPaused true Sample.world))
    by (vm_compute; reflexivity).
  assert (Hs : joint_at (SetPaused true Sample.world)
                 (Some ("rover", "front_left_steering_joint")) = Some Sample.steering_joint)
    by (vm_compute; reflexivity).
  assert (Hj : joint_at (SetPaused true Sample.world) (Some FL) =
               Some (Sample.wheel_joint 0.15%float))
    by (vm_compute; reflexivity).
  destruct (resolution_touches_wheel_joints_only _ _ _ Hok Hw)
    as (w' & Hw' & Hkept & _ & Hother & Hwheels).
  exists w'. split_and!; [ exact Hw' | exact Hkept | | ].
  - rewrite Hother by discriminate. exact Hs.
  - apply Forall_cons_1 in Hwheels. destruct Hwheels as [(j & Hj0 & Hj1 & Hc & _) _].
    rewrite Hj in Hj0. injection Hj0 as <-. rewrite Hj1. cbn [fmap option_fmap option_map].
    rewrite Hc. reflexivity.
Defined.

(** ** What the calls of a schedule keep *)

Lemma same_on_call {X} (f : Plugin -> X) (c : Call) :
  (forall v p, f (set__parent_world v p) = f p) ->
  (forall v p, f (set__isSimPaused v p) = f p) ->
  (forall v p, f (set__fdm_timestamp v p) = f p) ->
  (forall v p, f (set__timeMsgAlreadyDisplayed v p) = f p) ->
  respects (same_on f) (call c).
Proof.
  intros. destruct c; unfold_callbacks; unfold parent_world_do, parent_world; frame.
Qed.

Lemma models_kept_call (c : Call) : respects (world_rel models_kept) (call c).
Proof. destruct c; unfold_callbacks; frame. Qed.

Lemma respects_run (R : relation Sim) `{!PreOrder R} (cs : list Call) :
  (forall c, respects R (call c)) -> respects R (run cs).
Proof.
  intros Hcall. induction cs as [|c cs IH]; cbn [run].
  - now apply respects_ret.
  - apply respects_bind; [ assumption | apply Hcall | intros _; exact IH ].
Qed.

(** X13. Steps, updates and control events, in any number and order,
    leave what a resolution has set up as it is: the model pointer, the
    node, the radii, the vehicle parameters and the joint pointers in the
    plugin, and every model and joint of the world, the braked wheel joints
    among them.  Only a model-load event writes these. *)
Theorem calls_keep_resolution (cs : list Call) (s : Sim) :
  resolution_of (this (final (run cs s))) = resolution_of (this s) /\
  (forall w,
      _parent_world (this s) = Some w ->
      exists w',
        _parent_world (this (final (run cs s))) = Some w' /\
        models w' = models w).
Proof.
  split.
  - apply (respects_run (same_on resolution_of)). intros c.
    apply same_on_call; reflexivity.
  - intros w Hw.
    pose proof (respects_run (world_rel models_kept) cs models_kept_call s) as H.
    unfold world_rel in H. rewrite Hw in H. exact H.
Qed.
